(** * The authentication subsystem of the storefront server

    A shallow embedding of [server/controllers/authController.js] and of the
    user model (the second half of [server/index.js]): the request handlers
    [signup], [login], [logout], [protect], [updatePassword],
    [forgotPassword] and [resetPassword], the Mongoose schema hooks and
    instance methods they rely on, and the properties the specification
    states about them.

    Conventions.
    - A JavaScript string is a [string] whose characters are read as
      UTF-16 code units below 256.
    - [undefined] is [None]; a field that may be absent has an option type.
    - Times are milliseconds since the epoch, in [Z]; a counter is an
      integer in [Z], and the arithmetic on it rounds as that of a
      Number does.
    - A handler is a computation in the monad [M]: it threads the [World]
      (the users collection, the clock, the random source, the log of
      bcrypt comparisons) and may throw, as the [async] functions do.
    - A JSON Web Token is the data it signs together with the key that
      signed it.

    Scope.  The handlers are modelled from the request they receive to the
    response they send.  The middleware in front of them (rate limiters,
    body parsers, the cookie that carries the CSRF nonce), logging to the
    console and the version key of a document are left out.

    Besides the handlers, the file embeds the rest of the controller
    ([restrictTo], [validateToken]), the token methods of the model, the
    routes of [server/routes/auth.js] as the router hands a request to
    the controller, the middleware of the admin routes of the product
    router, and, in the module [Client], the pure utilities of the
    client: [sanitizeHtml], [isStrongPassword], the class [RateLimiter],
    [sanitizeFormData] and [validateCreditCard]. *)

From Stdlib Require Import ZArith List String Ascii Bool Lia.
Import ListNotations.
Local Open Scope string_scope.
Local Open Scope Z_scope.

Set Implicit Arguments.

(** ** JavaScript values *)

Module JS.

(** [!s] is false exactly for a non-empty string. *)
Definition truthy (s : option string) : bool :=
  match s with
  | Some s => negb (s =? "")%string
  | None => false
  end.

(** [a === b] on values that are strings or [undefined]. *)
Definition strict_eq (a b : option string) : bool :=
  match a, b with
  | Some x, Some y => (x =? y)%string
  | None, None => true
  | _, _ => false
  end.

(** [String(v)], the conversion [RegExp.prototype.test] applies. *)
Definition to_String (v : option string) : string :=
  match v with
  | Some s => s
  | None => "undefined"
  end.

Definition code (c : ascii) : Z := Z.of_nat (nat_of_ascii c).

Definition in_range (lo hi : Z) (c : ascii) : bool :=
  (lo <=? code c) && (code c <=? hi).

Definition is_digit (c : ascii) : bool := in_range 48 57 c.
Definition is_lower (c : ascii) : bool := in_range 97 122 c.
Definition is_upper (c : ascii) : bool := in_range 65 90 c.

(** The class [[!@#$%^&*]]. *)
Definition is_special (c : ascii) : bool :=
  existsb (Ascii.eqb c) (list_ascii_of_string "!@#$%^&*").

(** What [.] refuses: the line terminators (of those, only LF and CR are
    below 256). *)
Definition is_line_terminator (c : ascii) : bool :=
  (code c =? 10) || (code c =? 13).

(** The longest prefix [.*] can match. *)
Fixpoint dot_star (s : string) : list ascii :=
  match s with
  | EmptyString => []
  | String c r => if is_line_terminator c then [] else c :: dot_star r
  end.

(** A lookahead [(?=.*X)] at the start of the input. *)
Definition lookahead (X : ascii -> bool) (s : string) : bool :=
  existsb X (dot_star s).

(** [String.prototype.toLowerCase] on code units below 256. *)
Definition lower_char (c : ascii) : ascii :=
  if is_upper c || (in_range 192 222 c && negb (code c =? 215))
  then ascii_of_nat (nat_of_ascii c + 32)
  else c.

Fixpoint toLowerCase (s : string) : string :=
  match s with
  | EmptyString => EmptyString
  | String c r => String (lower_char c) (toLowerCase r)
  end.

(** White space and line terminators below 256, as [trim] strips them. *)
Definition is_space (c : ascii) : bool :=
  in_range 9 13 c || (code c =? 32) || (code c =? 160).

Fixpoint trimStart (s : string) : string :=
  match s with
  | EmptyString => EmptyString
  | String c r => if is_space c then trimStart r else s
  end.

Fixpoint trimEnd (s : string) : string :=
  match s with
  | EmptyString => EmptyString
  | String c r =>
      match trimEnd r with
      | EmptyString => if is_space c then EmptyString else String c EmptyString
      | r' => String c r'
      end
  end.

Definition trim (s : string) : string := trimEnd (trimStart s).

(** The Number nearest to an integer, ties going to the even
    significand: the integers up to [2 ^ 53] in magnitude are Numbers;
    beyond, a Number has 53 significant bits.  (Integers of [2 ^ 1024]
    and more, which a Number holds as [Infinity], are left out.) *)
Definition to_Number (m : Z) : Z :=
  let a := Z.abs m in
  if a <=? 2 ^ 53 then m
  else
    let ulp := 2 ^ (Z.log2 a - 52) in
    let q := a / ulp in
    let r := a mod ulp in
    let down := q * ulp in
    let up := (q + 1) * ulp in
    Z.sgn m
    * (if 2 * r <? ulp then down
       else if ulp <? 2 * r then up
       else if Z.even q then down else up).

(** [a + b] on Numbers that hold integers: the sum, rounded. *)
Definition add (a b : Z) : Z := to_Number (a + b).

End JS.

(** The pattern
    [/^(?=.*\d)(?=.*[a-z])(?=.*[A-Z])(?=.*[!@#$%^&*])(?=.{8,})/]
    that [signup], [updatePassword] and [resetPassword] each declare. *)
Definition passwordRegex_test (v : option string) : bool :=
  let s := JS.to_String v in
  JS.lookahead JS.is_digit s
  && JS.lookahead JS.is_lower s
  && JS.lookahead JS.is_upper s
  && JS.lookahead JS.is_special s
  && (8 <=? List.length (JS.dot_star s))%nat.

(** ** JSON payloads *)

Inductive Token : Type :=
| Signed (key : string) (id : nat) (iat exp : Z)
| Opaque (text : string).

#[local] Unset Elimination Schemes.

Inductive JSON : Type :=
| JStr (s : string)
| JNum (n : Z)
| JBool (b : bool)
| JDate (ms : Z)
| JTok (t : Token)
| JArr (items : list JSON)
| JObj (fields : list (string * JSON)).

#[local] Set Elimination Schemes.

(** Property lookup in serialised fields. *)
Fixpoint assoc (k : string) (fields : list (string * JSON)) : option JSON :=
  match fields with
  | [] => None
  | (k', v) :: rest => if (k' =? k)%string then Some v else assoc k rest
  end.

Definition get (k : string) (j : JSON) : option JSON :=
  match j with
  | JObj fields => assoc k fields
  | _ => None
  end.

(** [JSON.stringify] leaves out the properties whose value is
    [undefined]. *)
Definition opt_field {A} (k : string) (f : A -> JSON) (v : option A)
  : list (string * JSON) :=
  match v with
  | Some a => [(k, f a)]
  | None => []
  end.

(** ** The user model ([userSchema]) *)

Local Close Scope Z_scope.

Inductive Role : Type := role_user | role_admin.

Inductive EventType : Type :=
| LOGIN | FAILED_LOGIN | LOGOUT | PASSWORD_CHANGE | PASSWORD_RESET_REQUEST
| PASSWORD_RESET | EMAIL_CHANGE | ACCOUNT_LOCK | ACCOUNT_UNLOCK
| PROFILE_UPDATE | TWO_FACTOR_SETUP | TWO_FACTOR_DISABLE.

Record SecurityEvent : Type := {
  ev_type : EventType;
  ev_date : Z;
  ev_ip : option string;
  ev_userAgent : option string;
  ev_details : option string
}.

Record Address : Type := {
  addr_name : option string;
  addressLine1 : option string;
  addressLine2 : option string;
  city : option string;
  state : option string;
  postalCode : option string;
  country : option string;
  phone : option string;
  isDefault : bool
}.

(** A user document.  [password], [active] and [twoFactorSecret] are
    declared [select: false]: a document read from the collection carries
    them only when the query asks for them. *)
Record User : Type := {
  _id : nat;
  name : option string;
  email : option string;
  password : option string;
  passwordConfirm : option string;
  role : Role;
  emailVerified : bool;
  verificationToken : option string;
  verificationExpires : option Z;
  passwordChangedAt : option Z;
  passwordResetToken : option string;
  passwordResetExpires : option Z;
  active : option bool;
  lastLogin : option Z;
  lastLoginIp : option string;
  loginAttempts : Z;
  accountLocked : bool;
  lockUntil : option Z;
  twoFactorEnabled : bool;
  twoFactorSecret : option string;
  securityEvents : list SecurityEvent;
  addresses : list Address;
  createdAt : Z
}.

(** Field assignment, one function per field the code writes. *)
Definition set_email (v : option string) (u : User) : User :=
  Build_User (_id u) (name u) v (password u) (passwordConfirm u) (role u)
    (emailVerified u) (verificationToken u) (verificationExpires u)
    (passwordChangedAt u) (passwordResetToken u) (passwordResetExpires u)
    (active u) (lastLogin u) (lastLoginIp u) (loginAttempts u)
    (accountLocked u) (lockUntil u) (twoFactorEnabled u)
    (twoFactorSecret u) (securityEvents u) (addresses u) (createdAt u).

Definition set_password (v : option string) (u : User) : User :=
  Build_User (_id u) (name u) (email u) v (passwordConfirm u) (role u)
    (emailVerified u) (verificationToken u) (verificationExpires u)
    (passwordChangedAt u) (passwordResetToken u) (passwordResetExpires u)
    (active u) (lastLogin u) (lastLoginIp u) (loginAttempts u)
    (accountLocked u) (lockUntil u) (twoFactorEnabled u)
    (twoFactorSecret u) (securityEvents u) (addresses u) (createdAt u).

Definition set_passwordConfirm (v : option string) (u : User) : User :=
  Build_User (_id u) (name u) (email u) (password u) v (role u)
    (emailVerified u) (verificationToken u) (verificationExpires u)
    (passwordChangedAt u) (passwordResetToken u) (passwordResetExpires u)
    (active u) (lastLogin u) (lastLoginIp u) (loginAttempts u)
    (accountLocked u) (lockUntil u) (twoFactorEnabled u)
    (twoFactorSecret u) (securityEvents u) (addresses u) (createdAt u).

Definition set_emailVerified (v : bool) (u : User) : User :=
  Build_User (_id u) (name u) (email u) (password u) (passwordConfirm u)
    (role u) v (verificationToken u) (verificationExpires u)
    (passwordChangedAt u) (passwordResetToken u) (passwordResetExpires u)
    (active u) (lastLogin u) (lastLoginIp u) (loginAttempts u)
    (accountLocked u) (lockUntil u) (twoFactorEnabled u)
    (twoFactorSecret u) (securityEvents u) (addresses u) (createdAt u).

Definition set_verificationToken (v : option string) (u : User) : User :=
  Build_User (_id u) (name u) (email u) (password u) (passwordConfirm u)
    (role u) (emailVerified u) v (verificationExpires u)
    (passwordChangedAt u) (passwordResetToken u) (passwordResetExpires u)
    (active u) (lastLogin u) (lastLoginIp u) (loginAttempts u)
    (accountLocked u) (lockUntil u) (twoFactorEnabled u)
    (twoFactorSecret u) (securityEvents u) (addresses u) (createdAt u).

Definition set_verificationExpires (v : option Z) (u : User) : User :=
  Build_User (_id u) (name u) (email u) (password u) (passwordConfirm u)
    (role u) (emailVerified u) (verificationToken u) v
    (passwordChangedAt u) (passwordResetToken u) (passwordResetExpires u)
    (active u) (lastLogin u) (lastLoginIp u) (loginAttempts u)
    (accountLocked u) (lockUntil u) (twoFactorEnabled u)
    (twoFactorSecret u) (securityEvents u) (addresses u) (createdAt u).

Definition set_passwordChangedAt (v : option Z) (u : User) : User :=
  Build_User (_id u) (name u) (email u) (password u) (passwordConfirm u)
    (role u) (emailVerified u) (verificationToken u)
    (verificationExpires u) v (passwordResetToken u)
    (passwordResetExpires u) (active u) (lastLogin u) (lastLoginIp u)
    (loginAttempts u) (accountLocked u) (lockUntil u) (twoFactorEnabled u)
    (twoFactorSecret u) (securityEvents u) (addresses u) (createdAt u).

Definition set_passwordResetToken (v : option string) (u : User) : User :=
  Build_User (_id u) (name u) (email u) (password u) (passwordConfirm u)
    (role u) (emailVerified u) (verificationToken u)
    (verificationExpires u) (passwordChangedAt u) v
    (passwordResetExpires u) (active u) (lastLogin u) (lastLoginIp u)
    (loginAttempts u) (accountLocked u) (lockUntil u) (twoFactorEnabled u)
    (twoFactorSecret u) (securityEvents u) (addresses u) (createdAt u).

Definition set_passwordResetExpires (v : option Z) (u : User) : User :=
  Build_User (_id u) (name u) (email u) (password u) (passwordConfirm u)
    (role u) (emailVerified u) (verificationToken u)
    (verificationExpires u) (passwordChangedAt u) (passwordResetToken u) v
    (active u) (lastLogin u) (lastLoginIp u) (loginAttempts u)
    (accountLocked u) (lockUntil u) (twoFactorEnabled u)
    (twoFactorSecret u) (securityEvents u) (addresses u) (createdAt u).

Definition set_active (v : option bool) (u : User) : User :=
  Build_User (_id u) (name u) (email u) (password u) (passwordConfirm u)
    (role u) (emailVerified u) (verificationToken u)
    (verificationExpires u) (passwordChangedAt u) (passwordResetToken u)
    (passwordResetExpires u) v (lastLogin u) (lastLoginIp u)
    (loginAttempts u) (accountLocked u) (lockUntil u) (twoFactorEnabled u)
    (twoFactorSecret u) (securityEvents u) (addresses u) (createdAt u).

Definition set_lastLogin (v : option Z) (u : User) : User :=
  Build_User (_id u) (name u) (email u) (password u) (passwordConfirm u)
    (role u) (emailVerified u) (verificationToken u)
    (verificationExpires u) (passwordChangedAt u) (passwordResetToken u)
    (passwordResetExpires u) (active u) v (lastLoginIp u)
    (loginAttempts u) (accountLocked u) (lockUntil u) (twoFactorEnabled u)
    (twoFactorSecret u) (securityEvents u) (addresses u) (createdAt u).

Definition set_lastLoginIp (v : option string) (u : User) : User :=
  Build_User (_id u) (name u) (email u) (password u) (passwordConfirm u)
    (role u) (emailVerified u) (verificationToken u)
    (verificationExpires u) (passwordChangedAt u) (passwordResetToken u)
    (passwordResetExpires u) (active u) (lastLogin u) v (loginAttempts u)
    (accountLocked u) (lockUntil u) (twoFactorEnabled u)
    (twoFactorSecret u) (securityEvents u) (addresses u) (createdAt u).

Definition set_loginAttempts (v : Z) (u : User) : User :=
  Build_User (_id u) (name u) (email u) (password u) (passwordConfirm u)
    (role u) (emailVerified u) (verificationToken u)
    (verificationExpires u) (passwordChangedAt u) (passwordResetToken u)
    (passwordResetExpires u) (active u) (lastLogin u) (lastLoginIp u) v
    (accountLocked u) (lockUntil u) (twoFactorEnabled u)
    (twoFactorSecret u) (securityEvents u) (addresses u) (createdAt u).

Definition set_accountLocked (v : bool) (u : User) : User :=
  Build_User (_id u) (name u) (email u) (password u) (passwordConfirm u)
    (role u) (emailVerified u) (verificationToken u)
    (verificationExpires u) (passwordChangedAt u) (passwordResetToken u)
    (passwordResetExpires u) (active u) (lastLogin u) (lastLoginIp u)
    (loginAttempts u) v (lockUntil u) (twoFactorEnabled u)
    (twoFactorSecret u) (securityEvents u) (addresses u) (createdAt u).

Definition set_lockUntil (v : option Z) (u : User) : User :=
  Build_User (_id u) (name u) (email u) (password u) (passwordConfirm u)
    (role u) (emailVerified u) (verificationToken u)
    (verificationExpires u) (passwordChangedAt u) (passwordResetToken u)
    (passwordResetExpires u) (active u) (lastLogin u) (lastLoginIp u)
    (loginAttempts u) (accountLocked u) v (twoFactorEnabled u)
    (twoFactorSecret u) (securityEvents u) (addresses u) (createdAt u).

Definition set_twoFactorSecret (v : option string) (u : User) : User :=
  Build_User (_id u) (name u) (email u) (password u) (passwordConfirm u)
    (role u) (emailVerified u) (verificationToken u)
    (verificationExpires u) (passwordChangedAt u) (passwordResetToken u)
    (passwordResetExpires u) (active u) (lastLogin u) (lastLoginIp u)
    (loginAttempts u) (accountLocked u) (lockUntil u) (twoFactorEnabled u)
    v (securityEvents u) (addresses u) (createdAt u).

Definition set_securityEvents (v : list SecurityEvent) (u : User) : User :=
  Build_User (_id u) (name u) (email u) (password u) (passwordConfirm u)
    (role u) (emailVerified u) (verificationToken u)
    (verificationExpires u) (passwordChangedAt u) (passwordResetToken u)
    (passwordResetExpires u) (active u) (lastLogin u) (lastLoginIp u)
    (loginAttempts u) (accountLocked u) (lockUntil u) (twoFactorEnabled u)
    (twoFactorSecret u) v (addresses u) (createdAt u).

(** The paths of a document that the handlers and hooks assign. *)
Inductive Path : Type :=
| p_email | p_password | p_passwordConfirm | p_emailVerified
| p_verificationToken | p_verificationExpires | p_passwordChangedAt
| p_passwordResetToken | p_passwordResetExpires | p_loginAttempts
| p_accountLocked | p_lockUntil.

Definition Path_eqb (a b : Path) : bool :=
  match a, b with
  | p_email, p_email | p_password, p_password
  | p_passwordConfirm, p_passwordConfirm | p_emailVerified, p_emailVerified
  | p_verificationToken, p_verificationToken
  | p_verificationExpires, p_verificationExpires
  | p_passwordChangedAt, p_passwordChangedAt
  | p_passwordResetToken, p_passwordResetToken
  | p_passwordResetExpires, p_passwordResetExpires
  | p_loginAttempts, p_loginAttempts | p_accountLocked, p_accountLocked
  | p_lockUntil, p_lockUntil => true
  | _, _ => false
  end.

(** [copy p src dst] is [dst] with the value [src] has at path [p]: one
    [$set] (or, for [undefined], [$unset]) of an update. *)
Definition copy (p : Path) (src dst : User) : User :=
  match p with
  | p_email => set_email (email src) dst
  | p_password => set_password (password src) dst
  | p_passwordConfirm => set_passwordConfirm (passwordConfirm src) dst
  | p_emailVerified => set_emailVerified (emailVerified src) dst
  | p_verificationToken => set_verificationToken (verificationToken src) dst
  | p_verificationExpires => set_verificationExpires (verificationExpires src) dst
  | p_passwordChangedAt => set_passwordChangedAt (passwordChangedAt src) dst
  | p_passwordResetToken => set_passwordResetToken (passwordResetToken src) dst
  | p_passwordResetExpires => set_passwordResetExpires (passwordResetExpires src) dst
  | p_loginAttempts => set_loginAttempts (loginAttempts src) dst
  | p_accountLocked => set_accountLocked (accountLocked src) dst
  | p_lockUntil => set_lockUntil (lockUntil src) dst
  end.

Definition opt_eqb {A} (eqb : A -> A -> bool) (a b : option A) : bool :=
  match a, b with
  | Some x, Some y => eqb x y
  | None, None => true
  | _, _ => false
  end.

(** Whether two documents hold the same value at a path. *)
Definition same_at (p : Path) (a b : User) : bool :=
  match p with
  | p_email => opt_eqb String.eqb (email a) (email b)
  | p_password => opt_eqb String.eqb (password a) (password b)
  | p_passwordConfirm => opt_eqb String.eqb (passwordConfirm a) (passwordConfirm b)
  | p_emailVerified => Bool.eqb (emailVerified a) (emailVerified b)
  | p_verificationToken => opt_eqb String.eqb (verificationToken a) (verificationToken b)
  | p_verificationExpires => opt_eqb Z.eqb (verificationExpires a) (verificationExpires b)
  | p_passwordChangedAt => opt_eqb Z.eqb (passwordChangedAt a) (passwordChangedAt b)
  | p_passwordResetToken => opt_eqb String.eqb (passwordResetToken a) (passwordResetToken b)
  | p_passwordResetExpires => opt_eqb Z.eqb (passwordResetExpires a) (passwordResetExpires b)
  | p_loginAttempts => Z.eqb (loginAttempts a) (loginAttempts b)
  | p_accountLocked => Bool.eqb (accountLocked a) (accountLocked b)
  | p_lockUntil => opt_eqb Z.eqb (lockUntil a) (lockUntil b)
  end.

(** A document held by a handler: its current values, the paths marked
    modified since it was read or saved, and whether it was never saved. *)
Record Doc : Type := {
  fields : User;
  modified : list Path;
  isNew : bool
}.

Definition isModified (p : Path) (d : Doc) : bool :=
  existsb (Path_eqb p) (modified d).

(** [doc.path = value]: Mongoose marks the path modified when the value
    differs from the one held (always, on a new document). *)
Definition assign (p : Path) (f : User -> User) (d : Doc) : Doc :=
  let u' := f (fields d) in
  {| fields := u';
     modified := if isNew d || negb (same_at p (fields d) u')
                 then p :: modified d else modified d;
     isNew := isNew d |}.

(** A document as a query returns it. *)
Definition hydrate (u : User) : Doc :=
  {| fields := u; modified := []; isNew := false |}.

(** ** The platform: libraries and configuration

    The cryptographic primitives, the e-mail validator, the locale
    formatting of dates and the three environment variables are left
    abstract: every theorem holds whatever they are.  [JWT_EXPIRES_IN] is
    the lifetime in seconds that [jsonwebtoken] reads off the configured
    time span; [bcrypt_hash] takes the salt it draws as an argument. *)
Class Platform : Type := {
  bcrypt_hash : string -> string -> string;
  bcrypt_compare : string -> string -> bool;
  sha256_hex : string -> string;
  isEmail : string -> bool;
  toLocaleString : Z -> string;
  JWT_SECRET : string;
  JWT_EXPIRES_IN : Z;
  JWT_COOKIE_EXPIRES_IN : Z
}.

(** ** The world a handler runs in *)

Record World : Type := {
  users : list User;               (* the users collection *)
  clock : nat -> Z;                (* what the n-th reading of the clock gives *)
  reads : nat;                     (* readings made so far *)
  random : nat -> string;          (* what the n-th draw of random bytes gives *)
  draws : nat;                     (* draws made so far *)
  compared : list (string * string)  (* the calls to bcrypt.compare, latest first *)
}.

Definition with_users (l : list User) (w : World) : World :=
  {| users := l; clock := clock w; reads := reads w; random := random w;
     draws := draws w; compared := compared w |}.

Inductive Exn : Type :=
| TypeError
| IllegalArguments      (* bcryptjs, on a missing argument *)
| ValidationError       (* Mongoose, before a save *)
| DuplicateKey          (* MongoDB E11000, from the unique index on email *)
| JsonWebTokenError
| TokenExpiredError.

Inductive Outcome (A : Type) : Type :=
| Value (a : A)
| Thrown (e : Exn).
Arguments Thrown {A} e.

(** Computations that read and write the world and may throw.  What was
    written before a throw stays written. *)
Definition M (A : Type) : Type := World -> Outcome A * World.

Definition ret {A} (a : A) : M A := fun w => (Value a, w).

Definition bind {A B} (c : M A) (k : A -> M B) : M B :=
  fun w =>
    match c w with
    | (Value a, w') => k a w'
    | (Thrown e, w') => (Thrown e, w')
    end.

Definition throw {A} (e : Exn) : M A := fun w => (Thrown e, w).

(** [try { body } catch (err) { handler }]. *)
Definition try_catch {A} (body : M A) (handler : Exn -> M A) : M A :=
  fun w =>
    match body w with
    | (Value a, w') => (Value a, w')
    | (Thrown e, w') => handler e w'
    end.

Declare Scope monad_scope.
Delimit Scope monad_scope with monad.
Notation "x <- c ;; k" := (bind c (fun x => k))
  (at level 61, c at next level, right associativity) : monad_scope.
Notation "c ;;; k" := (bind c (fun _ => k))
  (at level 61, right associativity) : monad_scope.
Local Open Scope monad_scope.

(** [Date.now()]. *)
Definition Date_now : M Z :=
  fun w =>
    (Value (clock w (reads w)),
     {| users := users w; clock := clock w; reads := S (reads w);
        random := random w; draws := draws w; compared := compared w |}).

(** [crypto.randomBytes(n).toString('hex')]. *)
Definition randomBytes_hex : M string :=
  fun w =>
    (Value (random w (draws w)),
     {| users := users w; clock := clock w; reads := reads w;
        random := random w; draws := S (draws w); compared := compared w |}).

Definition find_users : M (list User) := fun w => (Value (users w), w).

Definition write_users (f : list User -> list User) : M unit :=
  fun w => (Value tt, with_users (f (users w)) w).

(** ** Requests and responses *)

Record Request : Type := {
  h_csrf : option string;              (* req.headers['x-csrf-token'] *)
  h_authorization : option (bool * option Token);
    (* the authorization header: whether it starts with Bearer, and the
       piece after its first space *)
  h_forwarded_proto : option string;   (* req.headers['x-forwarded-proto'] *)
  cookie_xsrf : option string;         (* req.cookies['XSRF-TOKEN'] *)
  cookie_jwt : option Token;           (* req.cookies.jwt *)
  body_name : option string;
  body_email : option string;
  body_password : option string;
  body_passwordConfirm : option string;
  body_currentPassword : option string;
  body_newPassword : option string;
  param_token : string;                (* req.params.token *)
  ip : string;
  secure : bool;
  req_user : option Doc                (* req.user, set by protect *)
}.

(** A request with one field replaced. *)
Definition with_h_csrf (v : option string) (r : Request) : Request :=
  Build_Request v (h_authorization r) (h_forwarded_proto r)
    (cookie_xsrf r) (cookie_jwt r) (body_name r) (body_email r)
    (body_password r) (body_passwordConfirm r) (body_currentPassword r)
    (body_newPassword r) (param_token r) (ip r) (secure r) (req_user r).

Definition with_h_authorization (v : option (bool * option Token)) (r : Request) : Request :=
  Build_Request (h_csrf r) v (h_forwarded_proto r) (cookie_xsrf r)
    (cookie_jwt r) (body_name r) (body_email r) (body_password r)
    (body_passwordConfirm r) (body_currentPassword r) (body_newPassword r)
    (param_token r) (ip r) (secure r) (req_user r).

Definition with_cookie_xsrf (v : option string) (r : Request) : Request :=
  Build_Request (h_csrf r) (h_authorization r) (h_forwarded_proto r) v
    (cookie_jwt r) (body_name r) (body_email r) (body_password r)
    (body_passwordConfirm r) (body_currentPassword r) (body_newPassword r)
    (param_token r) (ip r) (secure r) (req_user r).

Definition with_cookie_jwt (v : option Token) (r : Request) : Request :=
  Build_Request (h_csrf r) (h_authorization r) (h_forwarded_proto r)
    (cookie_xsrf r) v (body_name r) (body_email r) (body_password r)
    (body_passwordConfirm r) (body_currentPassword r) (body_newPassword r)
    (param_token r) (ip r) (secure r) (req_user r).

Definition with_body_name (v : option string) (r : Request) : Request :=
  Build_Request (h_csrf r) (h_authorization r) (h_forwarded_proto r)
    (cookie_xsrf r) (cookie_jwt r) v (body_email r) (body_password r)
    (body_passwordConfirm r) (body_currentPassword r) (body_newPassword r)
    (param_token r) (ip r) (secure r) (req_user r).

Definition with_body_email (v : option string) (r : Request) : Request :=
  Build_Request (h_csrf r) (h_authorization r) (h_forwarded_proto r)
    (cookie_xsrf r) (cookie_jwt r) (body_name r) v (body_password r)
    (body_passwordConfirm r) (body_currentPassword r) (body_newPassword r)
    (param_token r) (ip r) (secure r) (req_user r).

Definition with_body_password (v : option string) (r : Request) : Request :=
  Build_Request (h_csrf r) (h_authorization r) (h_forwarded_proto r)
    (cookie_xsrf r) (cookie_jwt r) (body_name r) (body_email r) v
    (body_passwordConfirm r) (body_currentPassword r) (body_newPassword r)
    (param_token r) (ip r) (secure r) (req_user r).

Definition with_body_passwordConfirm (v : option string) (r : Request) : Request :=
  Build_Request (h_csrf r) (h_authorization r) (h_forwarded_proto r)
    (cookie_xsrf r) (cookie_jwt r) (body_name r) (body_email r)
    (body_password r) v (body_currentPassword r) (body_newPassword r)
    (param_token r) (ip r) (secure r) (req_user r).

Definition with_body_currentPassword (v : option string) (r : Request) : Request :=
  Build_Request (h_csrf r) (h_authorization r) (h_forwarded_proto r)
    (cookie_xsrf r) (cookie_jwt r) (body_name r) (body_email r)
    (body_password r) (body_passwordConfirm r) v (body_newPassword r)
    (param_token r) (ip r) (secure r) (req_user r).

Definition with_body_newPassword (v : option string) (r : Request) : Request :=
  Build_Request (h_csrf r) (h_authorization r) (h_forwarded_proto r)
    (cookie_xsrf r) (cookie_jwt r) (body_name r) (body_email r)
    (body_password r) (body_passwordConfirm r) (body_currentPassword r) v
    (param_token r) (ip r) (secure r) (req_user r).

Definition with_param_token (v : string) (r : Request) : Request :=
  Build_Request (h_csrf r) (h_authorization r) (h_forwarded_proto r)
    (cookie_xsrf r) (cookie_jwt r) (body_name r) (body_email r)
    (body_password r) (body_passwordConfirm r) (body_currentPassword r)
    (body_newPassword r) v (ip r) (secure r) (req_user r).

Definition with_req_user (v : option Doc) (r : Request) : Request :=
  Build_Request (h_csrf r) (h_authorization r) (h_forwarded_proto r)
    (cookie_xsrf r) (cookie_jwt r) (body_name r) (body_email r)
    (body_password r) (body_passwordConfirm r) (body_currentPassword r)
    (body_newPassword r) (param_token r) (ip r) (secure r) v.

Record Cookie : Type := {
  c_name : string;
  c_value : Token;
  c_expires : Z;
  c_httpOnly : bool;
  c_secure : option bool
}.

Record Response : Type := {
  status : Z;
  cookies : list Cookie;    (* res.cookie calls of the handler *)
  body : JSON               (* res.json argument *)
}.

(** [res.status(code).json({status: 'error', message})]. *)
Definition error (code : Z) (message : string) : Response :=
  {| status := code; cookies := [];
     body := JObj [("status", JStr "error"); ("message", JStr message)] |}.

(** ** Serialisation of a user document ([toJSON], virtuals included) *)

Definition Role_name (r : Role) : string :=
  match r with role_user => "user" | role_admin => "admin" end.

Definition EventType_name (t : EventType) : string :=
  match t with
  | LOGIN => "LOGIN" | FAILED_LOGIN => "FAILED_LOGIN" | LOGOUT => "LOGOUT"
  | PASSWORD_CHANGE => "PASSWORD_CHANGE"
  | PASSWORD_RESET_REQUEST => "PASSWORD_RESET_REQUEST"
  | PASSWORD_RESET => "PASSWORD_RESET" | EMAIL_CHANGE => "EMAIL_CHANGE"
  | ACCOUNT_LOCK => "ACCOUNT_LOCK" | ACCOUNT_UNLOCK => "ACCOUNT_UNLOCK"
  | PROFILE_UPDATE => "PROFILE_UPDATE"
  | TWO_FACTOR_SETUP => "TWO_FACTOR_SETUP"
  | TWO_FACTOR_DISABLE => "TWO_FACTOR_DISABLE"
  end.

Definition SecurityEvent_toJSON (e : SecurityEvent) : JSON :=
  JObj ([("type", JStr (EventType_name (ev_type e))); ("date", JDate (ev_date e))]
        ++ opt_field "ip" JStr (ev_ip e)
        ++ opt_field "userAgent" JStr (ev_userAgent e)
        ++ opt_field "details" JStr (ev_details e)).

Definition Address_toJSON (a : Address) : JSON :=
  JObj (opt_field "name" JStr (addr_name a)
        ++ opt_field "addressLine1" JStr (addressLine1 a)
        ++ opt_field "addressLine2" JStr (addressLine2 a)
        ++ opt_field "city" JStr (city a)
        ++ opt_field "state" JStr (state a)
        ++ opt_field "postalCode" JStr (postalCode a)
        ++ opt_field "country" JStr (country a)
        ++ opt_field "phone" JStr (phone a)
        ++ [("isDefault", JBool (isDefault a))]).

Definition User_toJSON (u : User) : JSON :=
  JObj ([("_id", JNum (Z.of_nat (_id u)))]
        ++ opt_field "name" JStr (name u)
        ++ opt_field "email" JStr (email u)
        ++ opt_field "password" JStr (password u)
        ++ opt_field "passwordConfirm" JStr (passwordConfirm u)
        ++ [("role", JStr (Role_name (role u)));
            ("emailVerified", JBool (emailVerified u))]
        ++ opt_field "verificationToken" JStr (verificationToken u)
        ++ opt_field "verificationExpires" JDate (verificationExpires u)
        ++ opt_field "passwordChangedAt" JDate (passwordChangedAt u)
        ++ opt_field "passwordResetToken" JStr (passwordResetToken u)
        ++ opt_field "passwordResetExpires" JDate (passwordResetExpires u)
        ++ opt_field "active" JBool (active u)
        ++ opt_field "lastLogin" JDate (lastLogin u)
        ++ opt_field "lastLoginIp" JStr (lastLoginIp u)
        ++ [("loginAttempts", JNum (loginAttempts u));
            ("accountLocked", JBool (accountLocked u))]
        ++ opt_field "lockUntil" JDate (lockUntil u)
        ++ [("twoFactorEnabled", JBool (twoFactorEnabled u))]
        ++ opt_field "twoFactorSecret" JStr (twoFactorSecret u)
        ++ [("securityEvents", JArr (map SecurityEvent_toJSON (securityEvents u)));
            ("addresses", JArr (map Address_toJSON (addresses u)));
            ("createdAt", JDate (createdAt u))]
        ++ opt_field "fullName" JStr (name u)
        ++ [("id", JNum (Z.of_nat (_id u)))]).

Local Open Scope Z_scope.

Section Model.

Context {platform : Platform}.

(** *** Queries *)

(** The [pre(/^find/)] hook: every find also asks for
    [active: {$ne: false}]. *)
Definition is_active (u : User) : bool :=
  match active u with
  | Some false => false
  | _ => true
  end.

(** The projection of a query: the [select: false] paths are left out,
    [password] unless the query says [.select('+password')]. *)
Definition select (with_password : bool) (u : User) : User :=
  set_twoFactorSecret None
    (set_active None (if with_password then u else set_password None u)).

(** The setters of [email] ([lowercase], [trim]); Mongoose applies them
    to the values a document is built from and to the values of a query
    filter alike. *)
Definition email_setter (e : string) : string :=
  JS.trim (JS.toLowerCase e).

Definition findOne (filter : User -> bool) (with_password : bool)
  : M (option Doc) :=
  l <- find_users ;;
  ret (option_map (fun u => hydrate (select with_password u))
         (find (fun u => is_active u && filter u) l)).

(** The filter [{ email }].  An [undefined] value goes to the database
    as [null], which selects the documents that have no email. *)
Definition by_email (q : option string) (u : User) : bool :=
  match q with
  | Some e => opt_eqb String.eqb (email u) (Some (email_setter e))
  | None => match email u with
            | Some _ => false
            | None => true
            end
  end.

Definition by_id (id : nat) (u : User) : bool := (_id u =? id)%nat.

(** The filter
    [{ passwordResetToken: hash, passwordResetExpires: { $gt: now } }]. *)
Definition by_resetToken (hash : string) (now : Z) (u : User) : bool :=
  opt_eqb String.eqb (passwordResetToken u) (Some hash)
  && match passwordResetExpires u with
     | Some t => now <? t
     | None => false
     end.

Definition findById (id : nat) (with_password : bool) : M (option Doc) :=
  findOne (by_id id) with_password.

(** [updateOne]: the first document the filter selects is updated. *)
Fixpoint updateOne (filter : User -> bool) (f : User -> User)
  (l : list User) : list User :=
  match l with
  | [] => []
  | u :: rest =>
      if filter u then f u :: rest else u :: updateOne filter f rest
  end.

Definition findByIdAndUpdate (id : nat) (update : User -> User) : M unit :=
  write_users (updateOne (fun u => is_active u && by_id id u) update).

(** *** Saving a document *)

(** The [required] validator of a string path. *)
Definition required (v : option string) : bool := JS.truthy v.

Definition length_of (v : option string) : nat :=
  match v with
  | Some s => String.length s
  | None => 0
  end.

(** The validators of the paths [name] ([required], [maxlength]) and
    [email] ([required], [validator.isEmail]). *)
Definition validate_name (u : User) : bool :=
  required (name u) && (length_of (name u) <=? 50)%nat.

Definition validate_email (u : User) : bool :=
  required (email u) && isEmail (JS.to_String (email u)).

(** Validation before a save.  Mongoose validates the paths of the
    document that were loaded or assigned, and the required paths it
    lacks unless the query left them out: so [name], [email] and
    [passwordConfirm] of every document, new or stored, and [password]
    unless the document was read without it and nothing was assigned to
    it.  (A document read with [+password] from a record that has none
    counts here as read without it; the one handler that reads the
    password compares it before it saves, and the comparison rejects a
    missing hash.) *)
Definition validate (d : Doc) : bool :=
  let u := fields d in
  validate_name u
  && validate_email u
  && (if isNew d || isModified p_password d
         || match password u with Some _ => true | None => false end
      then required (password u) && (8 <=? length_of (password u))%nat
      else true)
  && (required (passwordConfirm u)
      && JS.strict_eq (passwordConfirm u) (password u)).

(** First [pre('save')] hook: hash a modified password, drop the
    confirmation, and date the change on a document that is not new. *)
Definition hash_password_hook (d : Doc) : M Doc :=
  if negb (isModified p_password d) then ret d
  else
    match password (fields d) with
    | None => throw IllegalArguments
    | Some p =>
        salt <- randomBytes_hex ;;
        let d := assign p_password
                   (set_password (Some (bcrypt_hash salt p))) d in
        let d := assign p_passwordConfirm (set_passwordConfirm None) d in
        if negb (isNew d)
        then
          now <- Date_now ;;
          ret (assign p_passwordChangedAt
                 (set_passwordChangedAt (Some (now - 1000))) d)
        else ret d
    end.

(** Second [pre('save')] hook. *)
Definition email_hook (d : Doc) : Doc :=
  if isModified p_email d && negb (isNew d)
  then assign p_emailVerified (set_emailVerified false) d
  else d.

Definition apply_delta (paths : list Path) (src dst : User) : User :=
  fold_right (fun p acc => copy p src acc) dst paths.

(** The write of a save: an insert for a new document, refused by the
    unique index when the email is taken; else one update, by [_id], of
    the modified paths. *)
Definition write_doc (d : Doc) : M unit :=
  if isNew d
  then
    l <- find_users ;;
    if existsb (fun u => opt_eqb String.eqb (email u) (email (fields d))) l
    then throw DuplicateKey
    else write_users (fun l => (l ++ [fields d])%list)
  else
    write_users
      (updateOne (by_id (_id (fields d)))
         (apply_delta (modified d) (fields d))).

(** [doc.save({ validateBeforeSave })]. *)
Definition save (validateBeforeSave : bool) (d : Doc) : M Doc :=
  (if validateBeforeSave && negb (validate d)
   then throw ValidationError else ret tt) ;;;
  d <- hash_password_hook d ;;
  let d := email_hook d in
  write_doc d ;;;
  ret {| fields := fields d; modified := []; isNew := false |}.

(** An identifier no stored document has. *)
Definition fresh_id (l : list User) : nat := S (list_max (map _id l)).

(** [User.create({ name, email, password, passwordConfirm, role: 'user' })]:
    the setters and the schema defaults build the document, then it is
    saved. *)
Definition User_create (name email password passwordConfirm : option string)
  : M Doc :=
  l <- find_users ;;
  now <- Date_now ;;
  save true
    {| fields :=
         {| _id := fresh_id l;
            name := option_map JS.trim name;
            email := option_map email_setter email;
            password := password;
            passwordConfirm := passwordConfirm;
            role := role_user;
            emailVerified := false;
            verificationToken := None;
            verificationExpires := None;
            passwordChangedAt := None;
            passwordResetToken := None;
            passwordResetExpires := None;
            active := Some true;
            lastLogin := None;
            lastLoginIp := None;
            loginAttempts := 0;
            accountLocked := false;
            lockUntil := None;
            twoFactorEnabled := false;
            twoFactorSecret := None;
            securityEvents := [];
            addresses := [];
            createdAt := now |};
       modified := [p_email; p_password; p_passwordConfirm];
       isNew := true |}.

(** *** Instance methods *)

(** [correctPassword]: [bcrypt.compare], which rejects when an argument
    is missing.  Each comparison is logged. *)
Definition correctPassword (candidatePassword userPassword : option string)
  : M bool :=
  match candidatePassword, userPassword with
  | Some c, Some h =>
      fun w =>
        (Value (bcrypt_compare c h),
         {| users := users w; clock := clock w; reads := reads w;
            random := random w; draws := draws w;
            compared := (c, h) :: compared w |})
  | _, _ => throw IllegalArguments
  end.

(** [changedPasswordAfter]: [parseInt] truncates the seconds. *)
Definition changedPasswordAfter (u : User) (JWTTimestamp : Z) : bool :=
  match passwordChangedAt u with
  | Some t => JWTTimestamp <? Z.quot t 1000
  | None => false
  end.

(** [handleFailedLogin], which no handler calls. *)
Definition handleFailedLogin (d : Doc) : M (bool * Doc) :=
  let d := assign p_loginAttempts
             (fun u => set_loginAttempts (JS.add (loginAttempts u) 1) u) d in
  d <- (if 5 <=? loginAttempts (fields d)
        then
          let d := assign p_accountLocked (set_accountLocked true) d in
          now <- Date_now ;;
          ret (assign p_lockUntil
                 (set_lockUntil (Some (now + 30 * 60 * 1000))) d)
        else ret d) ;;
  d <- save false d ;;
  ret (accountLocked (fields d), d).

End Model.

(** ** The controller ([authController.js]) *)

Section Controller.

Context {platform : Platform}.

(** [createSecureToken]. *)
Definition createSecureToken : M string := randomBytes_hex.

(** [signToken]: [jwt.sign] stamps the token with the second of issue and
    with its expiry. *)
Definition signToken (id : nat) : M Token :=
  now <- Date_now ;;
  let iat := now / 1000 in
  ret (Signed JWT_SECRET id iat (iat + JWT_EXPIRES_IN)).

(** [jwt.verify(token, process.env.JWT_SECRET)]: the clock is read, then
    the token is parsed, its signature checked and its expiry compared. *)
Definition jwt_verify (t : Token) : M (nat * Z) :=
  now <- Date_now ;;
  match t with
  | Opaque _ => throw JsonWebTokenError
  | Signed key id iat exp =>
      if negb (key =? JWT_SECRET)%string then throw JsonWebTokenError
      else if exp <=? now / 1000 then throw TokenExpiredError
      else ret (id, iat)
  end.

(** [createSendToken] (lines 22-47). *)
Definition createSendToken (u : Doc) (statusCode : Z) (req : Request)
  : M Response :=
  token <- signToken (_id (fields u)) ;;
  now <- Date_now ;;
  let cookieOptions_expires :=
    now + JWT_COOKIE_EXPIRES_IN * 24 * 60 * 60 * 1000 in
  let jwt_cookie :=
    {| c_name := "jwt"; c_value := token;
       c_expires := cookieOptions_expires;
       c_httpOnly := true;
       c_secure :=
         Some (secure req
               || JS.strict_eq (h_forwarded_proto req) (Some "https")) |} in
  (* Remove password from output *)
  let u := assign p_password (set_password None) u in
  ret {| status := statusCode;
         cookies := [jwt_cookie];
         body := JObj [("status", JStr "success");
                       ("token", JTok token);
                       ("data", JObj [("user", User_toJSON (fields u))])] |}.

(** The check every mutating handler starts with:
    [!csrfToken || csrfToken !== req.cookies['XSRF-TOKEN']] is false. *)
Definition csrf_valid (req : Request) : bool :=
  JS.truthy (h_csrf req) && JS.strict_eq (h_csrf req) (cookie_xsrf req).

Definition weak_password_message : string :=
  "Password must contain at least one uppercase letter, one lowercase letter, one number, and one special character".

(** [exports.signup] (lines 50-129). *)
Definition signup (req : Request) : M Response :=
  try_catch
    (if negb (csrf_valid req) then ret (error 403 "Invalid CSRF token")
     else
       match body_password req with
       | None => throw TypeError   (* password.length *)
       | Some password =>
           if (String.length password <? 8)%nat
           then ret (error 400 "Password must be at least 8 characters long")
           else if negb (passwordRegex_test (Some password))
           then ret (error 400 weak_password_message)
           else if negb (JS.strict_eq (Some password)
                           (body_passwordConfirm req))
           then ret (error 400 "Passwords do not match")
           else
             existingUser <- findOne (by_email (body_email req)) false ;;
             match existingUser with
             | Some _ => ret (error 400 "Email already in use")
             | None =>
                 newUser <- User_create (body_name req) (body_email req)
                              (Some password) (body_passwordConfirm req) ;;
                 verificationToken <- createSecureToken ;;
                 let newUser :=
                   assign p_verificationToken
                     (set_verificationToken
                        (Some (sha256_hex verificationToken))) newUser in
                 now <- Date_now ;;
                 let newUser :=
                   assign p_verificationExpires
                     (set_verificationExpires
                        (Some (now + 24 * 60 * 60 * 1000))) newUser in
                 newUser <- save false newUser ;;
                 createSendToken newUser 201 req
             end
       end)
    (fun _ => ret (error 500 "Error signing up. Please try again later.")).

Definition locked_message (lockUntil : Z) : string :=
  "Account locked. Please try again after " ++ toLocaleString lockUntil.

(** The end of [login], from "Reset login attempts on successful
    login" on. *)
Definition login_granted (req : Request) (u : Doc) : M Response :=
  let u := assign p_loginAttempts (set_loginAttempts 0) u in
  u <- save false u ;;
  (* Log user activity *)
  now <- Date_now ;;
  findByIdAndUpdate (_id (fields u))
    (fun s => set_lastLoginIp (Some (ip req)) (set_lastLogin (Some now) s)) ;;;
  createSendToken u 200 req.

(** The branch of [login] that unlocks an account whose lock period has
    passed. *)
Definition login_unlock (req : Request) (u : Doc) : M Response :=
  let u := assign p_accountLocked (set_accountLocked false) u in
  let u := assign p_loginAttempts (set_loginAttempts 0) u in
  u <- save false u ;;
  login_granted req u.

(** [exports.login] (lines 132-212).  Nothing follows the comment
    "Increment failed login attempts". *)
Definition login (req : Request) : M Response :=
  try_catch
    (if negb (csrf_valid req) then ret (error 403 "Invalid CSRF token")
     else if negb (JS.truthy (body_email req))
             || negb (JS.truthy (body_password req))
     then ret (error 400 "Please provide email and password")
     else
       found <- findOne (by_email (body_email req)) true ;;
       match found with
       | None => ret (error 401 "Incorrect email or password")
       | Some u =>
           correct <- correctPassword (body_password req)
                        (password (fields u)) ;;
           if negb correct
           then
             (* Increment failed login attempts *)
             ret (error 401 "Incorrect email or password")
           else if negb (emailVerified (fields u))
           then ret (error 401 "Please verify your email before logging in")
           else if accountLocked (fields u)
           then
             match lockUntil (fields u) with
             | Some until =>
                 now <- Date_now ;;
                 if now <? until
                 then ret (error 401 (locked_message until))
                 else login_unlock req u
             | None => login_unlock req u
             end
           else login_granted req u
       end)
    (fun _ => ret (error 500 "Error logging in. Please try again later.")).

(** [exports.logout] (lines 215-223). *)
Definition logout (req : Request) : M Response :=
  now <- Date_now ;;
  ret {| status := 200;
         cookies := [{| c_name := "jwt"; c_value := Opaque "loggedout";
                        c_expires := now + 10 * 1000;
                        c_httpOnly := true; c_secure := None |}];
         body := JObj [("status", JStr "success")] |}.

Definition not_logged_in_message : string :=
  "You are not logged in. Please log in to get access.".

(** The token [protect] reads: the credentials of a Bearer authorization
    header, else the [jwt] cookie. *)
Definition presented_token (req : Request) : option Token :=
  match h_authorization req with
  | Some (true, credentials) => credentials
  | _ => cookie_jwt req
  end.

(** [exports.protect] (lines 226-276): a response, or [next()] with
    [req.user] set. *)
Definition protect (req : Request) : M (Response + Request) :=
  try_catch
    (match presented_token req with
     | None | Some (Opaque "") => ret (inl (error 401 not_logged_in_message))
     | Some token =>
         decoded <- jwt_verify token ;;
         let '(id, iat) := decoded in
         currentUser <- findById id false ;;
         match currentUser with
         | None =>
             ret (inl (error 401
                    "The user belonging to this token no longer exists."))
         | Some currentUser =>
             if changedPasswordAfter (fields currentUser) iat
             then
               ret (inl (error 401
                      "User recently changed password. Please log in again."))
             else ret (inr (with_req_user (Some currentUser) req))
         end
     end)
    (fun _ =>
       ret (inl (error 401 "Authentication failed. Please log in again."))).

Definition new_event (type : EventType) (date : Z) (req : Request)
  : SecurityEvent :=
  {| ev_type := type; ev_date := date; ev_ip := Some (ip req);
     ev_userAgent := None; ev_details := None |}.

(** The update that [updatePassword] and [resetPassword] log a password
    change with: [passwordChangedAt] and one more security event. *)
Definition password_change_update (changedAt : Z) (e : SecurityEvent)
  (u : Doc) (s : User) : User :=
  set_securityEvents (securityEvents (fields u) ++ [e])%list
    (set_passwordChangedAt (Some changedAt) s).

Definition log_password_change (type : EventType) (req : Request) (u : Doc)
  : M unit :=
  changedAt <- Date_now ;;
  date <- Date_now ;;
  findByIdAndUpdate (_id (fields u))
    (password_change_update changedAt (new_event type date req) u).

(** The assignments of [updatePassword] under "Update password". *)
Definition updatePassword_assign (req : Request) (u : Doc) : Doc :=
  let u := assign p_password (set_password (body_newPassword req)) u in
  assign p_passwordConfirm (set_passwordConfirm (body_passwordConfirm req)) u.

(** [exports.updatePassword] (lines 293-348). *)
Definition updatePassword (req : Request) : M Response :=
  try_catch
    (if negb (csrf_valid req) then ret (error 403 "Invalid CSRF token")
     else
       match req_user req with
       | None => throw TypeError   (* req.user.id *)
       | Some requester =>
           found <- findById (_id (fields requester)) true ;;
           match found with
           | None => throw TypeError   (* user.correctPassword *)
           | Some u =>
               correct <- correctPassword (body_currentPassword req)
                            (password (fields u)) ;;
               if negb correct
               then ret (error 401 "Your current password is incorrect")
               else if negb (passwordRegex_test (body_newPassword req))
               then ret (error 400 weak_password_message)
               else
                 u <- save true (updatePassword_assign req u) ;;
                 log_password_change PASSWORD_CHANGE req u ;;;
                 createSendToken u 200 req
           end
       end)
    (fun _ =>
       ret (error 500 "Error updating password. Please try again later.")).

(** [exports.forgotPassword] (lines 351-403). *)
Definition forgotPassword (req : Request) : M Response :=
  try_catch
    (if negb (csrf_valid req) then ret (error 403 "Invalid CSRF token")
     else
       found <- findOne (by_email (body_email req)) false ;;
       match found with
       | None => ret (error 404 "There is no user with that email address")
       | Some u =>
           resetToken <- createSecureToken ;;
           let u := assign p_passwordResetToken
                      (set_passwordResetToken (Some (sha256_hex resetToken)))
                      u in
           now <- Date_now ;;
           let u := assign p_passwordResetExpires
                      (set_passwordResetExpires (Some (now + 60 * 60 * 1000)))
                      u in
           u <- save false u ;;
           date <- Date_now ;;
           findByIdAndUpdate (_id (fields u))
             (set_securityEvents
                (securityEvents (fields u)
                 ++ [new_event PASSWORD_RESET_REQUEST date req])%list) ;;;
           ret {| status := 200; cookies := [];
                  body := JObj [("status", JStr "success");
                                ("message", JStr "Token sent to email")] |}
       end)
    (fun _ =>
       ret (error 500 "Error processing request. Please try again later.")).

(** The assignments of [resetPassword] under "Update password". *)
Definition resetPassword_assign (req : Request) (u : Doc) : Doc :=
  let u := assign p_password (set_password (body_password req)) u in
  let u := assign p_passwordConfirm
             (set_passwordConfirm (body_passwordConfirm req)) u in
  let u := assign p_passwordResetToken (set_passwordResetToken None) u in
  assign p_passwordResetExpires (set_passwordResetExpires None) u.

(** [exports.resetPassword] (lines 406-471). *)
Definition resetPassword (req : Request) : M Response :=
  try_catch
    (if negb (csrf_valid req) then ret (error 403 "Invalid CSRF token")
     else
       let hashedToken := sha256_hex (param_token req) in
       now <- Date_now ;;
       found <- findOne (by_resetToken hashedToken now) false ;;
       match found with
       | None => ret (error 400 "Token is invalid or has expired")
       | Some u =>
           if negb (passwordRegex_test (body_password req))
           then ret (error 400 weak_password_message)
           else
             u <- save true (resetPassword_assign req u) ;;
             log_password_change PASSWORD_RESET req u ;;;
             createSendToken u 200 req
       end)
    (fun _ =>
       ret (error 500 "Error resetting password. Please try again later.")).

End Controller.

(** ** A concrete platform and world

    Stand-ins for the libraries, used to run the handlers on examples. *)

Module Demo.

Definition platform : Platform :=
  {| bcrypt_hash := fun salt p => "bcrypt:" ++ p;
     bcrypt_compare := fun c h => (h =? "bcrypt:" ++ c)%string;
     sha256_hex := fun s => "sha256:" ++ s;
     isEmail :=
       fun s => existsb (Ascii.eqb "@"%char) (list_ascii_of_string s);
     toLocaleString := fun _ => "later";
     JWT_SECRET := "secret";
     JWT_EXPIRES_IN := 7776000;
     JWT_COOKIE_EXPIRES_IN := 90 |}.

(** A verified account whose password is [Str0ng!Pass]. *)
Definition alice : User :=
  {| _id := 1; name := Some "Alice"; email := Some "alice@example.com";
     password := Some "bcrypt:Str0ng!Pass"; passwordConfirm := None;
     role := role_user; emailVerified := true;
     verificationToken := None; verificationExpires := None;
     passwordChangedAt := None; passwordResetToken := None;
     passwordResetExpires := None; active := Some true;
     lastLogin := None; lastLoginIp := None; loginAttempts := 0;
     accountLocked := false; lockUntil := None; twoFactorEnabled := false;
     twoFactorSecret := None; securityEvents := []; addresses := [];
     createdAt := 1700000000000 |}.

(** The clock starts at [start] and gains a quarter of a second between
    two readings. *)
Definition world_at (start : Z) (l : list User) : World :=
  {| users := l;
     clock := fun n => Z.of_nat n * 250 + start;
     reads := 0;
     random := fun n => if Nat.even n then "c0ffee" else "decade";
     draws := 0;
     compared := [] |}.

Definition world : World := world_at 1700000600000 [alice].

(** A request that passes the CSRF check and carries nothing else. *)
Definition request : Request :=
  {| h_csrf := Some "nonce"; h_authorization := None;
     h_forwarded_proto := None;
     cookie_xsrf := Some "nonce"; cookie_jwt := None;
     body_name := None; body_email := None; body_password := None;
     body_passwordConfirm := None; body_currentPassword := None;
     body_newPassword := None; param_token := ""; ip := "203.0.113.7";
     secure := true; req_user := None |}.

Definition credentials (email password : string) : Request :=
  with_body_email (Some email) (with_body_password (Some password) request).

End Demo.

(** ** Vocabulary of the specification *)

(** A response that sets a [jwt] cookie which has expired by the time
    [sent]. *)
Definition clears_session_cookie (r : Response) (sent : Z) : Prop :=
  exists c, In c (cookies r) /\ c_name c = "jwt" /\ c_expires c <= sent.

(** A response that hands out no session: no cookie, no token. *)
Definition issues_no_session (r : Response) : Prop :=
  cookies r = [] /\ get "token" (body r) = None.

(** The user object of a response body, [data.user]. *)
Definition user_payload (r : Response) : option JSON :=
  match get "data" (body r) with
  | Some data => get "user" data
  | None => None
  end.

(** What a run answered, and the users collection it left. *)
Definition response_of {A} (run : Outcome A * World) : option A :=
  match fst run with
  | Value a => Some a
  | Thrown _ => None
  end.

Definition users_after {A} (run : Outcome A * World) : list User :=
  users (snd run).

(** The lookup of [findOne({ email })]: the first active document whose
    email is the normal form of the one asked for (when none is asked
    for, the first active document that has no email). *)
Definition account_of (email : option string) (l : list User)
  : option User :=
  find (fun u => is_active u && by_email email u) l.

(** No two documents of the collection have the same [_id]. *)
Fixpoint unique_ids (l : list User) : bool :=
  match l with
  | [] => true
  | u :: rest =>
      negb (existsb (fun v => (_id v =? _id u)%nat) rest) && unique_ids rest
  end.

(** The lookup of [findById]. *)
Definition account_by_id (id : nat) (l : list User) : option User :=
  find (fun u => is_active u && (_id u =? id)%nat) l.

(** A document after the first [pre('save')] hook has hashed its
    password with [salt] at time [now]. *)
Definition hashed {platform : Platform} (d : Doc) (pw salt : string)
  (now : Z) : Doc :=
  assign p_passwordChangedAt (set_passwordChangedAt (Some (now - 1000)))
    (assign p_passwordConfirm (set_passwordConfirm None)
       (assign p_password (set_password (Some (bcrypt_hash salt pw))) d)).

(** [n] successive [login] requests, each run in the world the one before
    left. *)
Fixpoint login_attempts {platform : Platform} (n : nat) (req : Request)
  (w : World) : World :=
  match n with
  | O => w
  | S n => login_attempts n req (snd (login req w))
  end.

(** [n] calls in a row of [handleFailedLogin] on a held document. *)
Fixpoint failed_logins {platform : Platform} (n : nat) (d : Doc) : M Doc :=
  match n with
  | O => ret d
  | S n =>
      bind (handleFailedLogin d)
        (fun locked_d => failed_logins n (snd locked_d))
  end.

(** The password rules of the specification: eight characters or more,
    with an uppercase letter, a lowercase letter, a digit and a special
    character among them. *)
Definition strong_password (p : string) : bool :=
  let chars := list_ascii_of_string p in
  (8 <=? String.length p)%nat
  && existsb JS.is_upper chars
  && existsb JS.is_lower chars
  && existsb JS.is_digit chars
  && existsb JS.is_special chars.

(** The responses a handler may give: an error, whose status is neither
    200 nor 201, or the envelope of [createSendToken] around a user
    document whose [password] is [undefined]. *)
Inductive answer_shape : Response -> Prop :=
| shape_error (code : Z) (message : string) :
    code <> 200 -> code <> 201 -> answer_shape (error code message)
| shape_session (code : Z) (jwt_cookie : Cookie) (token : Token) (u : User) :
    password u = None ->
    answer_shape
      {| status := code;
         cookies := [jwt_cookie];
         body := JObj [("status", JStr "success");
                       ("token", JTok token);
                       ("data", JObj [("user", User_toJSON u)])] |}.

(** [ensures c P]: whatever [c] returns satisfies [P]. *)
Definition ensures {A} (c : M A) (P : A -> Prop) : Prop :=
  forall w,
    match c w with
    | (Value a, _) => P a
    | (Thrown _, _) => True
    end.

(** A handler every response of which is an answer without a password:
    it always responds, a 200 or 201 carries a user object, and no user
    object it sends has a [password] property. *)
Definition answers_without_password (handler : Request -> M Response)
  : Prop :=
  forall req w,
    exists r w',
      handler req w = (Value r, w')
      /\ (status r = 200 \/ status r = 201 ->
          exists j, user_payload r = Some j)
      /\ (forall j, user_payload r = Some j -> get "password" j = None).

(** ** The rest of the controller and of the model; the routes *)

Section Routes.

Context {platform : Platform}.

(** [exports.restrictTo(...roles)] (lines 279-290): a response, or
    [next()].  Nothing catches what the middleware throws. *)
Definition restrictTo (roles : list string) (req : Request)
  : M (Response + Request) :=
  match req_user req with
  | None => throw TypeError   (* req.user.role *)
  | Some u =>
      if negb (existsb (String.eqb (Role_name (role (fields u)))) roles)
      then
        ret (inl (error 403
               "You do not have permission to perform this action"))
      else ret (inr req)
  end.

(** [exports.validateToken] (lines 474-491). *)
Definition validateToken (req : Request) : M Response :=
  try_catch
    (ret {| status := 200; cookies := [];
            body := JObj [("status", JStr "success");
                          ("data",
                           JObj (opt_field "user"
                                   (fun u => User_toJSON (fields u))
                                   (req_user req)))] |})
    (fun _ =>
       ret (error 500 "Error validating token. Please try again later.")).

(** [createPasswordResetToken] of the model (lines 337-352), which the
    controller does not call: the token it returns, and the document with
    the digest and the expiry assigned. *)
Definition createPasswordResetToken (d : Doc) : M (string * Doc) :=
  resetToken <- randomBytes_hex ;;
  let d := assign p_passwordResetToken
             (set_passwordResetToken (Some (sha256_hex resetToken))) d in
  now <- Date_now ;;
  let d := assign p_passwordResetExpires
             (set_passwordResetExpires (Some (now + 10 * 60 * 1000))) d in
  ret (resetToken, d).

(** [createVerificationToken] of the model (lines 355-370). *)
Definition createVerificationToken (d : Doc) : M (string * Doc) :=
  verificationToken <- randomBytes_hex ;;
  let d := assign p_verificationToken
             (set_verificationToken (Some (sha256_hex verificationToken))) d in
  now <- Date_now ;;
  let d := assign p_verificationExpires
             (set_verificationExpires (Some (now + 24 * 60 * 60 * 1000))) d in
  ret (verificationToken, d).

(** A handler registered after [router.use(authController.protect)]. *)
Definition after_protect (handler : Request -> M Response) (req : Request)
  : M Response :=
  verdict <- protect req ;;
  match verdict with
  | inl response => ret response
  | inr req => handler req
  end.

(** The routes of [routes/auth.js], as the router hands a request to the
    controller. *)
Inductive Route : Type :=
| POST_signup | POST_login | GET_logout | POST_forgot_password
| PATCH_reset_password | PATCH_update_password | GET_validate_token.

Definition router (route : Route) : Request -> M Response :=
  match route with
  | POST_signup => signup
  | POST_login => login
  | GET_logout => logout
  | POST_forgot_password => forgotPassword
  | PATCH_reset_password => resetPassword
  | PATCH_update_password => after_protect updatePassword
  | GET_validate_token => after_protect validateToken
  end.

(** The middleware in front of the admin routes of the product router:
    [protect], then [restrictTo('admin')]. *)
Definition admin_only (req : Request) : M (Response + Request) :=
  verdict <- protect req ;;
  match verdict with
  | inl response => ret (inl response)
  | inr req => restrictTo ["admin"] req
  end.

(** The world after a series of requests, each served in the world the
    one before left. *)
Fixpoint serve (calls : list (Route * Request)) (w : World) : World :=
  match calls with
  | [] => w
  | (route, req) :: rest => serve rest (snd (router route req w))
  end.

End Routes.

(** The status a route answers a request it carries out with. *)
Definition success_status (route : Route) : Z :=
  match route with
  | POST_signup => 201
  | _ => 200
  end.

(** What no request changes of a stored account. *)
Definition same_account (s s' : User) : Prop :=
  _id s' = _id s /\ name s' = name s /\ email s' = email s
  /\ role s' = role s /\ emailVerified s' = emailVerified s
  /\ active s' = active s /\ twoFactorEnabled s' = twoFactorEnabled s
  /\ twoFactorSecret s' = twoFactorSecret s
  /\ addresses s' = addresses s /\ createdAt s' = createdAt s.

(** An account as [signup] creates it. *)
Definition newcomer (u : User) : Prop :=
  role u = role_user /\ emailVerified u = false /\ active u = Some true.

(** [l'] holds the accounts of [l], in the same order and each the same
    account, followed by newcomers. *)
Definition grows (l l' : list User) : Prop :=
  exists kept added,
    l' = (kept ++ added)%list
    /\ Forall2 same_account l kept
    /\ Forall newcomer added.

(** A held document that was read or saved, with its email and its
    verification flag as stored. *)
Definition settled (d : Doc) : Prop :=
  isNew d = false
  /\ isModified p_email d = false
  /\ isModified p_emailVerified d = false.

(** [keeps c Q]: [c] only makes the collection grow, and what it returns
    satisfies [Q]. *)
Definition keeps {A} (c : M A) (Q : A -> Prop) : Prop :=
  forall w,
    grows (users w) (users (snd (c w)))
    /\ match fst (c w) with
       | Value a => Q a
       | Thrown _ => True
       end.

(** [reads_only c]: [c] leaves the collection as it found it, whether it
    returns or throws. *)
Definition reads_only {A} (c : M A) : Prop :=
  forall w, users (snd (c w)) = users w.

(** [always c Q]: [c] returns, and what it returns satisfies [Q]. *)
Definition always {A} (c : M A) (Q : A -> Prop) : Prop :=
  forall w,
    match fst (c w) with
    | Value a => Q a
    | Thrown _ => False
    end.

(** [commits c Q]: when [c] throws it has written nothing; what it returns
    satisfies [Q]. *)
Definition commits {A} (c : M A) (Q : A -> Prop) : Prop :=
  forall w,
    match fst (c w) with
    | Value a => Q a
    | Thrown _ => users (snd (c w)) = users w
    end.

(** [all_or_nothing c ok]: [c] answers with the status [ok], or has
    written nothing. *)
Definition all_or_nothing (c : M Response) (ok : Z) : Prop :=
  forall w,
    match fst (c w) with
    | Value r => status r = ok \/ users (snd (c w)) = users w
    | Thrown _ => users (snd (c w)) = users w
    end.

(** A held document that is stored and whose password is as stored. *)
Definition calm (d : Doc) : Prop :=
  isNew d = false /\ isModified p_password d = false.

(** The account a granted login leaves in the collection. *)
Definition logged_in (req : Request) (now : Z) (s : User) : User :=
  set_lastLoginIp (Some (ip req))
    (set_lastLogin (Some now) (set_loginAttempts 0 s)).


(** The first line of a string: what [.*] can run over from its start. *)
Definition first_line (s : string) : string :=
  string_of_list_ascii (JS.dot_star s).


(** ** The utilities of the client

    [sanitizeHtml], [isStrongPassword] and the class [RateLimiter] of the
    security utilities, [sanitizeFormData] and [validateCreditCard] of the
    form validation.  The time [Date.now()] gives is an argument. *)

Module Client.

(** A value that is a string or something else. *)
Inductive JSValue : Type :=
| VString (s : string)
| VOther (j : JSON).

(** [s.replace(/c/g, by)] for a pattern that is one character. *)
Fixpoint replace_all (c : ascii) (by_ : string) (s : string) : string :=
  match s with
  | EmptyString => EmptyString
  | String x rest =>
      if Ascii.eqb x c then by_ ++ replace_all c by_ rest
      else String x (replace_all c by_ rest)
  end.

Definition quote : ascii := "034"%char.
Definition apostrophe : ascii := "039"%char.

(** [sanitizeHtml] (lines 14-24). *)
Definition sanitizeHtml (unsafe : JSValue) : JSValue :=
  match unsafe with
  | VOther j => VOther j
  | VString unsafe =>
      VString
        (replace_all apostrophe "&#039;"
           (replace_all quote "&quot;"
              (replace_all ">" "&gt;"
                 (replace_all "<" "&lt;"
                    (replace_all "&" "&amp;" unsafe)))))
  end.

(** [sanitizeFormData] (lines 100-120), on the entries of the object. *)
Definition sanitizeFormData (formData : list (string * JSValue))
  : list (string * JSValue) :=
  map (fun entry =>
         match entry with
         | (key, VString value) =>
             (key,
              VString
                (replace_all apostrophe "&#039;"
                   (replace_all quote "&quot;"
                      (replace_all ">" "&gt;"
                         (replace_all "<" "&lt;" value)))))
         | (key, VOther value) => (key, VOther value)
         end)
      formData.

(** The class of special characters of [isStrongPassword]: those of the
    pattern of the server, the brackets, braces and angle brackets, the
    comma, the full stop, the colon, the bar, the question mark and the
    double quote. *)
Definition is_special_char (c : ascii) : bool :=
  existsb (Ascii.eqb c)
    (list_ascii_of_string "!@#$%^&*(),.?" ++ [quote]
     ++ list_ascii_of_string ":{}|<>").

(** [isStrongPassword] (lines 60-77). *)
Definition isStrongPassword (password : option string) : bool :=
  match password with
  | None => false
  | Some password =>
      if (password =? "")%string then false
      else if (String.length password <? 8)%nat then false
      else
        let chars := list_ascii_of_string password in
        let hasUppercase := existsb JS.is_upper chars in
        let hasLowercase := existsb JS.is_lower chars in
        let hasNumbers := existsb JS.is_digit chars in
        let hasSpecialChars := existsb is_special_char chars in
        let criteriaCount :=
          List.length
            (filter (fun b : bool => b)
               [hasUppercase; hasLowercase; hasNumbers; hasSpecialChars]) in
        (3 <=? criteriaCount)%nat
  end.

(** [parseInt] of a character that is a digit. *)
Definition parseInt_digit (c : ascii) : Z := JS.code c - 48.

(** The loop of [validateCreditCard], from the right end of the digits:
    [digits] holds them from right to left. *)
Fixpoint luhn (digits : list ascii) (sum : Z) (shouldDouble : bool) : Z :=
  match digits with
  | [] => sum
  | c :: rest =>
      let digit := parseInt_digit c in
      let digit :=
        if shouldDouble
        then (let digit := digit * 2 in
              if 9 <? digit then digit - 9 else digit)
        else digit in
      luhn rest (sum + digit) (negb shouldDouble)
  end.

(** [validateCreditCard] (lines 123-151). *)
Definition validateCreditCard (cardNumber : string) : bool :=
  let digitsOnly := filter JS.is_digit (list_ascii_of_string cardNumber) in
  if (List.length digitsOnly <? 13)%nat || (19 <? List.length digitsOnly)%nat
  then false
  else Z.rem (luhn (rev digitsOnly) 0 false) 10 =? 0.

(** The class [RateLimiter] (lines 108-154): its two settings and the map
    from an action to the times of its attempts. *)
Record RateLimiter : Type := {
  maxAttempts : Z;
  timeWindowMs : Z;
  attempts : string -> option (list Z)
}.

Definition new_RateLimiter (maxAttempts timeWindowMs : Z) : RateLimiter :=
  {| maxAttempts := maxAttempts; timeWindowMs := timeWindowMs;
     attempts := fun _ => None |}.

(** [this.attempts.get(actionKey) || []], with the expired attempts
    removed. *)
Definition validAttempts (now : Z) (actionKey : string) (rl : RateLimiter)
  : list Z :=
  let actionAttempts :=
    match attempts rl actionKey with
    | Some l => l
    | None => []
    end in
  filter (fun timestamp => now - timestamp <? timeWindowMs rl) actionAttempts.

Definition checkLimit (now : Z) (actionKey : string) (rl : RateLimiter)
  : bool * RateLimiter :=
  let valid := validAttempts now actionKey rl in
  if maxAttempts rl <=? Z.of_nat (List.length valid) then (false, rl)
  else
    (true,
     {| maxAttempts := maxAttempts rl; timeWindowMs := timeWindowMs rl;
        attempts :=
          fun key =>
            if (key =? actionKey)%string then Some (valid ++ [now])%list
            else attempts rl key |}).

Definition reset (actionKey : string) (rl : RateLimiter) : RateLimiter :=
  {| maxAttempts := maxAttempts rl; timeWindowMs := timeWindowMs rl;
     attempts :=
       fun key => if (key =? actionKey)%string then None
                  else attempts rl key |}.

Definition getRemainingAttempts (now : Z) (actionKey : string)
  (rl : RateLimiter) : Z :=
  Z.max 0
    (maxAttempts rl
     - Z.of_nat (List.length (validAttempts now actionKey rl))).

(** The attempts at one action, made at the times given, in turn: the
    times of those that were allowed, and the limiter they leave. *)
Fixpoint attempt_all (times : list Z) (actionKey : string)
  (rl : RateLimiter) : list Z * RateLimiter :=
  match times with
  | [] => ([], rl)
  | now :: rest =>
      let '(allowed, rl) := checkLimit now actionKey rl in
      let '(granted, rl) := attempt_all rest actionKey rl in
      (if allowed then now :: granted else granted, rl)
  end.

End Client.

(** The characters that open or close markup or an attribute value. *)
Definition is_markup (c : ascii) : bool :=
  existsb (Ascii.eqb c) ["<"%char; ">"%char; Client.quote; Client.apostrophe].

(** Times that do not decrease, none before [start]. *)
Fixpoint ascending_from (start : Z) (times : list Z) : Prop :=
  match times with
  | [] => True
  | t :: rest => start <= t /\ ascending_from t rest
  end.

(** What one digit adds to the sum of [validateCreditCard]. *)
Definition luhn_digit (shouldDouble : bool) (c : ascii) : Z :=
  let digit := Client.parseInt_digit c in
  if shouldDouble
  then (let digit := digit * 2 in if 9 <? digit then digit - 9 else digit)
  else digit.

(** What the limiter remembers of the attempts allowed so far at an
    action tells, at any time from [lb] on, which of them are still in
    the window. *)
Definition remembers (actionKey : string) (lb : Z) (rl : Client.RateLimiter)
  (granted : list Z) : Prop :=
  forall now, lb <= now ->
    Client.validAttempts now actionKey rl
    = filter (fun t => now - t <? Client.timeWindowMs rl) granted.

(** The account [signup] stores for a request: the document that
    [User.create] builds at the time [created], its password hashed with
    [salt], with the digest of the verification token and its expiry. *)
Definition signed_up {platform : Platform} (req : Request) (id : nat)
  (pw salt verification : string) (created now : Z) : User :=
  {| _id := id;
     name := option_map JS.trim (body_name req);
     email := option_map email_setter (body_email req);
     password := Some (bcrypt_hash salt pw);
     passwordConfirm := None;
     role := role_user;
     emailVerified := false;
     verificationToken := Some (sha256_hex verification);
     verificationExpires := Some (now + 24 * 60 * 60 * 1000);
     passwordChangedAt := None;
     passwordResetToken := None;
     passwordResetExpires := None;
     active := Some true;
     lastLogin := None;
     lastLoginIp := None;
     loginAttempts := 0;
     accountLocked := false;
     lockUntil := None;
     twoFactorEnabled := false;
     twoFactorSecret := None;
     securityEvents := [];
     addresses := [];
     createdAt := created |}.

(** ** More sample data *)

Module Sample.

(** A verified administrator. *)
Definition root : User :=
  {| _id := 2; name := Some "Root"; email := Some "root@example.com";
     password := Some "bcrypt:R00t!Pass"; passwordConfirm := None;
     role := role_admin; emailVerified := true;
     verificationToken := None; verificationExpires := None;
     passwordChangedAt := None; passwordResetToken := None;
     passwordResetExpires := None; active := Some true;
     lastLogin := None; lastLoginIp := None; loginAttempts := 0;
     accountLocked := false; lockUntil := None; twoFactorEnabled := false;
     twoFactorSecret := None; securityEvents := []; addresses := [];
     createdAt := 1700000000000 |}.

(** The world of [Demo.world] with the administrator besides. *)
Definition world : World := Demo.world_at 1700000600000 [Demo.alice; root].

(** A token of ninety days for the account [id], issued at the second
    the sample clock starts in. *)
Definition session (id : nat) : Token :=
  Signed "secret" id 1700000600 1707776600.

(** A request that presents a token as a Bearer authorization. *)
Definition bearer (t : Token) : Request :=
  with_h_authorization (Some (true, Some t)) Demo.request.

(** The demo account holding the digest of the reset token [feedbeef],
    good for an hour. *)
Definition holder : User :=
  set_passwordResetExpires (Some 1700004200000)
    (set_passwordResetToken (Some "sha256:feedbeef") Demo.alice).

(** A request to change the password of the account a session is for. *)
Definition change_password (t : Token) : Request :=
  with_body_currentPassword (Some "Str0ng!Pass")
    (with_body_newPassword (Some "N3w!Passw0rd")
       (with_body_passwordConfirm (Some "N3w!Passw0rd") (bearer t))).

(** The demo account, deactivated. *)
Definition retired : User := set_active (Some false) Demo.alice.

(** The demo account after four failed logins in a row. *)
Definition struggling : User := set_loginAttempts 4 Demo.alice.

(** A registration of Bob. *)
Definition registration : Request :=
  with_body_name (Some "Bob")
    (with_body_passwordConfirm (Some "Str0ng!Pass")
       (Demo.credentials "Bob@Example.com " "Str0ng!Pass")).

End Sample.

(** [others_kept id l l']: every account of [l] whose [_id] is not [id]
    is in [l'] as it was. *)
Definition others_kept (id : nat) (l l' : list User) : Prop :=
  forall v, In v l -> _id v <> id -> In v l'.

(** A held document of the account [id]. *)
Definition held (id : nat) (d : Doc) : Prop := _id (fields d) = id.

(** [touches id c Q]: [c] leaves every account but those of [_id] [id]
    as it was, and what it returns satisfies [Q]. *)
Definition touches {A} (id : nat) (c : M A) (Q : A -> Prop) : Prop :=
  forall w,
    others_kept id (users w) (users (snd (c w)))
    /\ match fst (c w) with
       | Value a => Q a
       | Thrown _ => True
       end.

(** [spares c]: in every world, [c] leaves every account but those of
    one [_id] as it was. *)
Definition spares {A} (c : M A) : Prop :=
  forall w, exists id, others_kept id (users w) (users (snd (c w))).

(** The stored name and email of an account pass the validators of the
    schema. *)
Definition valid_profile {platform : Platform} (u : User) : Prop :=
  validate_name u = true /\ validate_email u = true.

(** [upholds c Q]: [c] leaves a collection of valid profiles one, and
    what it returns satisfies [Q]. *)
Definition upholds {platform : Platform} {A} (c : M A) (Q : A -> Prop)
  : Prop :=
  forall w,
    Forall valid_profile (users w) ->
    Forall valid_profile (users (snd (c w)))
    /\ match fst (c w) with
       | Value a => Q a
       | Thrown _ => True
       end.

(** * Properties *)

Ltac fields_simpl :=
  cbn [select hydrate fields modified isNew
       set_email set_password set_passwordConfirm set_emailVerified
       set_verificationToken set_verificationExpires set_passwordChangedAt
       set_passwordResetToken set_passwordResetExpires set_active
       set_lastLogin set_lastLoginIp set_loginAttempts set_accountLocked
       set_lockUntil set_twoFactorSecret set_securityEvents
       _id name email password passwordConfirm role emailVerified
       verificationToken verificationExpires passwordChangedAt
       passwordResetToken passwordResetExpires active lastLogin lastLoginIp
       loginAttempts accountLocked lockUntil twoFactorEnabled twoFactorSecret
       securityEvents addresses createdAt] in *.

(** Unfolds the monad and the primitives that always return. *)
Ltac run :=
  cbv [bind ret throw try_catch findOne findById find_users write_users
       findByIdAndUpdate createSecureToken randomBytes_hex Date_now
       with_users];
  cbn [users clock reads random draws compared].

Section Documents.

Lemma truthy_Some (s : string) : s <> "" -> JS.truthy (Some s) = true.
Proof.
  intros H. unfold JS.truthy.
  destruct (String.eqb_spec s ""); [contradiction | reflexivity].
Qed.

Lemma isModified_assign (p q : Path) (f : User -> User) (d : Doc) :
  isModified p (assign q f d)
  = (Path_eqb p q
     && (isNew d || negb (same_at q (fields d) (f (fields d)))))
    || isModified p d.
Proof.
  unfold isModified, assign. cbn [modified].
  destruct (isNew d || negb (same_at q (fields d) (f (fields d)))); cbn.
  - rewrite andb_true_r. reflexivity.
  - rewrite andb_false_r. reflexivity.
Qed.

End Documents.

Section Saving.

Context {platform : Platform}.

(** A save without validation that finds neither the password nor the
    email modified runs no hook: it writes the modified paths. *)
Lemma save_plain (d : Doc) (w : World) :
  isNew d = false ->
  isModified p_password d = false ->
  isModified p_email d = false ->
  save false d w
  = (Value {| fields := fields d; modified := []; isNew := false |},
     with_users (updateOne (by_id (_id (fields d)))
                   (apply_delta (modified d) (fields d)) (users w)) w).
Proof.
  intros Hn Hp He.
  unfold save, hash_password_hook. rewrite Hp. cbv [bind ret andb negb].
  unfold email_hook, write_doc. rewrite He. cbn [andb]. rewrite Hn.
  reflexivity.
Qed.

End Saving.

(** ** The monad *)

Section Ensures.

Lemma ensures_ret {A} (a : A) (P : A -> Prop) : P a -> ensures (ret a) P.
Proof. intros H w. exact H. Qed.

Lemma ensures_throw {A} (e : Exn) (P : A -> Prop) : ensures (throw e) P.
Proof. intros w. exact I. Qed.

Lemma ensures_bind {A B} (c : M A) (k : A -> M B) (P : B -> Prop) :
  (forall a, ensures (k a) P) -> ensures (bind c k) P.
Proof.
  intros H w. unfold bind. destruct (c w) as [[a | e] w1]; [| exact I].
  apply H.
Qed.

Lemma ensures_try_catch {A} (body : M A) (handler : Exn -> M A)
  (P : A -> Prop) :
  ensures body P -> (forall e, ensures (handler e) P) ->
  ensures (try_catch body handler) P.
Proof.
  intros Hb Hh w. unfold try_catch. specialize (Hb w).
  destruct (body w) as [[a | e] w1]; [exact Hb | apply Hh].
Qed.

(** A handler that answers every exception always answers. *)
Lemma try_catch_total {A} (body : M A) (a0 : A) (w : World) :
  exists a w', try_catch body (fun _ => ret a0) w = (Value a, w').
Proof.
  unfold try_catch. destruct (body w) as [[a | e] w1]; cbv [ret]; eauto.
Qed.

End Ensures.

(** ** The users collection *)

Section Store.

Variables (f : User -> User) (id : nat).

Hypothesis f_id : forall s, _id (f s) = _id s.
Hypothesis f_active : forall s, is_active (f s) = is_active s.

Lemma unique_ids_In (l : list User) (a b : User) :
  unique_ids l = true -> In a l -> In b l -> _id a = _id b -> a = b.
Proof.
  induction l as [| c l IH]; cbn; [tauto |].
  rewrite andb_true_iff, negb_true_iff. intros [Hc Hl] Ha Hb Hid.
  assert (Hfresh : forall v, In v l -> _id v <> _id c).
  { intros v Hv Heq. rewrite <- not_true_iff_false in Hc. apply Hc.
    apply existsb_exists. exists v. split; [exact Hv |].
    apply Nat.eqb_eq. exact Heq. }
  destruct Ha as [<- | Ha], Hb as [<- | Hb].
  - reflexivity.
  - exfalso. apply (Hfresh b Hb). symmetry. exact Hid.
  - exfalso. apply (Hfresh a Ha). exact Hid.
  - apply IH; assumption.
Qed.

(** The update a save writes reaches the document [findById] returns. *)
Lemma account_by_id_updateOne (l : list User) (u : User) :
  unique_ids l = true ->
  account_by_id id l = Some u ->
  account_by_id id (updateOne (by_id id) f l) = Some (f u).
Proof.
  unfold account_by_id, by_id.
  induction l as [| a l IH]; cbn; [discriminate |].
  rewrite andb_true_iff, negb_true_iff. intros [Ha Hl] Hfind.
  destruct (_id a =? id)%nat eqn:Hid.
  - destruct (is_active a) eqn:Hact; cbn in Hfind.
    + injection Hfind as <-. cbn. rewrite f_active, f_id, Hact, Hid.
      reflexivity.
    + exfalso. apply find_some in Hfind. destruct Hfind as [Hin Hu].
      rewrite andb_true_iff in Hu. destruct Hu as [_ Hu].
      rewrite <- not_true_iff_false in Ha. apply Ha.
      apply existsb_exists. exists u. split; [exact Hin |].
      apply Nat.eqb_eq in Hid, Hu. apply Nat.eqb_eq. congruence.
  - rewrite andb_false_r in Hfind. cbn. rewrite Hid, andb_false_r.
    apply IH; assumption.
Qed.

(** So does the update of [findByIdAndUpdate]. *)
Lemma account_by_id_findByIdAndUpdate (l : list User) (u : User) :
  account_by_id id l = Some u ->
  account_by_id id (updateOne (fun v => is_active v && by_id id v) f l)
  = Some (f u).
Proof.
  unfold account_by_id, by_id.
  induction l as [| a l IH]; cbn; [discriminate |].
  destruct (is_active a && (_id a =? id)%nat) eqn:Ha.
  - intros Hfind. injection Hfind as <-. cbn.
    rewrite f_active, f_id, Ha. reflexivity.
  - intros Hfind. cbn. rewrite Ha. apply IH. exact Hfind.
Qed.

(** What an [updateOne] leaves in the collection. *)
Lemma In_updateOne (filter : User -> bool) (l : list User) (v : User) :
  In v (updateOne filter f l) ->
  In v l \/ exists s, In s l /\ filter s = true /\ v = f s.
Proof.
  induction l as [| a l IH]; cbn; [tauto |].
  destruct (filter a) eqn:Ha; cbn.
  - intros [<- | Hv]; [right; exists a; tauto | left; tauto].
  - intros [<- | Hv]; [left; tauto |].
    destruct (IH Hv) as [H | [s [Hs [Hf ->]]]]; [left; tauto |].
    right. exists s. tauto.
Qed.

(** With unique identifiers, an update by [_id] leaves no other document
    of that [_id]. *)
Lemma In_updateOne_by_id (l : list User) (v : User) :
  unique_ids l = true ->
  In v (updateOne (by_id id) f l) ->
  (In v l /\ _id v <> id) \/ exists s, In s l /\ _id s = id /\ v = f s.
Proof.
  unfold by_id.
  induction l as [| a l IH]; cbn; [tauto |].
  rewrite andb_true_iff, negb_true_iff. intros [Ha Hl].
  destruct (_id a =? id)%nat eqn:Hid; cbn.
  - apply Nat.eqb_eq in Hid. intros [<- | Hv].
    + right. exists a. tauto.
    + left. split; [tauto |]. intros Heq.
      rewrite <- not_true_iff_false in Ha. apply Ha.
      apply existsb_exists. exists v. split; [exact Hv |].
      apply Nat.eqb_eq. congruence.
  - apply Nat.eqb_neq in Hid. intros [<- | Hv].
    + left. tauto.
    + destruct (IH Hl Hv) as [[H1 H2] | [s [Hs [Hsid ->]]]].
      * left. tauto.
      * right. exists s. tauto.
Qed.

End Store.

Lemma find_none_of_all {A} (p : A -> bool) (l : list A) :
  (forall a, In a l -> p a = false) -> find p l = None.
Proof.
  induction l as [| a l IH]; cbn; [reflexivity |].
  intros H. rewrite (H a (or_introl eq_refl)). apply IH.
  intros b Hb. apply H. right. exact Hb.
Qed.

Lemma find_some_of_In {A} (f : A -> bool) (l : list A) (a : A) :
  In a l -> f a = true -> exists b, find f l = Some b.
Proof.
  intros Hin Hf. destruct (find f l) as [b|] eqn:Hfind; [eauto |].
  rewrite (find_none f l Hfind a Hin) in Hf. discriminate.
Qed.

Lemma list_max_ge (l : list nat) (n : nat) : In n l -> (n <= list_max l)%nat.
Proof.
  induction l as [| a l IH]; [intros [] |].
  change (list_max (a :: l)) with (Nat.max a (list_max l)).
  intros [-> | H]; [lia |]. specialize (IH H). lia.
Qed.

Lemma fresh_id_fresh (l : list User) (v : User) :
  In v l -> by_id (fresh_id l) v = false.
Proof.
  intros H. unfold by_id, fresh_id. apply Nat.eqb_neq.
  pose proof (list_max_ge (map _id l) (_id v) (in_map _id l v H)). lia.
Qed.

Lemma updateOne_last (filter : User -> bool) (f : User -> User)
  (l : list User) (x : User) :
  (forall v, In v l -> filter v = false) ->
  filter x = true ->
  updateOne filter f (l ++ [x]) = (l ++ [f x])%list.
Proof.
  intros Hl Hx. induction l as [| a l IH]; cbn.
  - rewrite Hx. reflexivity.
  - rewrite (Hl a (or_introl eq_refl)). f_equal. apply IH.
    intros v Hv. apply Hl. right. exact Hv.
Qed.

(** ** Saving a changed password *)

Section Delta.

Variables (src dst : User).

Lemma apply_delta_id (ps : list Path) : _id (apply_delta ps src dst) = _id dst.
Proof.
  induction ps as [| p ps IH]; cbn; [reflexivity |].
  destruct p; cbn; exact IH.
Qed.

Lemma apply_delta_active (ps : list Path) :
  is_active (apply_delta ps src dst) = is_active dst.
Proof.
  unfold is_active.
  induction ps as [| p ps IH]; cbn; [reflexivity |].
  destruct p; cbn; exact IH.
Qed.

Lemma apply_delta_passwordResetToken (ps : list Path) :
  passwordResetToken (apply_delta ps src dst)
  = if existsb (Path_eqb p_passwordResetToken) ps
    then passwordResetToken src else passwordResetToken dst.
Proof.
  induction ps as [| p ps IH]; cbn; [reflexivity |].
  destruct p; cbn; try exact IH. reflexivity.
Qed.

Lemma apply_delta_passwordResetExpires (ps : list Path) :
  passwordResetExpires (apply_delta ps src dst)
  = if existsb (Path_eqb p_passwordResetExpires) ps
    then passwordResetExpires src else passwordResetExpires dst.
Proof.
  induction ps as [| p ps IH]; cbn; [reflexivity |].
  destruct p; cbn; try exact IH. reflexivity.
Qed.

Lemma apply_delta_password (ps : list Path) :
  password (apply_delta ps src dst)
  = if existsb (Path_eqb p_password) ps
    then password src else password dst.
Proof.
  induction ps as [| p ps IH]; cbn; [reflexivity |].
  destruct p; cbn; try exact IH. reflexivity.
Qed.

End Delta.

Lemma apply_delta_role (src dst : User) (ps : list Path) :
  role (apply_delta ps src dst) = role dst.
Proof.
  induction ps as [| p ps IH]; cbn; [reflexivity |].
  destruct p; cbn; exact IH.
Qed.

Lemma apply_delta_emailVerified (src dst : User) (ps : list Path) :
  emailVerified (apply_delta ps src dst)
  = if existsb (Path_eqb p_emailVerified) ps
    then emailVerified src else emailVerified dst.
Proof.
  induction ps as [| p ps IH]; cbn; [reflexivity |].
  destruct p; cbn; try exact IH. reflexivity.
Qed.

Section Hashing.
Context {platform : Platform}.

Lemma save_hashes (d : Doc) (w : World) (pw : string) :
  isNew d = false ->
  validate d = true ->
  isModified p_password d = true ->
  isModified p_email d = false ->
  password (fields d) = Some pw ->
  let d' := hashed d pw (random w (draws w)) (clock w (reads w)) in
  save true d w
  = (Value {| fields := fields d'; modified := []; isNew := false |},
     {| users := updateOne (by_id (_id (fields d)))
                   (apply_delta (modified d') (fields d')) (users w);
        clock := clock w; reads := S (reads w);
        random := random w; draws := S (draws w);
        compared := compared w |}).
Proof.
  intros Hn Hv Hp He Hpw d'.
  unfold save, hash_password_hook. rewrite Hv, Hp, Hpw. cbn [andb negb].
  run. cbn [isNew assign]. rewrite Hn. cbn [negb users clock reads].
  fold (hashed d pw (random w (draws w)) (clock w (reads w))). fold d'.
  assert (He' : isModified p_email d' = false).
  { unfold d', hashed. rewrite !isModified_assign, He. reflexivity. }
  unfold email_hook. rewrite He'. cbn [andb].
  unfold write_doc. change (isNew d') with (isNew d). rewrite Hn.
  run. change (_id (fields d')) with (_id (fields d)). reflexivity.
Qed.
(** A validated save that finds neither the password nor the email
    modified writes the modified paths and reads no clock. *)
Lemma save_checked (d : Doc) (w : World) :
  isNew d = false ->
  validate d = true ->
  isModified p_password d = false ->
  isModified p_email d = false ->
  save true d w
  = (Value {| fields := fields d; modified := []; isNew := false |},
     with_users (updateOne (by_id (_id (fields d)))
                   (apply_delta (modified d) (fields d)) (users w)) w).
Proof.
  intros Hn Hv Hp He.
  unfold save, hash_password_hook. rewrite Hv, Hp. cbv [bind ret andb negb].
  unfold email_hook, write_doc. rewrite He. cbn [andb]. rewrite Hn.
  reflexivity.
Qed.

End Hashing.

(** ** Logout *)

(** C8, as the code has it: every logout request is answered 200 with
    [{status: "success"}] and overwrites the [jwt] cookie with the
    placeholder [loggedout], http-only, expiring ten seconds after the
    handler read the clock, so not expired at that time. *)
Theorem logout_response (req : Request) (w : World) :
  exists r w',
    logout req w = (Value r, w')
    /\ r = {| status := 200;
              cookies := [{| c_name := "jwt"; c_value := Opaque "loggedout";
                             c_expires := clock w (reads w) + 10 * 1000;
                             c_httpOnly := true; c_secure := None |}];
              body := JObj [("status", JStr "success")] |}
    /\ ~ clears_session_cookie r (clock w (reads w))
    /\ users w' = users w.
Proof.
  do 2 eexists. split; [reflexivity |]. split; [reflexivity |].
  split; [| reflexivity].
  intros [c [Hin [_ Hexp]]]. destruct Hin as [<- | []].
  cbn [c_expires] in Hexp. lia.
Qed.

(** C8, as stated, fails: the cookie a logout sets has not expired when
    the response leaves, nor at the next reading of the clock. *)
Lemma logout_cookie_not_expired :
  exists r w',
    logout Demo.request Demo.world = (Value r, w')
    /\ status r = 200
    /\ ~ clears_session_cookie r (clock w' (reads w')).
Proof.
  eexists. eexists. split; [reflexivity |]. split; [reflexivity |].
  intros [c [Hin [_ Hexp]]]. cbn in Hin. destruct Hin as [<- | []].
  vm_compute in Hexp. apply Hexp. reflexivity.
Qed.

(** ** Forgotten passwords *)

Section ForgotPassword.

Context {platform : Platform}.

(** C2, as the code has it: a request that passes the CSRF check is
    answered 200 "Token sent to email" when an active account has the
    email, and 404 "There is no user with that email address", with the
    collection untouched, when none has.  (The lookup of a request that
    carries no email selects an account that has none.) *)
Theorem forgotPassword_outcome (req : Request) (w : World) :
  csrf_valid req = true ->
  exists r w',
    forgotPassword req w = (Value r, w')
    /\ match account_of (body_email req) (users w) with
       | Some _ =>
           r = {| status := 200; cookies := [];
                  body := JObj [("status", JStr "success");
                                ("message", JStr "Token sent to email")] |}
       | None =>
           r = error 404 "There is no user with that email address"
           /\ users w' = users w
       end.
Proof.
  intros Hc. unfold forgotPassword, account_of. rewrite Hc. cbn [negb].
  run.
  destruct (find _ (users w)) as [u|]; cbn [option_map].
  - rewrite save_plain.
    + run. eauto.
    + reflexivity.
    + rewrite !isModified_assign. reflexivity.
    + rewrite !isModified_assign. reflexivity.
  - eauto.
Qed.

End ForgotPassword.

(** [forgotPassword_outcome] at a request for the account of the demo
    world. *)
Lemma forgotPassword_outcome_witness :
  exists r w',
    forgotPassword (platform := Demo.platform)
      (with_body_email (Some "Alice@Example.com") Demo.request) Demo.world
    = (Value r, w')
    /\ status r = 200.
Proof.
  destruct (forgotPassword_outcome (platform := Demo.platform)
              (with_body_email (Some "Alice@Example.com") Demo.request)
              Demo.world) as [r [w' [Hrun Hr]]].
  - reflexivity.
  - exists r, w'. split; [exact Hrun |].
    vm_compute in Hr. rewrite Hr. reflexivity.
Defined.

(** C2, as stated, fails: two requests that differ in the email alone, one
    naming an account and one not, are answered 200 and 404. *)
Lemma forgotPassword_reveals_unknown_email :
  option_map status
    (response_of
       (forgotPassword (platform := Demo.platform)
          (with_body_email (Some "alice@example.com") Demo.request)
          Demo.world)) = Some 200
  /\ response_of
       (forgotPassword (platform := Demo.platform)
          (with_body_email (Some "nobody@example.com") Demo.request)
          Demo.world)
     = Some (error 404 "There is no user with that email address").
Proof.
  split; vm_compute; reflexivity.
Qed.

(** ** Login *)

Section Login.

Context {platform : Platform}.

(** The steps of [login] up to the comparison of the password, for a
    request that names an account. *)
Lemma login_compares (req : Request) (w : World) (u : User)
  (e p h : string) :
  csrf_valid req = true ->
  body_email req = Some e -> e <> "" ->
  body_password req = Some p -> p <> "" ->
  account_of (Some e) (users w) = Some u ->
  password u = Some h ->
  exists w1,
    users w1 = users w /\ clock w1 = clock w /\ reads w1 = reads w
    /\ compared w1 = (p, h) :: compared w
    /\ login req w
       = try_catch
           (if negb (bcrypt_compare p h)
            then ret (error 401 "Incorrect email or password")
            else if negb (emailVerified u)
            then ret (error 401 "Please verify your email before logging in")
            else if accountLocked u
            then
              match lockUntil u with
              | Some until =>
                  bind Date_now (fun now =>
                    if now <? until
                    then ret (error 401 (locked_message until))
                    else login_unlock req (hydrate (select true u)))
              | None => login_unlock req (hydrate (select true u))
              end
            else login_granted req (hydrate (select true u)))
           (fun _ =>
              ret (error 500 "Error logging in. Please try again later."))
           w1.
Proof.
  intros Hc He Hne Hp Hnp Hf Hh.
  exists {| users := users w; clock := clock w; reads := reads w;
            random := random w; draws := draws w;
            compared := (p, h) :: compared w |}.
  repeat (split; [reflexivity |]).
  unfold login, account_of in *.
  rewrite Hc, He, Hp, (truthy_Some Hne), (truthy_Some Hnp).
  cbn [negb orb]. cbv [bind findOne find_users ret try_catch].
  rewrite Hf. cbn [option_map]. fields_simpl. rewrite Hh.
  cbn [correctPassword]. reflexivity.
Qed.

(** C5: a login that passes the CSRF check, names the account of a user
    whose [emailVerified] is false and gives a password that bcrypt
    accepts is answered 401 "Please verify your email before logging
    in", whether the account is locked or not; the response carries no
    cookie and no token, and the collection is left as it was. *)
Theorem login_unverified (req : Request) (w : World) (u : User)
  (e p h : string) :
  csrf_valid req = true ->
  body_email req = Some e -> e <> "" ->
  body_password req = Some p -> p <> "" ->
  account_of (Some e) (users w) = Some u ->
  password u = Some h ->
  bcrypt_compare p h = true ->
  emailVerified u = false ->
  exists r w',
    login req w = (Value r, w')
    /\ r = error 401 "Please verify your email before logging in"
    /\ issues_no_session r
    /\ users w' = users w.
Proof.
  intros Hc He Hne Hp Hnp Hf Hh Hok Hv.
  destruct (login_compares req w Hc He Hne Hp Hnp Hf Hh)
    as [w1 [Hu [_ [_ [_ Hrun]]]]].
  rewrite Hrun, Hok, Hv. cbn [negb]. run.
  do 2 eexists. split; [reflexivity |]. split; [reflexivity |].
  split; [split; reflexivity | exact Hu].
Qed.

(** A wrong password is answered 401 and counts for nothing: the
    collection is left as it was. *)
Lemma login_wrong_password (req : Request) (w : World) (u : User)
  (e p h : string) :
  csrf_valid req = true ->
  body_email req = Some e -> e <> "" ->
  body_password req = Some p -> p <> "" ->
  account_of (Some e) (users w) = Some u ->
  password u = Some h ->
  bcrypt_compare p h = false ->
  exists w',
    login req w = (Value (error 401 "Incorrect email or password"), w')
    /\ users w' = users w.
Proof.
  intros Hc He Hne Hp Hnp Hf Hh Hno.
  destruct (login_compares req w Hc He Hne Hp Hnp Hf Hh)
    as [w1 [Hu [_ [_ [_ Hrun]]]]].
  rewrite Hrun, Hno. cbn [negb]. run.
  eexists. split; [reflexivity | exact Hu].
Qed.

(** C7, as the code has it: a login against a verified account that is
    locked with the clock before [lockUntil] first compares the password
    with bcrypt; a password bcrypt accepts is answered 401 "Account
    locked. Please try again after ...", one it refuses 401 "Incorrect
    email or password".  Either way no session is handed out and the
    collection is left as it was. *)
Theorem login_while_locked (req : Request) (w : World) (u : User)
  (e p h : string) (until : Z) :
  csrf_valid req = true ->
  body_email req = Some e -> e <> "" ->
  body_password req = Some p -> p <> "" ->
  account_of (Some e) (users w) = Some u ->
  password u = Some h ->
  emailVerified u = true ->
  accountLocked u = true ->
  lockUntil u = Some until ->
  clock w (reads w) < until ->
  exists r w',
    login req w = (Value r, w')
    /\ compared w' = (p, h) :: compared w
    /\ r = (if bcrypt_compare p h
            then error 401 (locked_message until)
            else error 401 "Incorrect email or password")
    /\ issues_no_session r
    /\ users w' = users w.
Proof.
  intros Hc He Hne Hp Hnp Hf Hh Hv Hl Hu Hnow.
  destruct (login_compares req w Hc He Hne Hp Hnp Hf Hh)
    as [w1 [Hus [Hck [Hrd [Hcmp Hrun]]]]].
  rewrite Hrun, Hv, Hl, Hu. cbn [negb].
  destruct (bcrypt_compare p h); cbn [negb]; run.
  - rewrite Hck, Hrd. apply Z.ltb_lt in Hnow. rewrite Hnow.
    do 2 eexists. split; [reflexivity |]. cbn [compared users].
    repeat split; assumption.
  - do 2 eexists. split; [reflexivity |].
    repeat split; assumption.
Qed.

End Login.

(** [login_unverified] at the demo account, its email not yet verified. *)
Lemma login_unverified_witness :
  let w := Demo.world_at 1700000600000
             [set_emailVerified false Demo.alice] in
  exists r w',
    login (platform := Demo.platform)
      (Demo.credentials "alice@example.com" "Str0ng!Pass") w = (Value r, w')
    /\ status r = 401.
Proof.
  intros w.
  destruct (@login_unverified Demo.platform
              (Demo.credentials "alice@example.com" "Str0ng!Pass") w
              (set_emailVerified false Demo.alice)
              "alice@example.com" "Str0ng!Pass" "bcrypt:Str0ng!Pass")
    as [r [w' [Hrun [Hr _]]]];
    try reflexivity; try discriminate.
  exists r, w'. split; [exact Hrun | rewrite Hr; reflexivity].
Defined.

(** [login_while_locked] at the demo account, locked for half an hour. *)
Lemma login_while_locked_witness :
  let locked :=
    set_lockUntil (Some 1700002400000) (set_accountLocked true Demo.alice) in
  let w := Demo.world_at 1700000600000 [locked] in
  exists r w',
    login (platform := Demo.platform)
      (Demo.credentials "alice@example.com" "Str0ng!Pass") w = (Value r, w')
    /\ status r = 401
    /\ compared w' = [("Str0ng!Pass", "bcrypt:Str0ng!Pass")].
Proof.
  intros locked w.
  destruct (@login_while_locked Demo.platform
              (Demo.credentials "alice@example.com" "Str0ng!Pass") w locked
              "alice@example.com" "Str0ng!Pass" "bcrypt:Str0ng!Pass"
              1700002400000)
    as [r [w' [Hrun [Hcmp [Hr _]]]]];
    try reflexivity; try discriminate.
  exists r, w'. split; [exact Hrun |].
  split; [rewrite Hr; reflexivity | exact Hcmp].
Defined.

(** C7, as stated, fails: against a locked account whose lock has not
    run out, a login with the right password is refused only after bcrypt
    has compared it, and a login with a wrong password is answered
    "Incorrect email or password", not that the account is locked. *)
Lemma login_locked_compares_password :
  let locked :=
    set_lockUntil (Some 1700002400000) (set_accountLocked true Demo.alice) in
  let w := Demo.world_at 1700000600000 [locked] in
  compared w = []
  /\ compared
       (snd (login (platform := Demo.platform)
               (Demo.credentials "alice@example.com" "Str0ng!Pass") w))
     = [("Str0ng!Pass", "bcrypt:Str0ng!Pass")]
  /\ response_of
       (login (platform := Demo.platform)
          (Demo.credentials "alice@example.com" "Wr0ng!Pass") w)
     = Some (error 401 "Incorrect email or password").
Proof.
  repeat split; vm_compute; reflexivity.
Qed.

(** C1, on the code: five logins with a wrong password are each answered
    401 and leave the account as it was, [loginAttempts] at 0 and
    [accountLocked] false; the sixth, with the right password, is answered
    200 with a session token. *)
Theorem login_six_attempts :
  let wrong := Demo.credentials "alice@example.com" "Wr0ng!Pass" in
  let right := Demo.credentials "alice@example.com" "Str0ng!Pass" in
  let w5 := login_attempts (platform := Demo.platform) 5 wrong Demo.world in
  response_of (login (platform := Demo.platform) wrong Demo.world)
  = Some (error 401 "Incorrect email or password")
  /\ users w5 = [Demo.alice]
  /\ map loginAttempts (users w5) = [0]
  /\ map accountLocked (users w5) = [false]
  /\ option_map status
       (response_of (login (platform := Demo.platform) right w5)) = Some 200
  /\ option_map (fun r => List.length (cookies r))
       (response_of (login (platform := Demo.platform) right w5)) = Some 1%nat.
Proof.
  repeat split; vm_compute; reflexivity.
Qed.

(** The method the model keeps for failed logins, which [login] never
    calls: the fifth failure in a row locks the account for thirty
    minutes. *)
Example handleFailedLogin_locks_at_five :
  let held := hydrate (select true Demo.alice) in
  map (fun u => (loginAttempts u, accountLocked u, lockUntil u))
    (users_after (failed_logins (platform := Demo.platform) 4 held Demo.world))
  = [(4, false, None)]
  /\ map (fun u => (loginAttempts u, accountLocked u, lockUntil u))
       (users_after
          (failed_logins (platform := Demo.platform) 5 held Demo.world))
     = [(5, true, Some (1700000600000 + 30 * 60 * 1000))].
Proof.
  split; vm_compute; reflexivity.
Qed.

(** ** Signup *)

Section PasswordPattern.

Lemma dot_star_incl (s : string) (c : ascii) :
  In c (JS.dot_star s) -> In c (list_ascii_of_string s).
Proof.
  induction s as [| a s IH]; cbn; [tauto |].
  destruct (JS.is_line_terminator a); cbn; [tauto |].
  intros [H | H]; [left; exact H | right; apply IH; exact H].
Qed.

Lemma dot_star_length (s : string) :
  (List.length (JS.dot_star s) <= String.length s)%nat.
Proof.
  induction s as [| a s IH]; cbn; [lia |].
  destruct (JS.is_line_terminator a); cbn; lia.
Qed.

Lemma lookahead_existsb (X : ascii -> bool) (s : string) :
  JS.lookahead X s = true -> existsb X (list_ascii_of_string s) = true.
Proof.
  unfold JS.lookahead. rewrite !existsb_exists.
  intros [c [Hin Hc]]. exists c. split; [apply dot_star_incl |]; assumption.
Qed.

(** What the pattern accepts meets the rules. *)
Lemma passwordRegex_strong (p : string) :
  passwordRegex_test (Some p) = true -> strong_password p = true.
Proof.
  unfold passwordRegex_test, strong_password. cbn [JS.to_String].
  rewrite !andb_true_iff.
  intros [[[[Hd Hl] Hu] Hs] Hn].
  repeat split; try (apply lookahead_existsb; assumption).
  apply Nat.leb_le. apply Nat.leb_le in Hn.
  pose proof (dot_star_length p). lia.
Qed.

End PasswordPattern.

Section Signup.

Context {platform : Platform}.

(** The three checks of the password, for a request that passes the CSRF
    check and carries a password: a password short of the rules, or one
    that differs from its confirmation, is answered 400 before the
    collection is read; and nothing but a password that meets the rules
    and equals its confirmation is answered 201. *)
Lemma signup_password_rules (req : Request) (w : World) (pw : string) :
  csrf_valid req = true ->
  body_password req = Some pw ->
  exists r w',
    signup req w = (Value r, w')
    /\ (strong_password pw = false \/ body_passwordConfirm req <> Some pw ->
        status r = 400 /\ w' = w)
    /\ (status r = 201 ->
        strong_password pw = true /\ body_passwordConfirm req = Some pw).
Proof.
  intros Hc Hp. unfold signup. rewrite Hc, Hp. cbn [negb].
  destruct (String.length pw <? 8)%nat eqn:Hlen.
  { run. do 2 eexists. split; [reflexivity |]. split.
    - intros _. split; reflexivity.
    - cbn. discriminate. }
  destruct (passwordRegex_test (Some pw)) eqn:Hre; cbn [negb].
  2:{ run. do 2 eexists. split; [reflexivity |]. split.
      - intros _. split; reflexivity.
      - cbn. discriminate. }
  destruct (JS.strict_eq (Some pw) (body_passwordConfirm req)) eqn:Heq;
    cbn [negb].
  2:{ run. do 2 eexists. split; [reflexivity |]. split.
      - intros _. split; reflexivity.
      - cbn. discriminate. }
  assert (Hconf : body_passwordConfirm req = Some pw).
  { destruct (body_passwordConfirm req) as [c|]; cbn in Heq;
      [| discriminate].
    apply String.eqb_eq in Heq. subst c. reflexivity. }
  pose proof (passwordRegex_strong pw Hre) as Hstrong.
  match goal with
  | |- exists _ _, ?run = _ /\ _ =>
      destruct run as [[r1 | ex] w1] eqn:Hrun
  end.
  - exists r1, w1. split; [reflexivity |]. split.
    + intros [H | H]; [congruence | contradiction].
    + intros _. split; assumption.
  - exfalso. unfold try_catch in Hrun.
    match type of Hrun with
    | (let (o, w0) := ?c in _) = _ => destruct c as [[r | ex'] w0]
    end; discriminate.
Qed.

(** C9, on the code: a signup request that passes the CSRF check and
    carries no password is answered 500, not 400; no user is created. *)
Theorem signup_missing_password (req : Request) (w : World) :
  csrf_valid req = true ->
  body_password req = None ->
  signup req w
  = (Value (error 500 "Error signing up. Please try again later."), w).
Proof.
  intros Hc Hp. unfold signup. rewrite Hc, Hp. reflexivity.
Qed.

(** The email of an active user: when an active user has an email that
    was stored from [e0], a signup request that passes the CSRF check and
    the password checks and whose email equals [e0] up to letter case is
    answered 400 "Email already in use", and the world, the users
    collection with it, is left as it was. *)
Lemma signup_duplicate_email (req : Request) (w : World) (u : User)
  (pw e e0 : string) :
  csrf_valid req = true ->
  body_password req = Some pw ->
  passwordRegex_test (Some pw) = true ->
  body_passwordConfirm req = Some pw ->
  body_email req = Some e ->
  In u (users w) ->
  is_active u = true ->
  email u = Some (email_setter e0) ->
  JS.toLowerCase e = JS.toLowerCase e0 ->
  signup req w = (Value (error 400 "Email already in use"), w).
Proof.
  intros Hc Hp Hre Hconf He Hin Hact Hmail Hcase.
  unfold signup. rewrite Hc, Hp, Hre, Hconf, He. cbn [negb].
  assert (Hlen : (String.length pw <? 8)%nat = false).
  { apply Nat.ltb_ge. apply passwordRegex_strong in Hre.
    unfold strong_password in Hre. rewrite !andb_true_iff in Hre.
    destruct Hre as [[[[Hn _] _] _] _]. apply Nat.leb_le in Hn. exact Hn. }
  rewrite Hlen. cbn [JS.strict_eq]. rewrite String.eqb_refl. cbn [negb].
  destruct (find_some_of_In
              (fun v => is_active v && by_email (Some e) v) (users w) u Hin)
    as [v Hv].
  { rewrite Hact. cbn [andb by_email]. rewrite Hmail.
    unfold email_setter. rewrite Hcase. cbn [opt_eqb].
    apply String.eqb_refl. }
  run. rewrite Hv. reflexivity.
Qed.

(** C6, on the code: a signup request that passes the CSRF check and
    the password checks and whose email equals, up to letter case, the
    email of a stored user creates no user; it is answered 400 "Email
    already in use" when that user is active, but 500 "Error signing up.
    Please try again later." when every user with that email has been
    deactivated: the lookup leaves deactivated users out, and the insert
    then fails on the unique index. *)
Theorem signup_email_in_use (req : Request) (w : World) (u : User)
  (pw e e0 : string) :
  csrf_valid req = true ->
  body_password req = Some pw ->
  passwordRegex_test (Some pw) = true ->
  body_passwordConfirm req = Some pw ->
  body_email req = Some e ->
  In u (users w) ->
  email u = Some (email_setter e0) ->
  JS.toLowerCase e = JS.toLowerCase e0 ->
  exists r w',
    signup req w = (Value r, w')
    /\ users w' = users w
    /\ (is_active u = true -> r = error 400 "Email already in use")
    /\ ((forall v, In v (users w) -> email v = email u ->
                   is_active v = false) ->
        r = error 500 "Error signing up. Please try again later.").
Proof.
  intros Hc Hp Hre Hconf He Hin Hmail Hcase.
  assert (Hset : email_setter e = email_setter e0).
  { unfold email_setter. rewrite Hcase. reflexivity. }
  unfold signup. rewrite Hc, Hp, Hre, Hconf, He. cbn [negb].
  assert (Hlen : (String.length pw <? 8)%nat = false).
  { apply Nat.ltb_ge. apply passwordRegex_strong in Hre.
    unfold strong_password in Hre. rewrite !andb_true_iff in Hre.
    destruct Hre as [[[[Hn _] _] _] _]. apply Nat.leb_le in Hn. exact Hn. }
  rewrite Hlen. cbn [JS.strict_eq]. rewrite String.eqb_refl. cbn [negb].
  cbv [try_catch bind findOne find_users ret].
  destruct (find (fun v => is_active v && by_email (Some e) v) (users w))
    as [v |] eqn:Hfind; cbn [option_map].
  - do 2 eexists. split; [reflexivity |]. split; [reflexivity |].
    split; [reflexivity |].
    intros Hall. exfalso. apply find_some in Hfind.
    destruct Hfind as [Hvin Hv]. apply andb_true_iff in Hv.
    destruct Hv as [Hact Hby]. cbn [by_email] in Hby.
    assert (Hev : email v = email u).
    { rewrite Hmail, <- Hset. destruct (email v) as [x |]; cbn in Hby;
        [| discriminate].
      apply String.eqb_eq in Hby. subst x. reflexivity. }
    rewrite (Hall v Hvin Hev) in Hact. discriminate.
  - assert (Hinactive : is_active u = false).
    { pose proof (find_none _ _ Hfind u Hin) as Hu. cbn [by_email] in Hu.
      rewrite Hmail, Hset in Hu. cbn [opt_eqb] in Hu.
      rewrite String.eqb_refl, andb_true_r in Hu. exact Hu. }
    unfold User_create. cbv [bind find_users Date_now].
    cbn [users clock reads].
    match goal with
    | |- context [save true ?d ?w1] => set (d0 := d); set (w0 := w1)
    end.
    assert (Hrun : exists ex w1, save true d0 w0 = (Thrown ex, w1)
                                 /\ users w1 = users w).
    { unfold save. destruct (validate d0); cbn [andb negb].
      - cbv [bind ret]. unfold hash_password_hook.
        change (isModified p_password d0) with true.
        change (password (fields d0)) with (Some pw).
        cbn [negb]. run.
        cbn [isNew assign d0 negb]. 
        unfold email_hook. cbn [isNew assign d0]. rewrite andb_false_r.
        unfold write_doc. cbn [isNew assign d0]. run.
        assert (Hdup : existsb
                         (fun v => opt_eqb String.eqb (email v)
                                     (Some (email_setter e))) (users w)
                       = true).
        { apply existsb_exists. exists u. split; [exact Hin |].
          rewrite Hmail, Hset. cbn. apply String.eqb_refl. }
        change (email (fields (assign p_passwordConfirm
                                 (set_passwordConfirm None)
                                 (assign p_password
                                    (set_password
                                       (Some (bcrypt_hash
                                                (random w0 (draws w0)) pw)))
                                    d0))))
          with (Some (email_setter e)).
        change (users w0) with (users w).
        rewrite Hdup. do 2 eexists. split; reflexivity.
      - cbv [bind throw]. do 2 eexists. split; reflexivity. }
    destruct Hrun as [ex [w1 [Hrun Hus]]]. rewrite Hrun.
    do 2 eexists. split; [reflexivity |]. split; [exact Hus |].
    split; [intros Hact; rewrite Hact in Hinactive; discriminate |].
    intros _. reflexivity.
Qed.

End Signup.

(** [signup_missing_password] at a request that carries an email alone. *)
Lemma signup_missing_password_witness :
  signup (platform := Demo.platform)
    (with_body_email (Some "bob@example.com") Demo.request) Demo.world
  = (Value (error 500 "Error signing up. Please try again later."),
     Demo.world).
Proof.
  apply (@signup_missing_password Demo.platform); reflexivity.
Defined.

(** [signup_duplicate_email] at the email of the demo account in another
    letter case. *)
Lemma signup_duplicate_email_witness :
  signup (platform := Demo.platform)
    (with_body_passwordConfirm (Some "N3w!Passw0rd")
       (Demo.credentials "Alice@Example.COM" "N3w!Passw0rd")) Demo.world
  = (Value (error 400 "Email already in use"), Demo.world).
Proof.
  apply (@signup_duplicate_email Demo.platform _ _ Demo.alice
           "N3w!Passw0rd" "Alice@Example.COM" "alice@example.com");
    try reflexivity.
  left. reflexivity.
Defined.

(** [signup_email_in_use] at the email, in another letter case, of the
    sample account that was deactivated. *)
Lemma signup_email_in_use_witness :
  let req :=
    with_body_name (Some "Alice")
      (with_body_passwordConfirm (Some "N3w!Passw0rd")
         (Demo.credentials "Alice@Example.COM" "N3w!Passw0rd")) in
  let w := Demo.world_at 1700000600000 [Sample.retired] in
  exists w',
    signup (platform := Demo.platform) req w
    = (Value (error 500 "Error signing up. Please try again later."), w')
    /\ users w' = [Sample.retired].
Proof.
  intros req w.
  destruct (@signup_email_in_use Demo.platform req w Sample.retired
              "N3w!Passw0rd" "Alice@Example.COM" "alice@example.com")
    as [r [w' [Hrun [Hus [_ Hr]]]]].
  - reflexivity.
  - reflexivity.
  - reflexivity.
  - reflexivity.
  - reflexivity.
  - left. reflexivity.
  - reflexivity.
  - reflexivity.
  - exists w'. rewrite <- Hr.
    + split; [exact Hrun | exact Hus].
    + intros v [<- | []] _. reflexivity.
Defined.

(** ** New accounts *)

Section NewUser.
Context {platform : Platform}.

(** The save of a new document: refused, or one more document in the
    collection. *)
Lemma save_new (d : Doc) (w : World) :
  isNew d = true ->
  match save true d w with
  | (Value d', w') =>
      users w' = (users w ++ [fields d'])%list
      /\ isNew d' = false /\ modified d' = []
      /\ _id (fields d') = _id (fields d)
      /\ role (fields d') = role (fields d)
      /\ emailVerified (fields d') = emailVerified (fields d)
  | (Thrown _, _) => True
  end.
Proof.
  intros Hn. unfold save.
  destruct (validate d); cbn [andb negb]; [| exact I].
  cbv [bind ret]. unfold hash_password_hook.
  destruct (isModified p_password d); cbn [negb].
  - destruct (password (fields d)) as [p|]; [| exact I].
    run. cbn [isNew assign]. rewrite Hn. cbn [negb].
    unfold email_hook. cbn [isNew assign]. rewrite Hn, andb_false_r.
    unfold write_doc. cbn [isNew assign]. rewrite Hn. run.
    destruct (existsb _ (users w)); [exact I |].
    cbn [users fields]. repeat split.
  - run. unfold email_hook. rewrite Hn, andb_false_r.
    unfold write_doc. rewrite Hn. run.
    destruct (existsb _ (users w)); [exact I |].
    cbn [users fields]. repeat split.
Qed.

(** What [signup] leaves behind when it answers 201: one more document,
    with a fresh [_id], the role [user] and [emailVerified] false. *)
Lemma signup_creates_unverified (req : Request) (w : World) (r : Response)
  (w' : World) :
  signup req w = (Value r, w') ->
  status r = 201 ->
  exists u,
    users w' = (users w ++ [u])%list
    /\ _id u = fresh_id (users w)
    /\ role u = role_user
    /\ emailVerified u = false.
Proof.
  intros Hrun Hst. unfold signup in Hrun.
  destruct (csrf_valid req); cbn [negb] in Hrun;
    [| cbv [try_catch ret] in Hrun; injection Hrun as <- <-; discriminate].
  destruct (body_password req) as [pw|];
    [| cbv [try_catch ret throw] in Hrun; injection Hrun as <- <-;
       discriminate].
  destruct (String.length pw <? 8)%nat;
    [cbv [try_catch ret] in Hrun; injection Hrun as <- <-; discriminate |].
  destruct (passwordRegex_test (Some pw)); cbn [negb] in Hrun;
    [| cbv [try_catch ret] in Hrun; injection Hrun as <- <-; discriminate].
  destruct (JS.strict_eq (Some pw) (body_passwordConfirm req));
    cbn [negb] in Hrun;
    [| cbv [try_catch ret] in Hrun; injection Hrun as <- <-; discriminate].
  cbv [try_catch bind findOne find_users ret] in Hrun.
  destruct (find _ (users w)) as [existing|]; cbn [option_map] in Hrun;
    [injection Hrun as <- <-; discriminate |].
  unfold User_create in Hrun.
  cbv [bind find_users Date_now] in Hrun. cbn [users clock reads] in Hrun.
  match type of Hrun with
  | context [save true ?d ?w1] =>
      remember d as d0 eqn:Hd0; remember w1 as w0 eqn:Hw0
  end.
  assert (Hnew : isNew d0 = true) by (subst d0; reflexivity).
  assert (Hid0 : _id (fields d0) = fresh_id (users w))
    by (subst d0; reflexivity).
  assert (Hrole0 : role (fields d0) = role_user) by (subst d0; reflexivity).
  assert (Hver0 : emailVerified (fields d0) = false)
    by (subst d0; reflexivity).
  assert (Hus0 : users w0 = users w) by (subst w0; reflexivity).
  pose proof (save_new d0 w0 Hnew) as Hsave.
  clear Hd0 Hw0.
  destruct (save true d0 w0) as [[d1 | ex] w1];
    [| injection Hrun as <- <-; discriminate].
  destruct Hsave as [Hus1 [Hn1 [Hm1 [Hid1 [Hrole1 Hver1]]]]].
  cbv [createSecureToken randomBytes_hex] in Hrun.
  cbn [users clock reads random draws] in Hrun.
  match type of Hrun with
  | context [save false ?d ?w2] =>
      remember d as d2 eqn:Hd2; remember w2 as w3 eqn:Hw3
  end.
  assert (Hn2 : isNew d2 = false) by (subst d2; exact Hn1).
  assert (Hp2 : isModified p_password d2 = false).
  { subst d2. rewrite !isModified_assign. unfold isModified. rewrite Hm1.
    reflexivity. }
  assert (He2 : isModified p_email d2 = false).
  { subst d2. rewrite !isModified_assign. unfold isModified. rewrite Hm1.
    reflexivity. }
  assert (Hv2 : isModified p_emailVerified d2 = false).
  { subst d2. rewrite !isModified_assign. unfold isModified. rewrite Hm1.
    reflexivity. }
  assert (Hid2 : _id (fields d2) = _id (fields d1))
    by (subst d2; reflexivity).
  assert (Hus3 : users w3 = users w1) by (subst w3; reflexivity).
  rewrite (save_plain d2 w3 Hn2 Hp2 He2) in Hrun.
  unfold createSendToken, signToken in Hrun.
  cbv [bind ret Date_now with_users] in Hrun.
  cbn [users clock reads random draws compared] in Hrun.
  injection Hrun as _ <-. cbn [users].
  rewrite Hus3, Hus1, Hus0, Hid2.
  rewrite updateOne_last.
  - eexists. split; [reflexivity |].
    rewrite apply_delta_id, apply_delta_role, apply_delta_emailVerified.
    change (existsb (Path_eqb p_emailVerified) (modified d2))
      with (isModified p_emailVerified d2).
    rewrite Hv2. repeat split; congruence.
  - intros v Hv. rewrite Hid1, Hid0. apply fresh_id_fresh. exact Hv.
  - unfold by_id. apply Nat.eqb_refl.
Qed.
End NewUser.

(** ** What a response carries *)

Section Payload.

Lemma assoc_app (k : string) (l1 l2 : list (string * JSON)) :
  assoc k (l1 ++ l2)
  = match assoc k l1 with
    | Some v => Some v
    | None => assoc k l2
    end.
Proof.
  induction l1 as [| [k1 v1] l1 IH]; cbn; [reflexivity |].
  destruct (k1 =? k)%string; [reflexivity | exact IH].
Qed.

Lemma assoc_opt_field {A} (k k' : string) (f : A -> JSON) (v : option A) :
  (k' =? k)%string = false -> assoc k (opt_field k' f v) = None.
Proof.
  intros H. destruct v; cbn; [rewrite H |]; reflexivity.
Qed.

Lemma User_toJSON_password (u : User) :
  password u = None -> get "password" (User_toJSON u) = None.
Proof.
  intros H. unfold User_toJSON, get. rewrite H.
  change (opt_field "password" JStr None) with (@nil (string * JSON)).
  rewrite !assoc_app.
  repeat (rewrite assoc_opt_field by reflexivity).
  reflexivity.
Qed.

Lemma answer_shape_payload (r : Response) :
  answer_shape r ->
  (status r = 200 \/ status r = 201 -> exists j, user_payload r = Some j)
  /\ (forall j, user_payload r = Some j -> get "password" j = None).
Proof.
  intros [code message H200 H201 | code c t u Hpw]; split.
  - cbn. intros [H | H]; contradiction.
  - cbn. discriminate.
  - intros _. eexists. reflexivity.
  - intros j Hj. cbn in Hj. injection Hj as <-.
    apply User_toJSON_password. exact Hpw.
Qed.

End Payload.

Section Answers.

Context {platform : Platform}.

Lemma createSendToken_shape (u : Doc) (code : Z) (req : Request) :
  ensures (createSendToken u code req) answer_shape.
Proof.
  unfold createSendToken. repeat (apply ensures_bind; intros).
  apply ensures_ret. apply shape_session. reflexivity.
Qed.

Lemma error_shape (code : Z) (message : string) :
  code <> 200 -> code <> 201 -> ensures (ret (error code message)) answer_shape.
Proof.
  intros H1 H2. apply ensures_ret. apply shape_error; assumption.
Qed.

(** Walks a handler: every path ends in an error response or in
    [createSendToken]. *)
Ltac walk :=
  repeat first
    [ apply createSendToken_shape
    | apply error_shape; discriminate
    | apply ensures_throw
    | apply ensures_try_catch; [| intros ]
    | apply ensures_bind; intros
    | match goal with
      | |- ensures (if ?b then _ else _) _ => destruct b
      | |- ensures (match ?x with _ => _ end) _ => destruct x
      end ].

Lemma signup_shape (req : Request) : ensures (signup req) answer_shape.
Proof. unfold signup. walk. Qed.

Lemma login_shape (req : Request) : ensures (login req) answer_shape.
Proof. unfold login, login_unlock, login_granted. walk. Qed.

Lemma updatePassword_shape (req : Request) :
  ensures (updatePassword req) answer_shape.
Proof. unfold updatePassword. walk. Qed.

Lemma resetPassword_shape (req : Request) :
  ensures (resetPassword req) answer_shape.
Proof. unfold resetPassword. walk. Qed.

Lemma answers_of_shape (handler : Request -> M Response) :
  (forall req, ensures (handler req) answer_shape) ->
  (forall req w, exists r w', handler req w = (Value r, w')) ->
  answers_without_password handler.
Proof.
  intros Hshape Htotal req w.
  destruct (Htotal req w) as [r [w' Hrun]].
  exists r, w'. split; [exact Hrun |].
  apply answer_shape_payload.
  specialize (Hshape req w). rewrite Hrun in Hshape. exact Hshape.
Qed.

(** C10: [signup], [login], [updatePassword] and [resetPassword] answer
    every request; an answer with status 200 or 201 carries a user
    object, and no user object they send has a [password] property. *)
Theorem session_payload_without_password :
  answers_without_password signup
  /\ answers_without_password login
  /\ answers_without_password updatePassword
  /\ answers_without_password resetPassword.
Proof.
  repeat split; apply answers_of_shape;
    solve [ apply signup_shape | apply login_shape
          | apply updatePassword_shape | apply resetPassword_shape
          | intros req w; apply try_catch_total ].
Qed.

End Answers.

(** [session_payload_without_password] at a signup in the demo world. *)
Lemma session_payload_without_password_witness :
  exists r w',
    signup (platform := Demo.platform)
      (with_body_name (Some "Bob")
         (with_body_passwordConfirm (Some "Str0ng!Pass")
            (Demo.credentials "bob@example.com" "Str0ng!Pass")))
      Demo.world = (Value r, w')
    /\ forall j, user_payload r = Some j -> get "password" j = None.
Proof.
  destruct (@session_payload_without_password Demo.platform) as [Hsignup _].
  destruct (Hsignup
              (with_body_name (Some "Bob")
                 (with_body_passwordConfirm (Some "Str0ng!Pass")
                    (Demo.credentials "bob@example.com" "Str0ng!Pass")))
              Demo.world) as [r [w' [Hrun [_ Hnone]]]].
  exists r, w'. split; [exact Hrun | exact Hnone].
Defined.

(** The signup of the witness is answered 201, and the user object it
    carries has an email and no password. *)
Example signup_demo_payload :
  let run :=
    signup (platform := Demo.platform)
      (with_body_name (Some "Bob")
         (with_body_passwordConfirm (Some "Str0ng!Pass")
            (Demo.credentials "bob@example.com" "Str0ng!Pass")))
      Demo.world in
  option_map status (response_of run) = Some 201
  /\ option_map
       (fun r => option_map (get "email") (user_payload r))
       (response_of run)
     = Some (Some (Some (JStr "bob@example.com")))
  /\ option_map
       (fun r => option_map (get "password") (user_payload r))
       (response_of run)
     = Some (Some None)
  /\ map emailVerified (users_after run) = [true; false].
Proof.
  repeat split; vm_compute; reflexivity.
Qed.

(** ** Password reset *)

Section DocFacts.
Context {platform : Platform}.

Lemma delta_password (d : Doc) (s : User) :
  password (apply_delta (modified d) (fields d) s)
  = if isModified p_password d then password (fields d) else password s.
Proof. apply apply_delta_password. Qed.

Lemma delta_passwordResetToken (d : Doc) (s : User) :
  passwordResetToken (apply_delta (modified d) (fields d) s)
  = if isModified p_passwordResetToken d
    then passwordResetToken (fields d) else passwordResetToken s.
Proof. apply apply_delta_passwordResetToken. Qed.

Lemma delta_passwordResetExpires (d : Doc) (s : User) :
  passwordResetExpires (apply_delta (modified d) (fields d) s)
  = if isModified p_passwordResetExpires d
    then passwordResetExpires (fields d) else passwordResetExpires s.
Proof. apply apply_delta_passwordResetExpires. Qed.

Lemma hashed_isModified (p : Path) (d : Doc) (pw salt : string) (now : Z) :
  isModified p d = true -> isModified p (hashed d pw salt now) = true.
Proof.
  intros H. unfold hashed. rewrite !isModified_assign, H.
  rewrite !orb_true_r. reflexivity.
Qed.

Lemma resetPassword_assign_token (req : Request) (d : Doc) (h : string) :
  passwordResetToken (fields d) = Some h ->
  isModified p_passwordResetToken (resetPassword_assign req d) = true.
Proof.
  intros H. unfold resetPassword_assign. rewrite !isModified_assign.
  cbn [Path_eqb andb orb same_at fields assign set_passwordResetToken
       set_passwordConfirm set_password passwordResetToken].
  rewrite H. cbn [opt_eqb negb]. rewrite ?orb_true_r. reflexivity.
Qed.

Lemma resetPassword_assign_expires (req : Request) (d : Doc) (t : Z) :
  passwordResetExpires (fields d) = Some t ->
  isModified p_passwordResetExpires (resetPassword_assign req d) = true.
Proof.
  intros H. unfold resetPassword_assign. rewrite !isModified_assign.
  cbn [Path_eqb andb orb same_at fields assign set_passwordResetToken
       set_passwordConfirm set_password passwordResetExpires].
  rewrite H. cbn [opt_eqb negb]. rewrite ?orb_true_r. reflexivity.
Qed.

Lemma resetPassword_assign_password (req : Request) (d : Doc) (pw : string) :
  password (fields d) = None ->
  body_password req = Some pw ->
  isModified p_password (resetPassword_assign req d) = true.
Proof.
  intros H Hp. unfold resetPassword_assign. rewrite !isModified_assign.
  cbn [Path_eqb andb orb same_at fields assign set_passwordResetToken
       set_passwordConfirm set_password password].
  rewrite H, Hp. cbn [opt_eqb negb]. rewrite ?orb_true_r. reflexivity.
Qed.

Lemma resetPassword_assign_email (req : Request) (d : Doc) :
  isModified p_email (resetPassword_assign req d) = isModified p_email d.
Proof.
  unfold resetPassword_assign. rewrite !isModified_assign. reflexivity.
Qed.

End DocFacts.

Section Reset.
Context {platform : Platform}.

Lemma strong_password_nonempty (pw : string) :
  passwordRegex_test (Some pw) = true ->
  JS.truthy (Some pw) = true /\ (8 <=? String.length pw)%nat = true.
Proof.
  intros H. apply passwordRegex_strong in H. unfold strong_password in H.
  rewrite !andb_true_iff in H. destruct H as [[[[Hn _] _] _] _].
  split; [| exact Hn].
  destruct pw; [discriminate | reflexivity].
Qed.

(** A document whose name and email pass their validators, and whose
    new password meets the pattern and equals its confirmation, passes
    the validation of a save. *)
Lemma validate_password_change (d : Doc) (pw : string) :
  validate_name (fields d) = true ->
  validate_email (fields d) = true ->
  password (fields d) = Some pw ->
  passwordConfirm (fields d) = Some pw ->
  passwordRegex_test (Some pw) = true ->
  validate d = true.
Proof.
  intros Hname Hmail Hp Hc Hre.
  destruct (strong_password_nonempty pw Hre) as [Hne Hlen].
  unfold validate. rewrite Hname, Hmail, Hp, Hc. unfold required.
  rewrite Hne. cbn [length_of andb JS.strict_eq].
  rewrite Hlen, String.eqb_refl, !orb_true_r. reflexivity.
Qed.

Lemma resetPassword_succeeds (req : Request) (w : World) (u : User)
  (pw : string) :
  csrf_valid req = true ->
  find (fun v => is_active v
                 && by_resetToken (sha256_hex (param_token req))
                      (clock w (reads w)) v) (users w) = Some u ->
  validate_name u = true ->
  validate_email u = true ->
  body_password req = Some pw ->
  passwordRegex_test (Some pw) = true ->
  body_passwordConfirm req = Some pw ->
  let d := hashed (resetPassword_assign req (hydrate (select false u))) pw
             (random w (draws w)) (clock w (S (reads w))) in
  exists r w',
    resetPassword req w = (Value r, w')
    /\ status r = 200
    /\ users w'
       = updateOne (fun v => is_active v && by_id (_id u) v)
           (password_change_update (clock w (S (S (reads w))))
              (new_event PASSWORD_RESET (clock w (S (S (S (reads w))))) req)
              {| fields := fields d; modified := []; isNew := false |})
           (updateOne (by_id (_id u))
              (apply_delta (modified d) (fields d)) (users w)).
Proof.
  intros Hc Hf Hname Hmail Hp Hre Hconf d.
  unfold resetPassword. rewrite Hc. cbn [negb]. run. rewrite Hf.
  cbn [option_map]. rewrite Hp, Hre. cbn [negb].
  remember (hydrate (select false u)) as d00 eqn:Hd00.
  assert (Hpw00 : password (fields d00) = None) by (subst d00; reflexivity).
  assert (Hem00 : isModified p_email d00 = false)
    by (subst d00; reflexivity).
  assert (Hid00 : _id (fields d00) = _id u) by (subst d00; reflexivity).
  remember (resetPassword_assign req d00) as d0 eqn:Hd0.
  assert (Hpw0 : password (fields d0) = Some pw).
  { subst d0. unfold resetPassword_assign. rewrite Hp. reflexivity. }
  assert (Hc0 : passwordConfirm (fields d0) = Some pw).
  { subst d0. unfold resetPassword_assign. rewrite Hconf. reflexivity. }
  assert (Hn0 : isNew d0 = false) by (subst d0 d00; reflexivity).
  assert (Hid0 : _id (fields d0) = _id u) by (subst d0; exact Hid00).
  assert (Hmod : isModified p_password d0 = true).
  { subst d0. apply resetPassword_assign_password with pw; assumption. }
  assert (Hem : isModified p_email d0 = false).
  { subst d0. rewrite resetPassword_assign_email. exact Hem00. }
  assert (Hname0 : validate_name (fields d0) = true)
    by (subst d0 d00; exact Hname).
  assert (Hmail0 : validate_email (fields d0) = true)
    by (subst d0 d00; exact Hmail).
  pose proof (validate_password_change d0 Hname0 Hmail0 Hpw0 Hc0 Hre)
    as Hval.
  rewrite (save_hashes d0 _ Hn0 Hval Hmod Hem Hpw0).
  cbn [users clock reads random draws]. rewrite Hid0.
  subst d.

  remember (hashed d0 pw (random w (draws w)) (clock w (S (reads w))))
    as d1 eqn:Hd1.
  assert (Hid1 : _id (fields d1) = _id u) by (subst d1; exact Hid0).
  unfold log_password_change, createSendToken, signToken. run.
  cbn [fields]. rewrite Hid1.
  do 2 eexists. split; [reflexivity |]. split; reflexivity.
Qed.

Lemma account_by_id_of_In (l : list User) (u : User) :
  unique_ids l = true -> In u l -> is_active u = true ->
  account_by_id (_id u) l = Some u.
Proof.
  intros Hids Hin Hact. unfold account_by_id.
  destruct (find_some_of_In
              (fun v => is_active v && (_id v =? _id u)%nat) l u Hin)
    as [v Hv].
  - rewrite Hact, Nat.eqb_refl. reflexivity.
  - rewrite Hv. f_equal. destruct (find_some _ _ Hv) as [Hvin Hvp].
    rewrite andb_true_iff in Hvp. destruct Hvp as [_ Hvid].
    apply Nat.eqb_eq in Hvid.
    apply (unique_ids_In l v u Hids Hvin Hin Hvid).
Qed.

(** What the save of [resetPassword] writes: the hashed password goes
    with the cleared token and expiry, in one update. *)
Lemma reset_delta (req : Request) (u s : User) (pw h salt : string)
  (expires now : Z) :
  passwordResetToken u = Some h ->
  passwordResetExpires u = Some expires ->
  body_password req = Some pw ->
  let d := hashed (resetPassword_assign req (hydrate (select false u))) pw
             salt now in
  let s' := apply_delta (modified d) (fields d) s in
  password s' = Some (bcrypt_hash salt pw)
  /\ passwordResetToken s' = None
  /\ passwordResetExpires s' = None.
Proof.
  intros Ht He Hp d s'. unfold s', d.
  rewrite delta_password, delta_passwordResetToken,
    delta_passwordResetExpires.
  rewrite (hashed_isModified p_password),
    (hashed_isModified p_passwordResetToken),
    (hashed_isModified p_passwordResetExpires).
  - repeat split.
  - apply resetPassword_assign_expires with expires. exact He.
  - apply resetPassword_assign_token with h. exact Ht.
  - apply resetPassword_assign_password with pw; [reflexivity | exact Hp].
Qed.

(** C4: a reset token is used once.  When the users collection has
    unique identifiers and [u] is its one holder of the hash of the
    request's token, active, with the expiry still ahead and with a
    stored name and email that pass the validators of the schema (the
    save validates them again), a [resetPassword] request that passes
    the CSRF check with a password that meets the pattern and equals its
    confirmation is answered 200;
    the collection is then the old one after two updates of the record,
    the one of the save, which writes the hashed password together with
    the cleared hash and expiry, and the one that logs the change; the
    stored record has the new password and neither reset hash nor expiry;
    and every later [resetPassword] with the same token is answered 400
    "Token is invalid or has expired" and changes nothing. *)
Theorem resetPassword_single_use (req : Request) (w : World) (u : User)
  (pw : string) (expires : Z) :
  csrf_valid req = true ->
  unique_ids (users w) = true ->
  In u (users w) ->
  is_active u = true ->
  validate_name u = true ->
  validate_email u = true ->
  passwordResetToken u = Some (sha256_hex (param_token req)) ->
  passwordResetExpires u = Some expires ->
  clock w (reads w) < expires ->
  (forall v, In v (users w) ->
             passwordResetToken v = Some (sha256_hex (param_token req)) ->
             _id v = _id u) ->
  body_password req = Some pw ->
  passwordRegex_test (Some pw) = true ->
  body_passwordConfirm req = Some pw ->
  exists r w',
    resetPassword req w = (Value r, w')
    /\ status r = 200
    /\ (exists save_update log_update,
          users w'
          = updateOne (fun v => is_active v && by_id (_id u) v) log_update
              (updateOne (by_id (_id u)) save_update (users w))
          /\ forall s,
               password (save_update s)
               = Some (bcrypt_hash (random w (draws w)) pw)
               /\ passwordResetToken (save_update s) = None
               /\ passwordResetExpires (save_update s) = None)
    /\ (exists u',
          account_by_id (_id u) (users w') = Some u'
          /\ password u' = Some (bcrypt_hash (random w (draws w)) pw)
          /\ passwordResetToken u' = None
          /\ passwordResetExpires u' = None)
    /\ forall req2 w2,
         csrf_valid req2 = true ->
         param_token req2 = param_token req ->
         users w2 = users w' ->
         exists w2',
           resetPassword req2 w2
           = (Value (error 400 "Token is invalid or has expired"), w2')
           /\ users w2' = users w2.
Proof.
  intros Hc Hids Hin Hact Hname Hmail Htok Hexp Hnow Hsole Hp Hre Hconf.
  remember (sha256_hex (param_token req)) as h eqn:Hh.
  assert (Hf : find (fun v => is_active v
                              && by_resetToken h (clock w (reads w)) v)
                 (users w) = Some u).
  { destruct (find_some_of_In
                (fun v => is_active v
                          && by_resetToken h (clock w (reads w)) v)
                (users w) u Hin) as [v Hv].
    - unfold by_resetToken. rewrite Hact, Htok, Hexp. cbn [opt_eqb andb].
      rewrite String.eqb_refl. apply Z.ltb_lt. exact Hnow.
    - rewrite Hv. f_equal.
      destruct (find_some _ _ Hv) as [Hvin Hvp].
      unfold by_resetToken in Hvp.
      rewrite !andb_true_iff in Hvp. destruct Hvp as [_ [Hvt _]].
      apply (unique_ids_In (users w) v u Hids Hvin Hin).
      apply Hsole; [exact Hvin |].
      destruct (passwordResetToken v) as [t|]; cbn in Hvt; [| discriminate].
      apply String.eqb_eq in Hvt. congruence. }
  rewrite Hh in Hf.
  destruct (resetPassword_succeeds req w Hc Hf Hname Hmail Hp Hre Hconf)
    as [r [w' [Hrun [Hst Hus]]]].
  rewrite <- Hh in Hf.
  remember (hashed (resetPassword_assign req (hydrate (select false u))) pw
              (random w (draws w)) (clock w (S (reads w)))) as d eqn:Hd.
  remember (password_change_update (clock w (S (S (reads w))))
              (new_event PASSWORD_RESET (clock w (S (S (S (reads w))))) req)
              {| fields := fields d; modified := []; isNew := false |})
    as g eqn:Hg.
  assert (Hdelta : forall s,
             password (apply_delta (modified d) (fields d) s)
             = Some (bcrypt_hash (random w (draws w)) pw)
             /\ passwordResetToken (apply_delta (modified d) (fields d) s)
                = None
             /\ passwordResetExpires (apply_delta (modified d) (fields d) s)
                = None).
  { intros s. subst d. apply reset_delta with h expires; assumption. }
  assert (Hg_id : forall s, _id (g s) = _id s) by (subst g; reflexivity).
  assert (Hg_active : forall s, is_active (g s) = is_active s)
    by (subst g; reflexivity).
  assert (Hg_pw : forall s, password (g s) = password s)
    by (subst g; reflexivity).
  assert (Hg_tok : forall s, passwordResetToken (g s) = passwordResetToken s)
    by (subst g; reflexivity).
  assert (Hg_exp : forall s, passwordResetExpires (g s)
                             = passwordResetExpires s)
    by (subst g; reflexivity).
  exists r, w'. split; [exact Hrun |]. split; [exact Hst |].
  split; [exists (apply_delta (modified d) (fields d)), g;
          split; [exact Hus | exact Hdelta] |].
  split.
  - exists (g (apply_delta (modified d) (fields d) u)).
    split.
    + rewrite Hus. apply account_by_id_findByIdAndUpdate; try assumption.
      apply account_by_id_updateOne.
      * intros s. apply apply_delta_id.
      * intros s. apply apply_delta_active.
      * exact Hids.
      * apply account_by_id_of_In; assumption.
    + rewrite Hg_pw, Hg_tok, Hg_exp. apply Hdelta.
  - intros req2 w2 Hc2 Hparam Hw2.
    unfold resetPassword. rewrite Hc2, Hparam, <- Hh. cbn [negb]. run.
    rewrite find_none_of_all.
    + cbn [option_map]. eexists. split; reflexivity.
    + intros v Hv. rewrite Hw2, Hus in Hv.
      assert (Hnot : passwordResetToken v <> Some h).
      { apply In_updateOne in Hv.
        assert (Hprev : forall s,
                   In s (updateOne (by_id (_id u))
                           (apply_delta (modified d) (fields d)) (users w)) ->
                   passwordResetToken s <> Some h).
        { intros s Hs.
          apply In_updateOne_by_id in Hs; [| exact Hids].
          destruct Hs as [[Hs Hne] | [s0 [_ [_ ->]]]].
          - intros Hts. apply Hne. apply Hsole; assumption.
          - destruct (Hdelta s0) as [_ [Ht0 _]]. rewrite Ht0. discriminate. }
        destruct Hv as [Hv | [s [Hs [_ ->]]]].
        - apply Hprev. exact Hv.
        - rewrite Hg_tok. apply Hprev. exact Hs. }
      unfold by_resetToken.
      destruct (passwordResetToken v) as [t|]; cbn [opt_eqb].
      * destruct (String.eqb_spec t h) as [-> | Hne];
          [exfalso; apply Hnot; reflexivity |].
        rewrite andb_false_r. reflexivity.
      * rewrite andb_false_r. reflexivity.
Qed.

End Reset.

(** [resetPassword_single_use] at the demo account holding the hash of
    the token [feedbeef]. *)
Lemma resetPassword_single_use_witness :
  let holder :=
    set_passwordResetExpires (Some 1700004200000)
      (set_passwordResetToken (Some "sha256:feedbeef") Demo.alice) in
  let req :=
    with_param_token "feedbeef"
      (with_body_passwordConfirm (Some "N3w!Passw0rd")
         (with_body_password (Some "N3w!Passw0rd") Demo.request)) in
  exists r w',
    resetPassword (platform := Demo.platform) req
      (Demo.world_at 1700000600000 [holder]) = (Value r, w')
    /\ status r = 200.
Proof.
  intros holder req.
  destruct (@resetPassword_single_use Demo.platform req
              (Demo.world_at 1700000600000 [holder]) holder
              "N3w!Passw0rd" 1700004200000)
    as [r [w' [Hrun [Hst _]]]]; try reflexivity.
  - left. reflexivity.
  - intros v [<- | []] _. reflexivity.
  - exists r, w'. split; [exact Hrun | exact Hst].
Defined.

(** The run of the witness, and the second use of its token. *)
Example resetPassword_twice :
  let holder :=
    set_passwordResetExpires (Some 1700004200000)
      (set_passwordResetToken (Some "sha256:feedbeef") Demo.alice) in
  let req :=
    with_param_token "feedbeef"
      (with_body_passwordConfirm (Some "N3w!Passw0rd")
         (with_body_password (Some "N3w!Passw0rd") Demo.request)) in
  let first :=
    resetPassword (platform := Demo.platform) req
      (Demo.world_at 1700000600000 [holder]) in
  option_map status (response_of first) = Some 200
  /\ map passwordResetToken (users_after first) = [None]
  /\ map password (users_after first) = [Some "bcrypt:N3w!Passw0rd"]
  /\ response_of (resetPassword (platform := Demo.platform) req (snd first))
     = Some (error 400 "Token is invalid or has expired").
Proof.
  repeat split; vm_compute; reflexivity.
Qed.

(** ** Sessions and password changes *)

Section Sessions.
Context {platform : Platform}.

(** The verdict of [protect] on a signed token. *)
Lemma protect_verdict (req : Request) (w : World) (key : string) (id : nat)
  (iat exp : Z) :
  presented_token req = Some (Signed key id iat exp) ->
  exists w',
    users w' = users w
    /\ protect req w
       = (Value
            (if negb (key =? JWT_SECRET)%string
                || (exp <=? clock w (reads w) / 1000)
             then inl (error 401 "Authentication failed. Please log in again.")
             else
               match account_by_id id (users w) with
               | None =>
                   inl (error 401
                          "The user belonging to this token no longer exists.")
               | Some u =>
                   if changedPasswordAfter (select false u) iat
                   then
                     inl (error 401
                            "User recently changed password. Please log in again.")
                   else
                     inr (with_req_user (Some (hydrate (select false u))) req)
               end), w').
Proof.
  intros Htok. unfold protect. rewrite Htok.
  unfold jwt_verify, account_by_id. run.
  destruct (key =? JWT_SECRET)%string; cbn [negb orb].
  - destruct (exp <=? clock w (reads w) / 1000).
    + eexists. split; [| reflexivity]. reflexivity.
    + cbn [users]. unfold by_id.
      destruct (find _ (users w)) as [u|]; cbn [option_map fields hydrate].
      * destruct (changedPasswordAfter (select false u) iat);
          eexists; (split; [| reflexivity]); reflexivity.
      * eexists. split; [| reflexivity]. reflexivity.
  - eexists. split; [| reflexivity]. reflexivity.
Qed.

Lemma updatePassword_assign_facts (req : Request) (d : Doc) :
  isNew (updatePassword_assign req d) = isNew d
  /\ _id (fields (updatePassword_assign req d)) = _id (fields d)
  /\ password (fields (updatePassword_assign req d)) = body_newPassword req
  /\ passwordConfirm (fields (updatePassword_assign req d))
     = body_passwordConfirm req
  /\ isModified p_email (updatePassword_assign req d) = isModified p_email d.
Proof.
  repeat split. unfold updatePassword_assign.
  rewrite !isModified_assign. reflexivity.
Qed.

Lemma updatePassword_succeeds (req : Request) (w : World)
  (requester : Doc) (u : User) (cur h pw : string) :
  csrf_valid req = true ->
  req_user req = Some requester ->
  account_by_id (_id (fields requester)) (users w) = Some u ->
  validate_name u = true ->
  validate_email u = true ->
  password u = Some h ->
  body_currentPassword req = Some cur ->
  bcrypt_compare cur h = true ->
  body_newPassword req = Some pw ->
  passwordRegex_test (Some pw) = true ->
  body_passwordConfirm req = Some pw ->
  exists r w' k f e d,
    updatePassword req w = (Value r, w')
    /\ status r = 200
    /\ get "token" (body r)
       = Some (JTok (Signed JWT_SECRET (_id u)
                       (clock w (S (S k)) / 1000)
                       (clock w (S (S k)) / 1000 + JWT_EXPIRES_IN)))
    /\ (reads w <= k)%nat
    /\ users w'
       = updateOne (fun v => is_active v && by_id (_id u) v)
           (password_change_update (clock w k) e d)
           (updateOne (by_id (_id u)) f (users w))
    /\ (forall s, _id (f s) = _id s)
    /\ (forall s, is_active (f s) = is_active s).
Proof.
  intros Hc Hru Hf Hname Hmail Hh Hcur Hok Hnew Hre Hconf.
  unfold updatePassword. rewrite Hc, Hru. cbn [negb]. run.
  unfold account_by_id in Hf. unfold by_id at 1. rewrite Hf.
  cbn [option_map].
  assert (Hid : _id u = _id (fields requester)).
  { apply find_some in Hf. destruct Hf as [_ Hf].
    rewrite andb_true_iff in Hf. destruct Hf as [_ Hf].
    apply Nat.eqb_eq. exact Hf. }
  remember (hydrate (select true u)) as d00 eqn:Hd00.
  assert (Hpw00 : password (fields d00) = Some h)
    by (subst d00; exact Hh).
  assert (Hn00 : isNew d00 = false) by (subst d00; reflexivity).
  assert (Hem00 : isModified p_email d00 = false)
    by (subst d00; reflexivity).
  assert (Hid00 : _id (fields d00) = _id u) by (subst d00; reflexivity).
  rewrite Hpw00, Hcur. cbn [correctPassword]. rewrite Hok, Hnew, Hre.
  cbn [negb].
  destruct (updatePassword_assign_facts req d00)
    as [Hn0 [Hid0 [Hpw0 [Hc0 Hem0]]]].
  remember (updatePassword_assign req d00) as d0 eqn:Hd0.
  rewrite Hn00 in Hn0. rewrite Hid00 in Hid0. rewrite Hnew in Hpw0.
  rewrite Hconf in Hc0. rewrite Hem00 in Hem0.
  assert (Hname0 : validate_name (fields d0) = true)
    by (subst d0 d00; exact Hname).
  assert (Hmail0 : validate_email (fields d0) = true)
    by (subst d0 d00; exact Hmail).
  pose proof (validate_password_change d0 Hname0 Hmail0 Hpw0 Hc0 Hre)
    as Hval.
  destruct (isModified p_password d0) eqn:Hmod.
  - rewrite (save_hashes d0 _ Hn0 Hval Hmod Hem0 Hpw0).
    cbn [users clock reads random draws compared]. rewrite Hid0.
    remember (hashed d0 pw (random w (draws w)) (clock w (reads w)))
      as d1 eqn:Hd1.
    assert (Hid1 : _id (fields d1) = _id u) by (subst d1; exact Hid0).
    unfold log_password_change, createSendToken, signToken. run.
    cbn [fields]. rewrite Hid1.
    do 2 eexists. exists (S (reads w)). do 3 eexists.
    split; [reflexivity |]. split; [reflexivity |].
    split; [reflexivity |]. split; [lia |]. split; [reflexivity |].
    split; intros s; [apply apply_delta_id | apply apply_delta_active].
  - rewrite (save_checked d0 _ Hn0 Hval Hmod Hem0).
    unfold with_users. cbn [users clock reads random draws compared].
    rewrite Hid0.
    unfold log_password_change, createSendToken, signToken. run.
    cbn [fields]. rewrite Hid0.
    do 2 eexists. exists (reads w). do 3 eexists.
    split; [reflexivity |]. split; [reflexivity |].
    split; [reflexivity |]. split; [lia |]. split; [reflexivity |].
    split; intros s; [apply apply_delta_id | apply apply_delta_active].
Qed.

Lemma changedPasswordAfter_select (u : User) (iat : Z) :
  changedPasswordAfter (select false u) iat = changedPasswordAfter u iat.
Proof. reflexivity. Qed.

(** A token issued a second or more before a change carries an earlier
    second than the change. *)
Lemma issued_a_second_before (issued changedAt : Z) :
  issued + 1000 <= changedAt -> issued / 1000 < changedAt / 1000.
Proof.
  intros H.
  assert (H1 : issued / 1000 + 1 <= changedAt / 1000).
  { replace (issued / 1000 + 1) with ((issued + 1 * 1000) / 1000)
      by (apply Z.div_add; lia).
    apply Z.div_le_mono; lia. }
  lia.
Qed.

(** C3, as the code has it.  A successful [updatePassword] (the request
    passes the CSRF check, the current password is accepted by bcrypt, the
    new one meets the pattern and equals its confirmation, and the stored
    name and email pass the validators of the schema, which the save
    runs again) on a collection with unique identifiers, under a clock that does not run
    backwards and reads no time before the epoch, records the time of the
    change, a reading of the clock made while the request is handled, in
    [passwordChangedAt] and answers 200 with a fresh token.  From then on
    [protect] refuses, with a 401, every token of the user whose [iat] is
    an earlier second than the second of the change, so every token
    issued a second or more before it, and accepts the fresh token until
    it expires. *)
Theorem updatePassword_invalidates_sessions (req : Request) (w : World)
  (requester : Doc) (u : User) (cur h pw : string) :
  csrf_valid req = true ->
  unique_ids (users w) = true ->
  req_user req = Some requester ->
  account_by_id (_id (fields requester)) (users w) = Some u ->
  validate_name u = true ->
  validate_email u = true ->
  password u = Some h ->
  body_currentPassword req = Some cur ->
  bcrypt_compare cur h = true ->
  body_newPassword req = Some pw ->
  passwordRegex_test (Some pw) = true ->
  body_passwordConfirm req = Some pw ->
  (forall i j, (i <= j)%nat -> clock w i <= clock w j) ->
  0 <= clock w (reads w) ->
  exists r w' changedAt iat,
    updatePassword req w = (Value r, w')
    /\ status r = 200
    /\ get "token" (body r)
       = Some (JTok (Signed JWT_SECRET (_id u) iat (iat + JWT_EXPIRES_IN)))
    /\ (exists u',
          account_by_id (_id u) (users w') = Some u'
          /\ passwordChangedAt u' = Some changedAt)
    /\ clock w (reads w) <= changedAt
    /\ (forall issued,
          issued + 1000 <= changedAt -> issued / 1000 < changedAt / 1000)
    /\ (forall req2 w2 key iat2 exp2,
          presented_token req2 = Some (Signed key (_id u) iat2 exp2) ->
          iat2 < changedAt / 1000 ->
          users w2 = users w' ->
          exists r2 w2',
            protect req2 w2 = (Value (inl r2), w2') /\ status r2 = 401)
    /\ (forall req2 w2,
          presented_token req2
          = Some (Signed JWT_SECRET (_id u) iat (iat + JWT_EXPIRES_IN)) ->
          clock w2 (reads w2) / 1000 < iat + JWT_EXPIRES_IN ->
          users w2 = users w' ->
          exists req2' w2' d,
            protect req2 w2 = (Value (inr req2'), w2')
            /\ req_user req2' = Some d
            /\ _id (fields d) = _id u).
Proof.
  intros Hc Hids Hru Hf Hname Hmail Hh Hcur Hok Hnew Hre Hconf Hmono Hpos.
  destruct (updatePassword_succeeds req w Hc Hru Hf Hname Hmail Hh Hcur Hok
              Hnew Hre Hconf)
    as [r [w' [k [f [e [d [Hrun [Hst [Htok [Hk [Hus [Hfid Hfact]]]]]]]]]]]].
  assert (Hid : _id (fields requester) = _id u).
  { unfold account_by_id in Hf. apply find_some in Hf. destruct Hf as [_ Hf].
    rewrite andb_true_iff in Hf. destruct Hf as [_ Hf].
    apply Nat.eqb_eq in Hf. symmetry. exact Hf. }
  rewrite Hid in Hf.
  remember (password_change_update (clock w k) e d) as g eqn:Hg.
  assert (Hg_id : forall s, _id (g s) = _id s) by (subst g; reflexivity).
  assert (Hg_active : forall s, is_active (g s) = is_active s)
    by (subst g; reflexivity).
  assert (Hg_at : forall s, passwordChangedAt (g s) = Some (clock w k))
    by (subst g; reflexivity).
  assert (Hacc : account_by_id (_id u) (users w') = Some (g (f u))).
  { rewrite Hus. apply account_by_id_findByIdAndUpdate; try assumption.
    apply account_by_id_updateOne; assumption. }
  assert (Hk0 : 0 <= clock w k).
  { apply Z.le_trans with (clock w (reads w)); [exact Hpos |].
    apply Hmono. exact Hk. }
  exists r, w', (clock w k), (clock w (S (S k)) / 1000).
  split; [exact Hrun |]. split; [exact Hst |]. split; [exact Htok |].
  split; [exists (g (f u)); split; [exact Hacc | apply Hg_at] |].
  split; [apply Hmono; exact Hk |].
  split; [intros issued; apply issued_a_second_before |].
  split.
  - intros req2 w2 key iat2 exp2 Hpres Hold Hw2.
    destruct (protect_verdict req2 w2 Hpres) as [w2' [_ Hv]].
    rewrite Hv, Hw2, Hacc, changedPasswordAfter_select.
    unfold changedPasswordAfter. rewrite Hg_at.
    rewrite Z.quot_div_nonneg by lia.
    apply Z.ltb_lt in Hold. rewrite Hold.
    destruct (negb (key =? JWT_SECRET)%string
              || (exp2 <=? clock w2 (reads w2) / 1000));
      do 2 eexists; split; reflexivity.
  - intros req2 w2 Hpres Hlive Hw2.
    destruct (protect_verdict req2 w2 Hpres) as [w2' [_ Hv]].
    rewrite Hv, Hw2, Hacc, changedPasswordAfter_select.
    unfold changedPasswordAfter. rewrite Hg_at.
    rewrite Z.quot_div_nonneg by lia.
    rewrite String.eqb_refl. cbn [negb orb].
    assert (Hexp : (clock w (S (S k)) / 1000 + JWT_EXPIRES_IN
                    <=? clock w2 (reads w2) / 1000) = false)
      by (apply Z.leb_gt; exact Hlive).
    rewrite Hexp.
    assert (Hfresh : (clock w (S (S k)) / 1000 <? clock w k / 1000) = false).
    { apply Z.ltb_ge. apply Z.div_le_mono; [lia |]. apply Hmono. lia. }
    rewrite Hfresh.
    do 3 eexists. split; [reflexivity |]. split; [reflexivity |].
    cbn. rewrite Hg_id. apply Hfid.
Qed.

End Sessions.

(** [updatePassword_invalidates_sessions] at a change of the password of
    the demo account. *)
Lemma updatePassword_invalidates_sessions_witness :
  let req :=
    with_req_user (Some (hydrate (select false Demo.alice)))
      (with_body_currentPassword (Some "Str0ng!Pass")
         (with_body_newPassword (Some "N3w!Passw0rd")
            (with_body_passwordConfirm (Some "N3w!Passw0rd")
               Demo.request))) in
  exists r w',
    updatePassword (platform := Demo.platform) req Demo.world = (Value r, w')
    /\ status r = 200.
Proof.
  intros req.
  destruct (@updatePassword_invalidates_sessions Demo.platform req Demo.world
              (hydrate (select false Demo.alice)) Demo.alice
              "Str0ng!Pass" "bcrypt:Str0ng!Pass" "N3w!Passw0rd")
    as [r [w' [changedAt [iat [Hrun [Hst _]]]]]];
    [reflexivity .. | | |].
  - intros i j Hij.
    cbv beta iota delta [Demo.world Demo.world_at clock]. lia.
  - cbv beta iota delta [Demo.world Demo.world_at clock reads]. lia.
  - exists r, w'. split; [exact Hrun | exact Hst].
Defined.

(** C3, as stated, fails: a token that [login] issued at
    1700000600050 ms is still accepted by [protect] after a password
    change recorded at 1700000600800 ms, later within the same second. *)
Lemma older_token_still_accepted :
  let w0 := Demo.world_at 1700000599800 [Demo.alice] in
  let old := Signed "secret" 1 1700000600 1707776600 in
  let signin :=
    login (platform := Demo.platform)
      (Demo.credentials "alice@example.com" "Str0ng!Pass") w0 in
  let change :=
    updatePassword (platform := Demo.platform)
      (with_req_user (Some (hydrate (select false Demo.alice)))
         (with_body_currentPassword (Some "Str0ng!Pass")
            (with_body_newPassword (Some "N3w!Passw0rd")
               (with_body_passwordConfirm (Some "N3w!Passw0rd")
                  Demo.request))))
      (snd signin) in
  let check :=
    protect (platform := Demo.platform)
      (with_cookie_jwt (Some old) Demo.request) (snd change) in
  clock w0 1 = 1700000600050
  /\ option_map (fun r => get "token" (body r)) (response_of signin)
     = Some (Some (JTok old))
  /\ option_map status (response_of change) = Some 200
  /\ map passwordChangedAt (users_after change) = [Some 1700000600800]
  /\ option_map
       (fun v => match v with inl r => Some (status r) | inr _ => None end)
       (response_of check)
     = Some None.
Proof.
  repeat split; vm_compute; reflexivity.
Qed.
(** * The collection across requests *)

Section Grows.

Lemma same_account_refl (s : User) : same_account s s.
Proof. repeat split. Qed.

Lemma same_account_trans (a b c : User) :
  same_account a b -> same_account b c -> same_account a c.
Proof.
  unfold same_account. intros H1 H2.
  repeat match goal with H : _ /\ _ |- _ => destruct H end.
  repeat split; congruence.
Qed.

Lemma newcomer_same_account (a b : User) :
  newcomer a -> same_account a b -> newcomer b.
Proof.
  unfold newcomer, same_account. intros H1 H2.
  repeat match goal with H : _ /\ _ |- _ => destruct H end.
  repeat split; congruence.
Qed.

Lemma Forall2_same_account_refl (l : list User) : Forall2 same_account l l.
Proof.
  induction l; constructor; [apply same_account_refl | assumption].
Qed.

Lemma Forall2_same_account_trans (a b c : list User) :
  Forall2 same_account a b -> Forall2 same_account b c ->
  Forall2 same_account a c.
Proof.
  intros H. revert c.
  induction H as [| x y l l' Hxy _ IH]; intros c Hc; inversion Hc; subst.
  - constructor.
  - constructor; [eapply same_account_trans; eassumption | apply IH; assumption].
Qed.

Lemma Forall2_newcomer (a b : list User) :
  Forall2 same_account a b -> Forall newcomer a -> Forall newcomer b.
Proof.
  induction 1 as [| x y l l' Hxy _ IH]; intros Hn; [constructor |].
  inversion Hn; subst.
  constructor; [eapply newcomer_same_account; eassumption | apply IH; assumption].
Qed.

Lemma grows_refl (l : list User) : grows l l.
Proof.
  exists l, []. rewrite app_nil_r.
  split; [reflexivity |]. split; [apply Forall2_same_account_refl | constructor].
Qed.

Lemma grows_trans (a b c : list User) : grows a b -> grows b c -> grows a c.
Proof.
  intros [k1 [n1 [Hb [Hk1 Hn1]]]] [k2 [n2 [Hc [Hk2 Hn2]]]]. subst b.
  apply Forall2_app_inv_l in Hk2.
  destruct Hk2 as [k2a [k2b [Ha [Hb Hk]]]]. subst k2 c.
  exists k2a, (k2b ++ n2)%list. split; [symmetry; apply app_assoc |].
  split; [eapply Forall2_same_account_trans; eassumption |].
  apply Forall_app. split; [| assumption].
  eapply Forall2_newcomer; eassumption.
Qed.

Lemma grows_updateOne (filter : User -> bool) (f : User -> User)
  (l : list User) :
  (forall s, same_account s (f s)) -> grows l (updateOne filter f l).
Proof.
  intros Hf. exists (updateOne filter f l), []. rewrite app_nil_r.
  split; [reflexivity |]. split; [| constructor].
  induction l as [| u l IH]; cbn; [constructor |].
  destruct (filter u); constructor;
    auto using same_account_refl, Forall2_same_account_refl.
Qed.

Lemma grows_insert (l : list User) (u : User) :
  newcomer u -> grows l (l ++ [u])%list.
Proof.
  intros Hu. exists l, [u]. split; [reflexivity |].
  split; [apply Forall2_same_account_refl | constructor; [assumption | constructor]].
Qed.

(** What a save writes of a settled document leaves the account the
    same. *)
Lemma apply_delta_same_account (ps : list Path) (src dst : User) :
  existsb (Path_eqb p_email) ps = false ->
  existsb (Path_eqb p_emailVerified) ps = false ->
  same_account dst (apply_delta ps src dst).
Proof.
  induction ps as [| p ps IH]; cbn; [intros; apply same_account_refl |].
  intros He Hv.
  apply orb_false_elim in He. destruct He as [He1 He2].
  apply orb_false_elim in Hv. destruct Hv as [Hv1 Hv2].
  specialize (IH He2 Hv2).
  eapply same_account_trans; [exact IH |].
  destruct p; try discriminate; repeat split.
Qed.

End Grows.

Section Keeps.

Context {platform : Platform}.

Lemma keeps_ret {A} (a : A) (Q : A -> Prop) : Q a -> keeps (ret a) Q.
Proof. intros H w. split; [apply grows_refl | exact H]. Qed.

Lemma keeps_throw {A} (e : Exn) (Q : A -> Prop) : keeps (throw e) Q.
Proof. intros w. split; [apply grows_refl | exact I]. Qed.

Lemma keeps_bind {A B} (c : M A) (k : A -> M B) (Q : A -> Prop)
  (Q' : B -> Prop) :
  keeps c Q -> (forall a, Q a -> keeps (k a) Q') -> keeps (bind c k) Q'.
Proof.
  intros Hc Hk w. unfold bind. specialize (Hc w).
  destruct (c w) as [[a | e] w1]; cbn [fst snd] in *.
  - destruct Hc as [Hg Ha]. specialize (Hk a Ha w1).
    destruct Hk as [Hg' Hq]. split; [eapply grows_trans; eassumption | exact Hq].
  - exact Hc.
Qed.

Lemma keeps_try_catch {A} (body : M A) (handler : Exn -> M A)
  (Q : A -> Prop) :
  keeps body Q -> (forall e, keeps (handler e) Q) ->
  keeps (try_catch body handler) Q.
Proof.
  intros Hb Hh w. unfold try_catch. specialize (Hb w).
  destruct (body w) as [[a | e] w1]; cbn [fst snd] in *; [exact Hb |].
  destruct Hb as [Hg _]. specialize (Hh e w1). destruct Hh as [Hg' Hq].
  split; [eapply grows_trans; eassumption | exact Hq].
Qed.

Lemma keeps_weaken {A} (c : M A) (Q Q' : A -> Prop) :
  keeps c Q -> (forall a, Q a -> Q' a) -> keeps c Q'.
Proof.
  intros Hc HQ w. specialize (Hc w). destruct Hc as [Hg Hq].
  split; [exact Hg |]. destruct (fst (c w)); auto.
Qed.

Lemma keeps_Date_now : keeps Date_now (fun _ => True).
Proof. intros w. split; [apply grows_refl | exact I]. Qed.

Lemma keeps_randomBytes_hex : keeps randomBytes_hex (fun _ => True).
Proof. intros w. split; [apply grows_refl | exact I]. Qed.

Lemma keeps_find_users : keeps find_users (fun _ => True).
Proof. intros w. split; [apply grows_refl | exact I]. Qed.

Lemma settled_hydrate (u : User) : settled (hydrate u).
Proof. repeat split. Qed.

Lemma keeps_findOne (filter : User -> bool) (with_password : bool) :
  keeps (findOne filter with_password)
    (fun found => forall d, found = Some d -> settled d).
Proof.
  intros w. split; [apply grows_refl |]. cbn.
  intros d Hd. destruct (find _ (users w)); [| discriminate].
  injection Hd as <-. apply settled_hydrate.
Qed.

Lemma keeps_correctPassword (c h : option string) :
  keeps (correctPassword c h) (fun _ => True).
Proof.
  intros w. destruct c, h; split; try apply grows_refl; exact I.
Qed.

Lemma keeps_findByIdAndUpdate (id : nat) (f : User -> User) :
  (forall s, same_account s (f s)) ->
  keeps (findByIdAndUpdate id f) (fun _ => True).
Proof.
  intros Hf w. split; [| exact I]. cbn. apply grows_updateOne. exact Hf.
Qed.

Lemma settled_assign (p : Path) (f : User -> User) (d : Doc) :
  Path_eqb p_email p = false -> Path_eqb p_emailVerified p = false ->
  settled d -> settled (assign p f d).
Proof.
  intros H1 H2 [Hn [He Hv]]. unfold settled.
  rewrite !isModified_assign, H1, H2, He, Hv. repeat split. exact Hn.
Qed.

Lemma keeps_hash_password_hook (d : Doc) :
  settled d -> keeps (hash_password_hook d) settled.
Proof.
  intros Hd. unfold hash_password_hook.
  destruct (isModified p_password d); cbn [negb]; [| apply keeps_ret; exact Hd].
  destruct (password (fields d)); [| apply keeps_throw].
  eapply keeps_bind; [apply keeps_randomBytes_hex |]. intros salt _.
  match goal with |- keeps (if ?b then _ else _) _ => destruct b end.
  - eapply keeps_bind; [apply keeps_Date_now |]. intros now _.
    apply keeps_ret. repeat (apply settled_assign; [reflexivity | reflexivity |]).
    exact Hd.
  - apply keeps_ret. repeat (apply settled_assign; [reflexivity | reflexivity |]).
    exact Hd.
Qed.

Lemma keeps_save (v : bool) (d : Doc) :
  settled d -> keeps (save v d) settled.
Proof.
  intros Hd. unfold save.
  eapply keeps_bind with (Q := fun _ => True).
  { destruct (v && negb (validate d)); [apply keeps_throw | apply keeps_ret; exact I]. }
  intros _ _.
  eapply keeps_bind; [apply keeps_hash_password_hook; exact Hd |].
  intros d1 Hd1.
  assert (He : email_hook d1 = d1).
  { unfold email_hook. destruct Hd1 as [_ [He _]]. rewrite He. reflexivity. }
  rewrite He. destruct Hd1 as [Hn [Hm Hv]].
  eapply keeps_bind with (Q := fun _ => True).
  - unfold write_doc. rewrite Hn. intros w. split; [| exact I]. cbn.
    apply grows_updateOne. intros s.
    apply apply_delta_same_account; assumption.
  - intros _ _. apply keeps_ret. repeat split.
Qed.

(** The save of a new document that is a newcomer. *)
Lemma keeps_save_new (v : bool) (d : Doc) :
  isNew d = true -> newcomer (fields d) -> keeps (save v d) settled.
Proof.
  intros Hn Hd. unfold save.
  eapply keeps_bind with (Q := fun _ => True).
  { destruct (v && negb (validate d)); [apply keeps_throw | apply keeps_ret; exact I]. }
  intros _ _.
  eapply keeps_bind
    with (Q := fun d1 => isNew d1 = true /\ newcomer (fields d1)).
  { unfold hash_password_hook.
    destruct (isModified p_password d); cbn [negb];
      [| apply keeps_ret; split; assumption].
    destruct (password (fields d)); [| apply keeps_throw].
    eapply keeps_bind; [apply keeps_randomBytes_hex |]. intros salt _.
    assert (Hk : forall p f d0, isNew (assign p f d0) = isNew d0)
      by reflexivity.
    rewrite !Hk, Hn. cbn [negb].
    apply keeps_ret. split; [exact Hn | exact Hd]. }
  intros d1 [Hn1 Hd1].
  assert (He : email_hook d1 = d1).
  { unfold email_hook. rewrite Hn1, andb_false_r. reflexivity. }
  rewrite He.
  eapply keeps_bind with (Q := fun _ => True).
  - unfold write_doc. rewrite Hn1.
    eapply keeps_bind; [apply keeps_find_users |]. intros l _.
    destruct (existsb _ l); [apply keeps_throw |].
    intros w. split; [| exact I]. cbn. apply grows_insert. exact Hd1.
  - intros _ _. apply keeps_ret. repeat split.
Qed.

Lemma keeps_User_create (n e p c : option string) :
  keeps (User_create n e p c) settled.
Proof.
  unfold User_create.
  eapply keeps_bind; [apply keeps_find_users |]. intros l _.
  eapply keeps_bind; [apply keeps_Date_now |]. intros now _.
  apply keeps_save_new; [reflexivity | repeat split].
Qed.

Lemma keeps_createSendToken (u : Doc) (code : Z) (req : Request) :
  keeps (createSendToken u code req) (fun _ => True).
Proof.
  intros w. split; [apply grows_refl | exact I].
Qed.

Lemma keeps_log_password_change (t : EventType) (req : Request) (u : Doc) :
  keeps (log_password_change t req u) (fun _ => True).
Proof.
  intros w. split; [| exact I]. cbn. apply grows_updateOne.
  intros s. repeat split.
Qed.

Lemma keeps_logout (req : Request) : keeps (logout req) (fun _ => True).
Proof. intros w. split; [apply grows_refl | exact I]. Qed.

Lemma keeps_protect (req : Request) : keeps (protect req) (fun _ => True).
Proof.
  unfold protect. apply keeps_try_catch; [| intros; apply keeps_ret; exact I].
  destruct (presented_token req) as [[key id iat exp | text] |];
    try (apply keeps_ret; exact I).
  - eapply keeps_bind with (Q := fun _ => True).
    { unfold jwt_verify. eapply keeps_bind; [apply keeps_Date_now |].
      intros now _.
      repeat match goal with
             | |- keeps (if ?b then _ else _) _ => destruct b
             end; solve [apply keeps_throw | apply keeps_ret; exact I]. }
    intros [id' iat'] _.
    eapply keeps_bind; [apply keeps_findOne |]. intros found _.
    destruct found; [| apply keeps_ret; exact I].
    match goal with |- keeps (if ?b then _ else _) _ => destruct b end;
      apply keeps_ret; exact I.
  - destruct text; [apply keeps_ret; exact I |].
    eapply keeps_bind with (Q := fun _ => True).
    { unfold jwt_verify. eapply keeps_bind; [apply keeps_Date_now |].
      intros now _. apply keeps_throw. }
    intros [id' iat'] _.
    eapply keeps_bind; [apply keeps_findOne |]. intros found _.
    destruct found; [| apply keeps_ret; exact I].
    match goal with |- keeps (if ?b then _ else _) _ => destruct b end;
      apply keeps_ret; exact I.
Qed.

(** Walks a handler, one step of the monad at a time. *)
Ltac keep :=
  repeat first
    [ apply keeps_ret; exact I
    | apply keeps_throw
    | apply keeps_createSendToken
    | apply keeps_log_password_change
    | apply keeps_try_catch; [| intros ]
    | eapply keeps_bind;
        [ first [ apply keeps_Date_now | apply keeps_randomBytes_hex
                | apply keeps_findOne | apply keeps_correctPassword
                | apply keeps_User_create
                | apply keeps_findByIdAndUpdate; intros; repeat split
                | apply keeps_log_password_change
                | apply keeps_save;
                    repeat (apply settled_assign;
                            [reflexivity | reflexivity |]);
                    auto ]
        | intros ]
    | match goal with
      | |- keeps (if ?b then _ else _) _ => destruct b
      | |- keeps (match ?x with _ => _ end) _ => destruct x eqn:?
      end ].

Lemma keeps_signup (req : Request) : keeps (signup req) (fun _ => True).
Proof. unfold signup, createSecureToken. keep. Qed.

Lemma keeps_login (req : Request) : keeps (login req) (fun _ => True).
Proof. unfold login, login_unlock, login_granted. keep. Qed.

Lemma keeps_forgotPassword (req : Request) :
  keeps (forgotPassword req) (fun _ => True).
Proof. unfold forgotPassword, createSecureToken. keep. Qed.

Lemma keeps_resetPassword (req : Request) :
  keeps (resetPassword req) (fun _ => True).
Proof. unfold resetPassword, resetPassword_assign. keep. Qed.

Lemma keeps_updatePassword (req : Request) :
  keeps (updatePassword req) (fun _ => True).
Proof. unfold updatePassword, updatePassword_assign, findById. keep. Qed.

Lemma keeps_validateToken (req : Request) :
  keeps (validateToken req) (fun _ => True).
Proof. unfold validateToken. keep. Qed.

Lemma keeps_router (route : Route) (req : Request) :
  keeps (router route req) (fun _ => True).
Proof.
  destruct route; cbn [router]; unfold after_protect;
    first [ apply keeps_signup | apply keeps_login | apply keeps_logout
          | apply keeps_forgotPassword | apply keeps_resetPassword
          | eapply keeps_bind; [apply keeps_protect |];
            intros [r | req'] _;
            [ apply keeps_ret; exact I
            | first [apply keeps_updatePassword | apply keeps_validateToken] ] ].
Qed.

Lemma serve_grows (calls : list (Route * Request)) (w : World) :
  grows (users w) (users (serve calls w)).
Proof.
  revert w. induction calls as [| [route req] rest IH]; intros w; cbn [serve].
  - apply grows_refl.
  - eapply grows_trans; [| apply IH]. apply keeps_router.
Qed.

End Keeps.

(** * Requests that are refused *)

Section AllOrNothing.

Context {platform : Platform}.

Lemma reads_only_ret {A} (a : A) : reads_only (ret a).
Proof. intros w. reflexivity. Qed.

Lemma reads_only_throw {A} (e : Exn) : reads_only (@throw A e).
Proof. intros w. reflexivity. Qed.

Lemma reads_only_bind {A B} (c : M A) (k : A -> M B) :
  reads_only c -> (forall a, reads_only (k a)) -> reads_only (bind c k).
Proof.
  intros Hc Hk w. unfold bind. specialize (Hc w).
  destruct (c w) as [[a | e] w1]; cbn [snd] in *; [| exact Hc].
  rewrite Hk. exact Hc.
Qed.

Lemma reads_only_try_catch {A} (body : M A) (handler : Exn -> M A) :
  reads_only body -> (forall e, reads_only (handler e)) ->
  reads_only (try_catch body handler).
Proof.
  intros Hb Hh w. unfold try_catch. specialize (Hb w).
  destruct (body w) as [[a | e] w1]; cbn [snd] in *; [exact Hb |].
  rewrite Hh. exact Hb.
Qed.

Lemma reads_only_Date_now : reads_only Date_now.
Proof. intros w. reflexivity. Qed.

Lemma reads_only_randomBytes_hex : reads_only randomBytes_hex.
Proof. intros w. reflexivity. Qed.

Lemma reads_only_findOne (filter : User -> bool) (with_password : bool) :
  reads_only (findOne filter with_password).
Proof. intros w. reflexivity. Qed.

Lemma reads_only_correctPassword (c h : option string) :
  reads_only (correctPassword c h).
Proof. intros w. destruct c, h; reflexivity. Qed.

Lemma reads_only_jwt_verify (t : Token) : reads_only (jwt_verify t).
Proof.
  intros w. unfold jwt_verify. run.
  destruct t as [key id iat exp | text]; [| reflexivity].
  destruct (negb (key =? JWT_SECRET)%string); [reflexivity |].
  destruct (exp <=? clock w (reads w) / 1000); reflexivity.
Qed.

Ltac ro :=
  repeat first
    [ apply reads_only_ret | apply reads_only_throw
    | apply reads_only_Date_now | apply reads_only_randomBytes_hex
    | apply reads_only_findOne | apply reads_only_correctPassword
    | apply reads_only_jwt_verify
    | apply reads_only_try_catch; [| intros ]
    | apply reads_only_bind; [| intros ]
    | match goal with
      | |- reads_only (if ?b then _ else _) => destruct b
      | |- reads_only (match ?x with _ => _ end) => destruct x
      | |- reads_only (let '(_, _) := ?x in _) => destruct x
      end ].

Lemma reads_only_protect (req : Request) : reads_only (protect req).
Proof. unfold protect, findById. ro. Qed.

Lemma reads_only_logout (req : Request) : reads_only (logout req).
Proof. unfold logout. ro. Qed.

Lemma reads_only_validateToken (req : Request) :
  reads_only (validateToken req).
Proof. unfold validateToken. ro. Qed.

Lemma reads_only_restrictTo (roles : list string) (req : Request) :
  reads_only (restrictTo roles req).
Proof. unfold restrictTo. ro. Qed.

Lemma always_ret {A} (a : A) (Q : A -> Prop) : Q a -> always (ret a) Q.
Proof. intros H w. exact H. Qed.

Lemma always_bind {A B} (c : M A) (k : A -> M B) (Q : A -> Prop)
  (Q' : B -> Prop) :
  always c Q -> (forall a, Q a -> always (k a) Q') -> always (bind c k) Q'.
Proof.
  intros Hc Hk w. unfold bind. specialize (Hc w).
  destruct (c w) as [[a | e] w1]; cbn [fst] in *; [| contradiction].
  apply Hk. exact Hc.
Qed.

Lemma always_Date_now : always Date_now (fun _ => True).
Proof. intros w. exact I. Qed.

Lemma always_randomBytes_hex : always randomBytes_hex (fun _ => True).
Proof. intros w. exact I. Qed.

Lemma always_findByIdAndUpdate (id : nat) (f : User -> User) :
  always (findByIdAndUpdate id f) (fun _ => True).
Proof. intros w. exact I. Qed.

Lemma always_log_password_change (t : EventType) (req : Request) (u : Doc) :
  always (log_password_change t req u) (fun _ => True).
Proof. intros w. exact I. Qed.

Lemma always_createSendToken (u : Doc) (code : Z) (req : Request) :
  always (createSendToken u code req) (fun r => status r = code).
Proof. intros w. reflexivity. Qed.

Lemma calm_assign (p : Path) (f : User -> User) (d : Doc) :
  Path_eqb p_password p = false -> calm d -> calm (assign p f d).
Proof.
  intros H [Hn Hp]. unfold calm.
  rewrite isModified_assign, H, Hp. split; [exact Hn | reflexivity].
Qed.

(** A save without validation of a calm document goes through. *)
Lemma always_save (d : Doc) : calm d -> always (save false d) calm.
Proof.
  intros [Hn Hp] w. unfold save, hash_password_hook. rewrite Hp.
  cbv [bind ret andb negb]. unfold write_doc.
  assert (Hk : isNew (email_hook d) = false).
  { unfold email_hook. destruct (isModified p_email d && negb (isNew d));
      exact Hn. }
  rewrite Hk. cbn. split; reflexivity.
Qed.

Lemma commits_throw {A} (e : Exn) (Q : A -> Prop) : commits (throw e) Q.
Proof. intros w. reflexivity. Qed.

Lemma commits_always {A} (c : M A) (Q : A -> Prop) :
  always c Q -> commits c Q.
Proof.
  intros H w. specialize (H w). destruct (fst (c w)); [exact H | contradiction].
Qed.

Lemma commits_bind_read {A B} (c : M A) (k : A -> M B) (Q : B -> Prop) :
  reads_only c -> (forall a, commits (k a) Q) -> commits (bind c k) Q.
Proof.
  intros Hc Hk w. unfold bind. specialize (Hc w).
  destruct (c w) as [[a | e] w1]; cbn [fst snd] in *; [| exact Hc].
  specialize (Hk a w1). rewrite Hc in Hk. exact Hk.
Qed.

Lemma commits_bind {A B} (c : M A) (k : A -> M B) (Q : A -> Prop)
  (Q' : B -> Prop) :
  commits c Q -> (forall a, Q a -> always (k a) Q') -> commits (bind c k) Q'.
Proof.
  intros Hc Hk w. unfold bind. specialize (Hc w).
  destruct (c w) as [[a | e] w1]; cbn [fst snd] in *; [| exact Hc].
  specialize (Hk a Hc w1).
  destruct (k a w1) as [[b | e] w2]; cbn [fst] in *; [exact Hk | contradiction].
Qed.

Lemma reads_only_hash_password_hook (d : Doc) :
  reads_only (hash_password_hook d).
Proof. unfold hash_password_hook. ro. Qed.

Lemma commits_write_doc (d : Doc) : commits (write_doc d) (fun _ => True).
Proof.
  unfold write_doc. destruct (isNew d).
  - apply commits_bind_read; [intros w; reflexivity |].
    intros l. destruct (existsb _ l); [apply commits_throw |].
    intros w. exact I.
  - intros w. exact I.
Qed.

(** A save that throws has written nothing. *)
Lemma commits_save (v : bool) (d : Doc) : commits (save v d) calm.
Proof.
  unfold save.
  apply commits_bind_read.
  { destruct (v && negb (validate d)); ro. }
  intros _.
  apply commits_bind_read; [apply reads_only_hash_password_hook |].
  intros d1.
  eapply commits_bind; [apply commits_write_doc |].
  intros _ _. apply always_ret. split; reflexivity.
Qed.

Lemma commits_User_create (n e p c : option string) :
  commits (User_create n e p c) calm.
Proof.
  unfold User_create.
  apply commits_bind_read; [intros w; reflexivity |]. intros l.
  apply commits_bind_read; [apply reads_only_Date_now |]. intros now.
  apply commits_save.
Qed.

Lemma aon_ret (r : Response) (ok : Z) : all_or_nothing (ret r) ok.
Proof. intros w. right. reflexivity. Qed.

Lemma aon_throw (e : Exn) (ok : Z) : all_or_nothing (throw e) ok.
Proof. intros w. reflexivity. Qed.

Lemma aon_bind_read {A} (c : M A) (k : A -> M Response) (ok : Z) :
  reads_only c -> (forall a, all_or_nothing (k a) ok) ->
  all_or_nothing (bind c k) ok.
Proof.
  intros Hc Hk w. unfold bind. specialize (Hc w).
  destruct (c w) as [[a | e] w1]; cbn [fst snd] in *; [| exact Hc].
  specialize (Hk a w1). rewrite Hc in Hk. exact Hk.
Qed.

Lemma aon_bind_commit {A} (c : M A) (k : A -> M Response) (Q : A -> Prop)
  (ok : Z) :
  commits c Q -> (forall a, Q a -> always (k a) (fun r => status r = ok)) ->
  all_or_nothing (bind c k) ok.
Proof.
  intros Hc Hk w. unfold bind. specialize (Hc w).
  destruct (c w) as [[a | e] w1]; cbn [fst snd] in *; [| exact Hc].
  specialize (Hk a Hc w1).
  destruct (k a w1) as [[r | e] w2]; cbn [fst snd] in *; [| contradiction].
  left. exact Hk.
Qed.

Lemma aon_try_catch (body : M Response) (r0 : Response) (ok : Z) :
  all_or_nothing body ok ->
  all_or_nothing (try_catch body (fun _ => ret r0)) ok.
Proof.
  intros Hb w. unfold try_catch. specialize (Hb w).
  destruct (body w) as [[r | e] w1]; cbn [fst snd] in *; [exact Hb |].
  right. exact Hb.
Qed.

Lemma aon_reads_only (c : M Response) (ok : Z) :
  reads_only c -> all_or_nothing c ok.
Proof.
  intros Hc w. specialize (Hc w).
  destruct (c w) as [[r | e] w1]; cbn [fst snd] in *; [right |]; exact Hc.
Qed.

(** After a write, the rest of a handler goes through. *)
Ltac through :=
  repeat first
    [ apply always_createSendToken
    | apply always_ret; reflexivity
    | eapply always_bind;
        [ first [ apply always_Date_now | apply always_randomBytes_hex
                | apply always_findByIdAndUpdate
                | apply always_log_password_change
                | apply always_save;
                    repeat (apply calm_assign; [reflexivity |]); assumption ]
        | intros ] ].

Ltac atom :=
  repeat first
    [ apply aon_ret | apply aon_throw
    | apply aon_try_catch
    | eapply aon_bind_read;
        [ first [ apply reads_only_Date_now | apply reads_only_randomBytes_hex
                | apply reads_only_findOne | apply reads_only_correctPassword ]
        | intros ]
    | eapply aon_bind_commit;
        [ first [apply commits_save | apply commits_User_create]
        | intros; through ]
    | match goal with
      | |- all_or_nothing (if ?b then _ else _) _ => destruct b
      | |- all_or_nothing (match ?x with _ => _ end) _ => destruct x
      end ].

Lemma aon_signup (req : Request) : all_or_nothing (signup req) 201.
Proof. unfold signup, createSecureToken. atom. Qed.

Lemma aon_login (req : Request) : all_or_nothing (login req) 200.
Proof. unfold login, login_unlock, login_granted. atom. Qed.

Lemma aon_forgotPassword (req : Request) :
  all_or_nothing (forgotPassword req) 200.
Proof. unfold forgotPassword, createSecureToken. atom. Qed.

Lemma aon_resetPassword (req : Request) :
  all_or_nothing (resetPassword req) 200.
Proof. unfold resetPassword. atom. Qed.

Lemma aon_updatePassword (req : Request) :
  all_or_nothing (updatePassword req) 200.
Proof. unfold updatePassword, findById. atom. Qed.

Lemma aon_after_protect (handler : Request -> M Response) (ok : Z)
  (req : Request) :
  (forall req, all_or_nothing (handler req) ok) ->
  all_or_nothing (after_protect handler req) ok.
Proof.
  intros H. unfold after_protect.
  apply aon_bind_read; [apply reads_only_protect |].
  intros [r | req']; [apply aon_ret | apply H].
Qed.

Lemma aon_router (route : Route) (req : Request) :
  all_or_nothing (router route req) (success_status route).
Proof.
  destruct route; cbn [router success_status].
  - apply aon_signup.
  - apply aon_login.
  - apply aon_reads_only, reads_only_logout.
  - apply aon_forgotPassword.
  - apply aon_resetPassword.
  - apply aon_after_protect. apply aon_updatePassword.
  - apply aon_after_protect. intros r.
    apply aon_reads_only, reads_only_validateToken.
Qed.

(** Every route answers. *)
Lemma router_answers (route : Route) (req : Request) (w : World) :
  exists r w', router route req w = (Value r, w').
Proof.
  assert (Hp : forall req w, exists v w', protect req w = (Value v, w')).
  { intros. apply try_catch_total. }
  destruct route; cbn [router]; try apply try_catch_total.
  - unfold logout. run. eauto.
  - unfold after_protect, bind.
    destruct (Hp req w) as [v [w1 ->]].
    destruct v; [cbv [ret]; eauto | apply try_catch_total].
  - unfold after_protect, bind.
    destruct (Hp req w) as [v [w1 ->]].
    destruct v; [cbv [ret]; eauto | apply try_catch_total].
Qed.

(** X12: every route of [routes/auth.js] answers every request, and a
    request that a route does not answer with its status of success, 201
    for [signup] and 200 for the others, leaves the collection as it
    was: no handler writes and then fails. *)
Theorem refused_request_writes_nothing (route : Route) (req : Request)
  (w : World) :
  match response_of (router route req w) with
  | Some r =>
      status r = success_status route
      \/ users_after (router route req w) = users w
  | None => False
  end.
Proof.
  pose proof (aon_router route req w) as H.
  destruct (router_answers route req w) as [r [w' Hr]].
  unfold response_of, users_after. rewrite Hr in *. exact H.
Qed.

End AllOrNothing.

(** * The guards in front of the handlers *)

Section Guards.

Context {platform : Platform}.

(** X1: a request whose [x-csrf-token] header is missing, empty or
    different from the [XSRF-TOKEN] cookie is answered 403 "Invalid CSRF
    token" by [signup], [login], [updatePassword], [forgotPassword] and
    [resetPassword] alike, before anything is read, drawn or written: the
    world is left exactly as it was. *)
Theorem forged_request_refused (req : Request) (w : World) :
  csrf_valid req = false ->
  signup req w = (Value (error 403 "Invalid CSRF token"), w)
  /\ login req w = (Value (error 403 "Invalid CSRF token"), w)
  /\ updatePassword req w = (Value (error 403 "Invalid CSRF token"), w)
  /\ forgotPassword req w = (Value (error 403 "Invalid CSRF token"), w)
  /\ resetPassword req w = (Value (error 403 "Invalid CSRF token"), w).
Proof.
  intros H.
  unfold signup, login, updatePassword, forgotPassword, resetPassword.
  rewrite H. repeat split.
Qed.

(** The check passes exactly when header and cookie hold the same
    non-empty string. *)
Lemma csrf_valid_iff (req : Request) :
  csrf_valid req = true
  <-> exists s, s <> "" /\ h_csrf req = Some s /\ cookie_xsrf req = Some s.
Proof.
  unfold csrf_valid, JS.truthy, JS.strict_eq. split.
  - destruct (h_csrf req) as [s |]; [| discriminate].
    destruct (String.eqb_spec s ""); [discriminate |].
    destruct (cookie_xsrf req) as [c |]; [| discriminate].
    cbn. intros Hs. apply String.eqb_eq in Hs. subst c.
    exists s. auto.
  - intros [s [Hs [-> ->]]].
    destruct (String.eqb_spec s ""); [contradiction |].
    cbn. apply String.eqb_refl.
Qed.

(** What [protect] answers when no signed token is presented. *)
Lemma protect_unsigned (req : Request) (w : World) :
  (forall key id iat exp,
      presented_token req <> Some (Signed key id iat exp)) ->
  exists r, fst (protect req w) = Value (inl r).
Proof.
  intros H. unfold protect.
  destruct (presented_token req) as [[key id iat exp | text] |].
  - exfalso. eapply H. reflexivity.
  - destruct text; eexists; reflexivity.
  - eexists. reflexivity.
Qed.

(** What a grant of [protect] tells. *)
Lemma protect_grant (req req' : Request) (w w' : World) :
  protect req w = (Value (inr req'), w') ->
  users w' = users w
  /\ exists id iat exp u,
       presented_token req = Some (Signed JWT_SECRET id iat exp)
       /\ clock w (reads w) / 1000 < exp
       /\ account_by_id id (users w) = Some u
       /\ changedPasswordAfter u iat = false
       /\ req' = with_req_user (Some (hydrate (select false u))) req.
Proof.
  intros Hrun. split.
  { pose proof (reads_only_protect req w) as H. rewrite Hrun in H. exact H. }
  destruct (presented_token req) as [[key id iat exp | text] |] eqn:Htok.
  - destruct (protect_verdict req w Htok) as [w1 [_ Hv]].
    rewrite Hv in Hrun. injection Hrun as Hrun _.
    destruct (String.eqb_spec key JWT_SECRET) as [-> | Hk];
      cbn [negb orb] in Hrun; [| discriminate].
    destruct (Z.leb_spec exp (clock w (reads w) / 1000)) as [Hle | Hlt];
      [discriminate |].
    destruct (account_by_id id (users w)) as [u |] eqn:Hu; [| discriminate].
    rewrite changedPasswordAfter_select in Hrun.
    destruct (changedPasswordAfter u iat) eqn:Hc; [discriminate |].
    injection Hrun as <-.
    exists id, iat, exp, u. repeat split; solve [assumption | reflexivity].
  - destruct (@protect_unsigned req w) as [r Hr].
    { rewrite Htok. discriminate. }
    rewrite Hrun in Hr. discriminate.
  - destruct (@protect_unsigned req w) as [r Hr].
    { rewrite Htok. discriminate. }
    rewrite Hrun in Hr. discriminate.
Qed.

(** X2: [protect] calls [next()] only for a token signed with
    [JWT_SECRET] that has not expired, naming an active stored account
    whose password was not changed in a later second than the token was
    issued; [req.user] is then that account without its [password],
    [active] and [twoFactorSecret]; and [protect] writes nothing. *)
Theorem protect_grants_valid_sessions_only (req req' : Request) (w : World) :
  response_of (protect req w) = Some (inr req') ->
  users_after (protect req w) = users w
  /\ exists id iat exp u,
       presented_token req = Some (Signed JWT_SECRET id iat exp)
       /\ clock w (reads w) / 1000 < exp
       /\ account_by_id id (users w) = Some u
       /\ changedPasswordAfter u iat = false
       /\ req' = with_req_user (Some (hydrate (select false u))) req.
Proof.
  intros Hrun. unfold response_of, users_after in *.
  destruct (protect req w) as [[v | e] w'] eqn:Hp; [| discriminate].
  cbn [fst snd] in *. injection Hrun as ->.
  exact (protect_grant req w Hp).
Qed.

(** X3: whoever presents the [jwt] cookie that [logout] sets is refused
    by [protect] with 401 "Authentication failed. Please log in again.",
    in any world. *)
Theorem logout_cookie_is_refused (lreq req : Request) (w w2 : World)
  (r : Response) (c : Cookie) :
  response_of (logout lreq w) = Some r ->
  In c (cookies r) ->
  presented_token req = Some (c_value c) ->
  response_of (protect req w2)
  = Some (inl (error 401 "Authentication failed. Please log in again.")).
Proof.
  intros Hr Hc Htok. cbn in Hr. injection Hr as <-.
  cbn in Hc. destruct Hc as [<- | []]. cbn in Htok.
  unfold protect. rewrite Htok. reflexivity.
Qed.

(** X4: [logout] revokes nothing.  A request that [protect] lets through
    is let through again, with the same [req.user], after a [logout] in
    between, as long as its token has not expired by then. *)
Theorem logout_revokes_nothing (lreq req req' : Request) (w : World)
  (key : string) (id : nat) (iat exp : Z) :
  presented_token req = Some (Signed key id iat exp) ->
  response_of (protect req w) = Some (inr req') ->
  clock w (S (reads w)) / 1000 < exp ->
  response_of (protect req (snd (logout lreq w))) = Some (inr req').
Proof.
  intros Htok Hrun Hexp. unfold response_of in *.
  destruct (protect_verdict req w Htok) as [w1 [_ Hv1]].
  destruct (protect_verdict req (snd (logout lreq w)) Htok) as [w2 [_ Hv2]].
  rewrite Hv1 in Hrun. rewrite Hv2. cbn [fst] in *.
  change (users (snd (logout lreq w))) with (users w).
  change (clock (snd (logout lreq w)) (reads (snd (logout lreq w))))
    with (clock w (S (reads w))).
  destruct (negb (key =? JWT_SECRET)%string); cbn [orb] in *; [discriminate |].
  destruct (exp <=? clock w (reads w) / 1000); [discriminate |].
  destruct (Z.leb_spec exp (clock w (S (reads w)) / 1000)); [lia |].
  exact Hrun.
Qed.

Lemma Role_name_admin (r : Role) :
  (Role_name r =? "admin")%string = true -> r = role_admin.
Proof. destruct r; [discriminate | reflexivity]. Qed.

End Guards.

(** * A login that is granted *)

Section Granted.

Context {platform : Platform}.

(** The run of [login_granted] on a stored document whose password and
    email are as stored: one save, the entry of the login, the session. *)
Lemma login_granted_run (req : Request) (d : Doc) (w : World) :
  isNew d = false ->
  isModified p_password d = false ->
  isModified p_email d = false ->
  let d1 := assign p_loginAttempts (set_loginAttempts 0) d in
  let iat := clock w (S (reads w)) / 1000 in
  exists r w',
    login_granted req d w = (Value r, w')
    /\ status r = 200
    /\ get "token" (body r)
       = Some (JTok (Signed JWT_SECRET (_id (fields d)) iat
                       (iat + JWT_EXPIRES_IN)))
    /\ users w'
       = updateOne (fun s => is_active s && by_id (_id (fields d)) s)
           (fun s => set_lastLoginIp (Some (ip req))
                       (set_lastLogin (Some (clock w (reads w))) s))
           (updateOne (by_id (_id (fields d)))
              (apply_delta (modified d1) (fields d1)) (users w))
    /\ clock w' = clock w
    /\ reads w' = S (S (S (reads w))).
Proof.
  intros Hn Hp He d1 iat. unfold login_granted. fold d1.
  assert (Hn1 : isNew d1 = false) by exact Hn.
  assert (Hp1 : isModified p_password d1 = false).
  { unfold d1. rewrite isModified_assign, Hp. reflexivity. }
  assert (He1 : isModified p_email d1 = false).
  { unfold d1. rewrite isModified_assign, He. reflexivity. }
  assert (Hid : _id (fields d1) = _id (fields d)) by reflexivity.
  clearbody d1.
  unfold bind at 1. rewrite (save_plain d1 w Hn1 Hp1 He1).
  unfold createSendToken, signToken. run. cbn [fields].
  eexists. eexists. split; [reflexivity |].
  cbn [status body get assoc String.eqb Ascii.eqb Bool.eqb users clock reads].
  rewrite Hid. repeat split.
Qed.

(** What the save of [login_granted] writes: [loginAttempts] at 0, and
    nothing else. *)
Lemma delta_loginAttempts (d : Doc) (s : User) :
  modified d = [] ->
  let d1 := assign p_loginAttempts (set_loginAttempts 0) d in
  apply_delta (modified d1) (fields d1) s
  = (if isNew d || negb (loginAttempts (fields d) =? 0)
     then set_loginAttempts 0 s else s).
Proof.
  intros Hm d1. unfold d1, assign. cbn [modified fields]. rewrite Hm.
  cbn [same_at set_loginAttempts loginAttempts].
  destruct (isNew d || negb (loginAttempts (fields d) =? 0)); reflexivity.
Qed.

Lemma login_granted_stored (req : Request) (d : Doc) (w : World) (s : User) :
  isNew d = false ->
  modified d = [] ->
  unique_ids (users w) = true ->
  account_by_id (_id (fields d)) (users w) = Some s ->
  loginAttempts (fields d) = loginAttempts s ->
  let iat := clock w (S (reads w)) / 1000 in
  exists r w',
    login_granted req d w = (Value r, w')
    /\ status r = 200
    /\ get "token" (body r)
       = Some (JTok (Signed JWT_SECRET (_id (fields d)) iat
                       (iat + JWT_EXPIRES_IN)))
    /\ account_by_id (_id (fields d)) (users w')
       = Some (logged_in req (clock w (reads w)) s)
    /\ clock w' = clock w
    /\ reads w' = S (S (S (reads w))).
Proof.
  intros Hn Hm Hids Hs Hla iat.
  destruct (@login_granted_run req d w Hn) as [r [w' [Hrun [Hst [Htok [Hus [Hc Hr]]]]]]].
  { unfold isModified. rewrite Hm. reflexivity. }
  { unfold isModified. rewrite Hm. reflexivity. }
  exists r, w'. repeat (split; [assumption |]). split; [| split; assumption].
  rewrite Hus.
  assert (Heq : logged_in req (clock w (reads w)) s
                = (fun s => set_lastLoginIp (Some (ip req))
                              (set_lastLogin (Some (clock w (reads w))) s))
                    (apply_delta
                       (modified (assign p_loginAttempts (set_loginAttempts 0) d))
                       (fields (assign p_loginAttempts (set_loginAttempts 0) d))
                       s)).
  { rewrite (delta_loginAttempts d s Hm), Hn, Hla. cbn [orb].
    destruct (Z.eqb_spec (loginAttempts s) 0) as [H0 | H0]; cbn [negb];
      [| reflexivity].
    unfold logged_in. clear - H0. destruct s; cbn in *. subst. reflexivity. }
  rewrite Heq.
  apply (@account_by_id_findByIdAndUpdate
           (fun s => set_lastLoginIp (Some (ip req))
                       (set_lastLogin (Some (clock w (reads w))) s))
           (_id (fields d)));
    [reflexivity | reflexivity |].
  apply account_by_id_updateOne;
    [intros; apply apply_delta_id | intros; apply apply_delta_active
    | assumption | assumption].
Qed.

End Granted.

Section GrantedLogin.

Context {platform : Platform}.

Lemma map_id_updateOne (filter : User -> bool) (f : User -> User)
  (l : list User) :
  (forall s, _id (f s) = _id s) ->
  map _id (updateOne filter f l) = map _id l.
Proof.
  intros Hf. induction l as [| a l IH]; cbn; [reflexivity |].
  destruct (filter a); cbn; [rewrite Hf; reflexivity | rewrite IH; reflexivity].
Qed.

Lemma unique_ids_map (l l' : list User) :
  map _id l = map _id l' -> unique_ids l = unique_ids l'.
Proof.
  revert l'. induction l as [| a l IH]; intros [| b l'] H; try discriminate;
    [reflexivity |].
  cbn in H. injection H as Hab Hl. cbn. rewrite (IH l' Hl), Hab.
  f_equal. f_equal. clear IH. revert l' Hl.
  induction l as [| c l IH]; intros [| c' l'] Hl; try discriminate;
    [reflexivity |].
  cbn in Hl. injection Hl as Hc Hl. cbn. rewrite Hc, (IH l' Hl). reflexivity.
Qed.

Lemma unique_ids_updateOne (filter : User -> bool) (f : User -> User)
  (l : list User) :
  (forall s, _id (f s) = _id s) ->
  unique_ids (updateOne filter f l) = unique_ids l.
Proof.
  intros Hf. apply unique_ids_map. apply map_id_updateOne. exact Hf.
Qed.

(** The account [findOne({ email })] returns is the one [findById] returns
    for its [_id], when identifiers are unique. *)
Lemma account_of_by_id (q : option string) (l : list User) (u : User) :
  unique_ids l = true ->
  account_of q l = Some u ->
  account_by_id (_id u) l = Some u.
Proof.
  intros Hids Hf. unfold account_of in Hf.
  destruct (find_some _ _ Hf) as [Hin Hp].
  apply andb_true_iff in Hp. destruct Hp as [Hact _].
  apply account_by_id_of_In; assumption.
Qed.

(** A login with the right password to a verified account that is not
    locked. *)
Lemma login_grants (req : Request) (w : World) (u : User) (e p h : string) :
  csrf_valid req = true ->
  body_email req = Some e -> e <> "" ->
  body_password req = Some p -> p <> "" ->
  unique_ids (users w) = true ->
  account_of (Some e) (users w) = Some u ->
  password u = Some h ->
  bcrypt_compare p h = true ->
  emailVerified u = true ->
  accountLocked u = false ->
  let iat := clock w (S (reads w)) / 1000 in
  exists r w',
    login req w = (Value r, w')
    /\ status r = 200
    /\ get "token" (body r)
       = Some (JTok (Signed JWT_SECRET (_id u) iat (iat + JWT_EXPIRES_IN)))
    /\ account_by_id (_id u) (users w')
       = Some (logged_in req (clock w (reads w)) u)
    /\ clock w' = clock w
    /\ reads w' = S (S (S (reads w))).
Proof.
  intros Hc He Hne Hp Hnp Hids Hf Hh Hcmp Hv Hl iat.
  destruct (login_compares req w Hc He Hne Hp Hnp Hf Hh)
    as [w1 [Hu1 [Hc1 [Hr1 [_ Hrun]]]]].
  rewrite Hrun, Hcmp, Hv, Hl. cbn [negb].
  assert (Hu : account_by_id (_id u) (users w1) = Some u).
  { rewrite Hu1. apply (account_of_by_id (Some e)); assumption. }
  rewrite <- Hu1 in Hids.
  destruct (@login_granted_stored _ req (hydrate (select true u)) w1 u
              eq_refl eq_refl Hids Hu eq_refl)
    as [r [w' [Hg [Hst [Htok [Hacc [Hc' Hr']]]]]]].
  exists r, w'. unfold try_catch. rewrite Hg.
  rewrite Hc1, Hr1 in *.
  repeat (split; [first [reflexivity | assumption] |]). congruence.
Qed.

End GrantedLogin.

Section Unlock.

Context {platform : Platform}.

(** What the save of [login_unlock] writes. *)
Lemma delta_unlock (d : Doc) (s : User) :
  isNew d = false ->
  modified d = [] ->
  loginAttempts (fields d) = loginAttempts s ->
  accountLocked (fields d) = accountLocked s ->
  let d2 := assign p_loginAttempts (set_loginAttempts 0)
              (assign p_accountLocked (set_accountLocked false) d) in
  apply_delta (modified d2) (fields d2) s
  = set_loginAttempts 0 (set_accountLocked false s).
Proof.
  intros Hn Hm Hla Hal d2. unfold d2, assign.
  cbn [modified fields isNew]. rewrite Hn, Hm.
  cbn [same_at set_loginAttempts set_accountLocked loginAttempts
       accountLocked orb].
  rewrite Hla, Hal. clear.
  destruct s as [i n e p pc r ev vt ve pca prt pre a ll lli la al lu tfe tfs
                 se ad ca].
  cbn [loginAttempts accountLocked].
  destruct al; cbn [Bool.eqb negb];
    destruct (Z.eqb_spec la 0) as [-> | Hne]; cbn [negb];
    reflexivity.
Qed.

Lemma login_unlock_stored (req : Request) (d : Doc) (w : World) (s : User) :
  isNew d = false ->
  modified d = [] ->
  unique_ids (users w) = true ->
  account_by_id (_id (fields d)) (users w) = Some s ->
  loginAttempts (fields d) = loginAttempts s ->
  accountLocked (fields d) = accountLocked s ->
  exists r w',
    login_unlock req d w = (Value r, w')
    /\ status r = 200
    /\ account_by_id (_id (fields d)) (users w')
       = Some (logged_in req (clock w (reads w)) (set_accountLocked false s)).
Proof.
  intros Hn Hm Hids Hs Hla Hal. unfold login_unlock.
  pose proof (delta_unlock d s Hn Hm Hla Hal) as Hd. cbv zeta in Hd.
  set (d2 := assign p_loginAttempts (set_loginAttempts 0)
               (assign p_accountLocked (set_accountLocked false) d)) in *.
  assert (Hn2 : isNew d2 = false) by exact Hn.
  assert (Hp2 : isModified p_password d2 = false).
  { unfold d2. rewrite !isModified_assign. unfold isModified.
    rewrite Hm. reflexivity. }
  assert (He2 : isModified p_email d2 = false).
  { unfold d2. rewrite !isModified_assign. unfold isModified.
    rewrite Hm. reflexivity. }
  assert (Hid : _id (fields d2) = _id (fields d)) by reflexivity.
  assert (Hl2 : loginAttempts (fields d2) = 0) by reflexivity.
  clearbody d2.
  unfold bind. rewrite (save_plain d2 w Hn2 Hp2 He2).
  set (w1 := with_users _ w).
  destruct (@login_granted_stored _ req
              {| fields := fields d2; modified := []; isNew := false |}
              w1 (set_loginAttempts 0 (set_accountLocked false s)))
    as [r [w' [Hg [Hst [_ [Hacc _]]]]]]; try reflexivity.
  - unfold w1. cbn [users with_users]. rewrite unique_ids_updateOne;
      [exact Hids | intros; apply apply_delta_id].
  - unfold w1. cbn [users with_users fields]. rewrite Hid, <- Hd.
    apply account_by_id_updateOne;
      [intros; apply apply_delta_id | intros; apply apply_delta_active
      | assumption | assumption].
  - exact Hl2.
  - exists r, w'. split; [exact Hg |]. split; [exact Hst |].
    cbn [fields] in Hacc. rewrite Hid in Hacc. exact Hacc.
Qed.

End Unlock.

Section LoginTheorems.

Context {platform : Platform}.

(** X6: in a collection whose [_id]s are unique, a login that passes
    the CSRF check with the right password to a verified account that is
    not locked is answered 200, and leaves the
    account with [loginAttempts] at 0, [lastLogin] at the time read and
    [lastLoginIp] at the address of the request; the password, the lock
    and the security events stay as they were: no LOGIN event is
    recorded. *)
Theorem login_records_the_login (req : Request) (w : World) (u : User)
  (e p h : string) :
  csrf_valid req = true ->
  body_email req = Some e -> e <> "" ->
  body_password req = Some p -> p <> "" ->
  unique_ids (users w) = true ->
  account_of (Some e) (users w) = Some u ->
  password u = Some h ->
  bcrypt_compare p h = true ->
  emailVerified u = true ->
  accountLocked u = false ->
  exists r w' u',
    login req w = (Value r, w')
    /\ status r = 200
    /\ account_by_id (_id u) (users w') = Some u'
    /\ loginAttempts u' = 0
    /\ lastLogin u' = Some (clock w (reads w))
    /\ lastLoginIp u' = Some (ip req)
    /\ password u' = password u
    /\ accountLocked u' = false
    /\ securityEvents u' = securityEvents u.
Proof.
  intros Hc He Hne Hp Hnp Hids Hf Hh Hcmp Hv Hl.
  destruct (login_grants req w Hc He Hne Hp Hnp Hids Hf Hh Hcmp Hv Hl)
    as [r [w' [Hrun [Hst [_ [Hacc _]]]]]].
  exists r, w', (logged_in req (clock w (reads w)) u).
  repeat (split; [first [assumption | reflexivity] |]). reflexivity.
Qed.

(** X7: in a collection whose [_id]s are unique, a login with the right
    password to a verified account that is locked, once the time of [lockUntil] has come (or when the account
    has no [lockUntil]), is answered 200 and lifts the lock: the account
    is left with [accountLocked] false and [loginAttempts] at 0;
    [lockUntil] stays as it was. *)
Theorem login_lifts_an_expired_lock (req : Request) (w : World) (u : User)
  (e p h : string) :
  csrf_valid req = true ->
  body_email req = Some e -> e <> "" ->
  body_password req = Some p -> p <> "" ->
  unique_ids (users w) = true ->
  account_of (Some e) (users w) = Some u ->
  password u = Some h ->
  bcrypt_compare p h = true ->
  emailVerified u = true ->
  accountLocked u = true ->
  (forall until, lockUntil u = Some until -> until <= clock w (reads w)) ->
  exists r w' u',
    login req w = (Value r, w')
    /\ status r = 200
    /\ account_by_id (_id u) (users w') = Some u'
    /\ accountLocked u' = false
    /\ loginAttempts u' = 0
    /\ lockUntil u' = lockUntil u
    /\ lastLoginIp u' = Some (ip req).
Proof.
  intros Hc He Hne Hp Hnp Hids Hf Hh Hcmp Hv Hl Hover.
  destruct (login_compares req w Hc He Hne Hp Hnp Hf Hh)
    as [w1 [Hu1 [Hc1 [Hr1 [_ Hrun]]]]].
  rewrite Hrun, Hcmp, Hv, Hl. cbn [negb].
  assert (Hu : account_by_id (_id u) (users w) = Some u).
  { apply (account_of_by_id (Some e)); assumption. }
  assert (Hstep : forall w2, users w2 = users w ->
            exists r w' u',
              login_unlock req (hydrate (select true u)) w2 = (Value r, w')
              /\ status r = 200
              /\ account_by_id (_id u) (users w') = Some u'
              /\ accountLocked u' = false
              /\ loginAttempts u' = 0
              /\ lockUntil u' = lockUntil u
              /\ lastLoginIp u' = Some (ip req)).
  { intros w2 Hw2. rewrite <- Hw2 in Hids, Hu.
    destruct (@login_unlock_stored _ req (hydrate (select true u)) w2 u
                eq_refl eq_refl Hids Hu eq_refl eq_refl)
      as [r [w' [Hg [Hst Hacc]]]].
    exists r, w', (logged_in req (clock w2 (reads w2))
                     (set_accountLocked false u)).
    repeat (split; [first [assumption | reflexivity] |]). reflexivity. }
  unfold try_catch.
  destruct (lockUntil u) as [until |] eqn:Hlu.
  - specialize (Hover until eq_refl).
    unfold bind, Date_now. rewrite Hc1, Hr1.
    destruct (Z.ltb_spec (clock w (reads w)) until) as [Hlt | _]; [lia |].
    match goal with
    | |- context [login_unlock req ?d ?w2] =>
        destruct (Hstep w2 Hu1) as [r [w' [u' [Hg Hrest]]]]
    end.
    rewrite Hg. exists r, w', u'. split; [reflexivity | exact Hrest].
  - destruct (Hstep w1 Hu1) as [r [w' [u' [Hg Hrest]]]].
    rewrite Hg. exists r, w', u'. split; [reflexivity | exact Hrest].
Qed.

(** X8: the token that a granted login issues is accepted.  In a
    collection whose [_id]s are unique, after a login as in X6, whoever presents the token of the response is let
    through by [protect] as the account that logged in, provided the
    token has not expired at the next reading of the clock and the
    password was not changed after the second of issue. *)
Theorem login_token_is_accepted (req : Request) (w : World) (u : User)
  (e p h : string) :
  csrf_valid req = true ->
  body_email req = Some e -> e <> "" ->
  body_password req = Some p -> p <> "" ->
  unique_ids (users w) = true ->
  account_of (Some e) (users w) = Some u ->
  password u = Some h ->
  bcrypt_compare p h = true ->
  emailVerified u = true ->
  accountLocked u = false ->
  changedPasswordAfter u (clock w (S (reads w)) / 1000) = false ->
  clock w (S (S (S (reads w)))) / 1000
  < clock w (S (reads w)) / 1000 + JWT_EXPIRES_IN ->
  exists r w' token,
    login req w = (Value r, w')
    /\ get "token" (body r) = Some (JTok token)
    /\ forall req2,
         presented_token req2 = Some token ->
         exists d,
           response_of (protect req2 w')
           = Some (inr (with_req_user (Some d) req2))
           /\ _id (fields d) = _id u
           /\ password (fields d) = None.
Proof.
  intros Hc He Hne Hp Hnp Hids Hf Hh Hcmp Hv Hl Hchg Hexp.
  destruct (login_grants req w Hc He Hne Hp Hnp Hids Hf Hh Hcmp Hv Hl)
    as [r [w' [Hrun [Hst [Htok [Hacc [Hck Hrd]]]]]]].
  exists r, w'. eexists. split; [exact Hrun |]. split; [exact Htok |].
  intros req2 Hreq2.
  destruct (protect_verdict req2 w' Hreq2) as [w2 [_ Hv2]].
  exists (hydrate (select false (logged_in req (clock w (reads w)) u))).
  unfold response_of. rewrite Hv2. cbn [fst].
  rewrite String.eqb_refl, Hck, Hrd, Hacc. cbn [negb orb].
  destruct (Z.leb_spec (clock w (S (reads w)) / 1000 + JWT_EXPIRES_IN)
              (clock w (S (S (S (reads w)))) / 1000)); [lia |].
  rewrite changedPasswordAfter_select.
  change (changedPasswordAfter (logged_in req (clock w (reads w)) u)
            (clock w (S (reads w)) / 1000))
    with (changedPasswordAfter u (clock w (S (reads w)) / 1000)).
  rewrite Hchg. repeat split.
Qed.

End LoginTheorems.

(** * Across requests *)

Section AcrossRequests.

Context {platform : Platform}.

Lemma Forall2_In_r {A B} (R : A -> B -> Prop) (l : list A) (l' : list B)
  (b : B) :
  Forall2 R l l' -> In b l' -> exists a, In a l /\ R a b.
Proof.
  induction 1 as [| x y l l' Hxy _ IH]; [intros [] |].
  intros [<- | Hb].
  - exists x. split; [left; reflexivity | exact Hxy].
  - destruct (IH Hb) as [a [Ha Hab]]. exists a. split; [right |]; assumption.
Qed.

(** Where an account of a grown collection comes from. *)
Lemma grows_In (l l' : list User) (u' : User) :
  grows l l' -> In u' l' ->
  (exists s, In s l /\ same_account s u') \/ newcomer u'.
Proof.
  intros [kept [added [-> [Hk Ha]]]] Hin.
  apply in_app_or in Hin. destruct Hin as [Hin | Hin].
  - left. eapply Forall2_In_r; eassumption.
  - right. rewrite Forall_forall in Ha. apply Ha. exact Hin.
Qed.

(** X9: whatever requests the routes of [routes/auth.js] serve, the
    collection only grows: the accounts it held are still there, in the
    same order, each with the [_id], name, email, role, [emailVerified],
    [active], two-factor settings, addresses and [createdAt] it had; the
    accounts added since are active, of role [user] and not verified. *)
Theorem accounts_only_grow (calls : list (Route * Request)) (w : World) :
  exists kept added,
    users (serve calls w) = (kept ++ added)%list
    /\ Forall2 same_account (users w) kept
    /\ Forall newcomer added.
Proof.
  change (grows (users w) (users (serve calls w))).
  revert w. induction calls as [| [route req] rest IH]; intros w.
  - apply grows_refl.
  - cbn [serve]. apply grows_trans with (users (snd (router route req w))).
    + apply keeps_router.
    + apply IH.
Qed.

(** An account that is not verified stays so. *)
Lemma stays_unverified (calls : list (Route * Request)) (w : World)
  (id : nat) :
  (forall s, In s (users w) -> _id s = id -> emailVerified s = false) ->
  forall u, In u (users (serve calls w)) -> _id u = id ->
            emailVerified u = false.
Proof.
  intros H u Hu Hid.
  destruct (@grows_In _ _ u (serve_grows calls w) Hu) as [[s [Hs Hsu]] | Hn].
  - unfold same_account in Hsu.
    destruct Hsu as [Hi [_ [_ [_ [Hv _]]]]].
    rewrite Hv. apply (H s Hs). congruence.
  - apply Hn.
Qed.

(** A login that names an account that is not verified is not granted. *)
Lemma login_unverified_refused (req : Request) (w : World) (u : User) :
  account_of (body_email req) (users w) = Some u ->
  emailVerified u = false ->
  exists r,
    response_of (login req w) = Some r
    /\ status r <> 200
    /\ issues_no_session r.
Proof.
  intros Hf Hv. unfold login, response_of, issues_no_session.
  destruct (csrf_valid req); cbn [negb];
    [| eexists; split; [reflexivity |]; split;
       [discriminate | split; reflexivity]].
  destruct (negb (JS.truthy (body_email req))
            || negb (JS.truthy (body_password req)));
    [eexists; split; [reflexivity |]; split;
     [discriminate | split; reflexivity] |].
  unfold account_of in Hf.
  cbv [try_catch bind findOne find_users ret]. rewrite Hf.
  cbn [option_map]. fields_simpl.
  destruct (body_password req) as [p |], (password u) as [h |];
    cbn [correctPassword throw fst];
    try (eexists; split; [reflexivity |]; split;
         [discriminate | split; reflexivity]).
  rewrite Hv. cbn [negb].
  destruct (bcrypt_compare p h); cbn [negb];
    eexists; (split; [reflexivity |]); split;
    solve [discriminate | split; reflexivity].
Qed.

(** X10: an account that [signup] created never logs in.  After a signup
    answered 201, and whatever requests the routes serve next, a login
    that names the new account is not answered 200 and hands out no
    session, whatever password it gives: no route sets [emailVerified]. *)
Theorem new_account_never_logs_in (req : Request) (w : World)
  (calls : list (Route * Request)) (lreq : Request) :
  option_map status (response_of (signup req w)) = Some 201 ->
  let w2 := serve calls (snd (signup req w)) in
  option_map _id (account_of (body_email lreq) (users w2))
  = Some (fresh_id (users w)) ->
  exists r,
    response_of (login lreq w2) = Some r
    /\ status r <> 200
    /\ issues_no_session r.
Proof.
  intros Hst w2 Hacc.
  destruct (account_of (body_email lreq) (users w2)) as [u2 |] eqn:Hu2;
    [| discriminate].
  cbn in Hacc. injection Hacc as Hid.
  apply login_unverified_refused with u2; [exact Hu2 |].
  unfold response_of in Hst.
  destruct (signup req w) as [[r | e] w1] eqn:Hrun; [| discriminate].
  cbn in Hst. injection Hst as Hst.
  destruct (signup_creates_unverified req w Hrun Hst)
    as [u [Hus [Hidu [_ Hvu]]]].
  apply (@stays_unverified calls w1 (fresh_id (users w))).
  - cbn [snd]. intros s Hs Hsid. rewrite Hus in Hs.
    apply in_app_or in Hs. destruct Hs as [Hs | [<- | []]]; [| exact Hvu].
    pose proof (fresh_id_fresh (users w) s Hs) as Hfresh.
    unfold by_id in Hfresh. apply Nat.eqb_neq in Hfresh. contradiction.
  - unfold account_of in Hu2. apply find_some in Hu2. apply Hu2.
  - exact Hid.
Qed.

(** What a grant of [restrictTo] tells. *)
Lemma restrictTo_grant (roles : list string) (req req' : Request)
  (w w' : World) :
  restrictTo roles req w = (Value (inr req'), w') ->
  exists d,
    req_user req = Some d
    /\ existsb (String.eqb (Role_name (role (fields d)))) roles = true.
Proof.
  unfold restrictTo. destruct (req_user req) as [d |]; [| discriminate].
  destruct (existsb _ roles) eqn:Hr; cbn [negb]; [| discriminate].
  intros _. exists d. split; [reflexivity | exact Hr].
Qed.

(** X5: the middleware of the admin routes, [protect] then
    [restrictTo('admin')], calls [next()] only for the valid session of a
    stored active account whose role is [admin]. *)
Theorem admin_only_admits_admins_only (req req' : Request) (w : World) :
  response_of (admin_only req w) = Some (inr req') ->
  exists id iat exp u,
    presented_token req = Some (Signed JWT_SECRET id iat exp)
    /\ clock w (reads w) / 1000 < exp
    /\ account_by_id id (users w) = Some u
    /\ changedPasswordAfter u iat = false
    /\ role u = role_admin.
Proof.
  intros Hrun. unfold admin_only, bind, response_of in Hrun.
  destruct (protect req w) as [[[r | req1] | e] w1] eqn:Hp;
    cbn in Hrun; try discriminate.
  destruct (protect_grant req w Hp)
    as [_ [id [iat [exp [u [H1 [H2 [H3 [H4 H5]]]]]]]]].
  exists id, iat, exp, u. repeat split; try assumption.
  destruct (restrictTo ["admin"] req1 w1) as [[v | e] w2] eqn:Hr;
    [| discriminate].
  cbn in Hrun. injection Hrun as ->.
  destruct (restrictTo_grant _ _ _ Hr) as [d [Hd Hrole]].
  subst req1. cbn in Hd. injection Hd as <-.
  cbn in Hrole. rewrite orb_false_r in Hrole.
  apply Role_name_admin. exact Hrole.
Qed.

(** X11: no request makes an admin.  Whatever requests the routes of
    [routes/auth.js] have served, the admin middleware lets a request
    through only as an account that was stored with the role [admin]
    before the first of them. *)
Theorem no_request_makes_an_admin (calls : list (Route * Request))
  (w : World) (req req' : Request) :
  response_of (admin_only req (serve calls w)) = Some (inr req') ->
  exists id iat exp s,
    presented_token req = Some (Signed JWT_SECRET id iat exp)
    /\ In s (users w)
    /\ _id s = id
    /\ role s = role_admin.
Proof.
  intros Hrun. unfold admin_only, bind, response_of in Hrun.
  destruct (protect req (serve calls w)) as [[[r | req1] | e] w1] eqn:Hp;
    cbn in Hrun; try discriminate.
  destruct (protect_grant req (serve calls w) Hp)
    as [_ [id [iat [exp [u [Htok [_ [Hu [_ Hreq]]]]]]]]].
  destruct (restrictTo ["admin"] req1 w1) as [[v | e] w2] eqn:Hr;
    [| discriminate].
  cbn in Hrun. injection Hrun as ->.
  destruct (restrictTo_grant _ _ _ Hr) as [d [Hd Hrole]].
  subst req1. cbn in Hd. injection Hd as <-.
  cbn in Hrole. rewrite orb_false_r in Hrole.
  apply Role_name_admin in Hrole.
  unfold account_by_id in Hu. apply find_some in Hu.
  destruct Hu as [Hin Hq]. apply andb_true_iff in Hq.
  destruct Hq as [_ Hid]. apply Nat.eqb_eq in Hid.
  destruct (@grows_In _ _ u (serve_grows calls w) Hin) as [[s [Hs Hsu]] | Hn].
  - exists id, iat, exp, s. unfold same_account in Hsu.
    destruct Hsu as [Hi [_ [_ [Hro _]]]].
    repeat split; [exact Htok | exact Hs | congruence | congruence].
  - destruct Hn as [Hro _]. rewrite Hro in Hrole. discriminate.
Qed.

End AcrossRequests.

(** * From a forgotten password to a new one *)

Section ForgotThenReset.

Context {platform : Platform}.

Lemma apply_delta_securityEvents (ps : list Path) (src dst : User) :
  securityEvents (apply_delta ps src dst) = securityEvents dst.
Proof.
  induction ps as [| p ps IH]; cbn; [reflexivity |].
  destruct p; cbn; exact IH.
Qed.

(** The document [forgotPassword] saves. *)
Lemma forgot_delta (u s : User) (h : string) (t : Z) :
  passwordResetToken s = passwordResetToken u ->
  passwordResetExpires s = passwordResetExpires u ->
  let d := assign p_passwordResetExpires (set_passwordResetExpires (Some t))
             (assign p_passwordResetToken (set_passwordResetToken (Some h))
                (hydrate (select false u))) in
  let s' := apply_delta (modified d) (fields d) s in
  passwordResetToken s' = Some h
  /\ passwordResetExpires s' = Some t
  /\ password s' = password s
  /\ securityEvents s' = securityEvents s.
Proof.
  intros Ht He d s'. unfold s'.
  rewrite delta_passwordResetToken, delta_passwordResetExpires,
    delta_password.
  unfold d. rewrite !isModified_assign.
  cbn [Path_eqb andb orb isNew hydrate same_at fields assign select
       set_passwordResetToken set_passwordResetExpires set_twoFactorSecret
       set_active set_password passwordResetToken passwordResetExpires
       isModified modified existsb].
  rewrite Ht, He. repeat split.
  - destruct (passwordResetToken u) as [h0 |]; cbn [opt_eqb negb];
      [| reflexivity].
    destruct (String.eqb_spec h0 h) as [-> | Hne]; reflexivity.
  - destruct (passwordResetExpires u) as [t0 |]; cbn [opt_eqb negb];
      [| reflexivity].
    destruct (Z.eqb_spec t0 t) as [-> | Hne]; reflexivity.
  - apply apply_delta_securityEvents.
Qed.

End ForgotThenReset.

Section ForgotRun.

Context {platform : Platform}.

(** The run of [forgotPassword] for a request that names an account. *)
Lemma forgotPassword_run (req : Request) (w : World) (u : User) :
  csrf_valid req = true ->
  account_of (body_email req) (users w) = Some u ->
  let d := assign p_passwordResetExpires
             (set_passwordResetExpires
                (Some (clock w (reads w) + 60 * 60 * 1000)))
             (assign p_passwordResetToken
                (set_passwordResetToken
                   (Some (sha256_hex (random w (draws w)))))
                (hydrate (select false u))) in
  forgotPassword req w
  = (Value {| status := 200; cookies := [];
              body := JObj [("status", JStr "success");
                            ("message", JStr "Token sent to email")] |},
     {| users :=
          updateOne (fun v => is_active v && by_id (_id u) v)
            (set_securityEvents
               (securityEvents u
                ++ [new_event PASSWORD_RESET_REQUEST
                      (clock w (S (reads w))) req])%list)
            (updateOne (by_id (_id u))
               (apply_delta (modified d) (fields d)) (users w));
        clock := clock w; reads := S (S (reads w));
        random := random w; draws := S (draws w);
        compared := compared w |}).
Proof.
  intros Hc Hf d. unfold forgotPassword, account_of in *.
  rewrite Hc. cbn [negb]. run. rewrite Hf. cbn [option_map].
  fold d.
  assert (Hn : isNew d = false) by reflexivity.
  assert (Hp : isModified p_password d = false).
  { unfold d. rewrite !isModified_assign. reflexivity. }
  assert (He : isModified p_email d = false).
  { unfold d. rewrite !isModified_assign. reflexivity. }
  assert (Hid : _id (fields d) = _id u) by reflexivity.
  assert (Hev : securityEvents (fields d) = securityEvents u)
    by reflexivity.
  clearbody d.
  rewrite (save_plain d _ Hn Hp He). run. cbn [fields].
  rewrite Hid, Hev. reflexivity.
Qed.

Lemma find_token_holder (l : list User) (u : User) (h : string) (now : Z) :
  unique_ids l = true ->
  In u l ->
  is_active u = true ->
  by_resetToken h now u = true ->
  (forall v, In v l -> passwordResetToken v = Some h -> _id v = _id u) ->
  find (fun v => is_active v && by_resetToken h now v) l = Some u.
Proof.
  intros Hids Hin Hact Hu Hsole.
  destruct (find_some_of_In
              (fun v => is_active v && by_resetToken h now v) l u Hin)
    as [v Hv].
  - rewrite Hact, Hu. reflexivity.
  - rewrite Hv. f_equal.
    destruct (find_some _ _ Hv) as [Hvin Hvp].
    unfold by_resetToken in Hvp.
    rewrite !andb_true_iff in Hvp. destruct Hvp as [_ [Hvt _]].
    apply (unique_ids_In l v u Hids Hvin Hin).
    apply Hsole; [exact Hvin |].
    destruct (passwordResetToken v) as [t |]; cbn in Hvt; [| discriminate].
    apply String.eqb_eq in Hvt. congruence.
Qed.

(** X13: in a collection whose [_id]s are unique, a [forgotPassword]
    request that passes the CSRF check and names an account is answered
    200 with no token in the response; the account
    is left holding the SHA-256 digest of the token drawn, never the
    token, with an expiry one hour after the time read, its password as
    it was, and one more security event, PASSWORD_RESET_REQUEST, from the
    address of the request. *)
Theorem forgotPassword_stores_a_digest (req : Request) (w : World)
  (u : User) :
  csrf_valid req = true ->
  unique_ids (users w) = true ->
  account_of (body_email req) (users w) = Some u ->
  exists r w' u',
    forgotPassword req w = (Value r, w')
    /\ r = {| status := 200; cookies := [];
              body := JObj [("status", JStr "success");
                            ("message", JStr "Token sent to email")] |}
    /\ account_by_id (_id u) (users w') = Some u'
    /\ passwordResetToken u' = Some (sha256_hex (random w (draws w)))
    /\ passwordResetExpires u' = Some (clock w (reads w) + 60 * 60 * 1000)
    /\ password u' = password u
    /\ securityEvents u'
       = (securityEvents u
          ++ [new_event PASSWORD_RESET_REQUEST (clock w (S (reads w))) req])%list.
Proof.
  intros Hc Hids Hf.
  pose proof (forgotPassword_run req w Hc Hf) as Hrun. cbv zeta in Hrun.
  destruct (@forgot_delta u u (sha256_hex (random w (draws w)))
              (clock w (reads w) + 60 * 60 * 1000) eq_refl eq_refl)
    as [Ht [He [Hp Hs]]].
  set (d := assign p_passwordResetExpires _ _) in *. clearbody d.
  set (g := set_securityEvents
              (securityEvents u
               ++ [new_event PASSWORD_RESET_REQUEST
                     (clock w (S (reads w))) req])%list) in *.
  assert (Hg_tok : forall s, passwordResetToken (g s) = passwordResetToken s)
    by reflexivity.
  assert (Hg_exp : forall s, passwordResetExpires (g s)
                             = passwordResetExpires s) by reflexivity.
  assert (Hg_pw : forall s, password (g s) = password s) by reflexivity.
  assert (Hg_ev : forall s, securityEvents (g s)
                            = (securityEvents u
                               ++ [new_event PASSWORD_RESET_REQUEST
                                     (clock w (S (reads w))) req])%list)
    by reflexivity.
  assert (Hg_id : forall s, _id (g s) = _id s) by reflexivity.
  assert (Hg_act : forall s, is_active (g s) = is_active s) by reflexivity.
  clearbody g.
  do 2 eexists. exists (g (apply_delta (modified d) (fields d) u)).
  split; [exact Hrun |]. split; [reflexivity |].
  cbn [users]. split.
  - apply (@account_by_id_findByIdAndUpdate g (_id u) Hg_id Hg_act).
    apply account_by_id_updateOne;
      [intros; apply apply_delta_id | intros; apply apply_delta_active
      | exact Hids | apply (account_of_by_id (body_email req)); assumption].
  - rewrite Hg_tok, Hg_exp, Hg_pw, Hg_ev. repeat split; assumption.
Qed.

(** X14: the token that [forgotPassword] draws resets the password.
    In a collection whose [_id]s are unique, after a [forgotPassword] as
    in X13 for an account whose stored name and email pass the
    validators of the schema, when no account held the digest of the
    token before, a [resetPassword] request that passes the CSRF check
    with that token, within the hour, and with a password that meets the
    pattern and equals its confirmation is answered 200, and leaves the
    account with the bcrypt hash of the new password and without reset
    token. *)
Theorem forgotten_password_can_be_reset (req req2 : Request) (w : World)
  (u : User) (pw : string) :
  csrf_valid req = true ->
  unique_ids (users w) = true ->
  account_of (body_email req) (users w) = Some u ->
  validate_name u = true ->
  validate_email u = true ->
  (forall v, In v (users w) ->
             passwordResetToken v <> Some (sha256_hex (random w (draws w)))) ->
  csrf_valid req2 = true ->
  param_token req2 = random w (draws w) ->
  body_password req2 = Some pw ->
  passwordRegex_test (Some pw) = true ->
  body_passwordConfirm req2 = Some pw ->
  clock w (S (S (reads w))) < clock w (reads w) + 60 * 60 * 1000 ->
  exists r2 w2 u2,
    resetPassword req2 (snd (forgotPassword req w)) = (Value r2, w2)
    /\ status r2 = 200
    /\ account_by_id (_id u) (users w2) = Some u2
    /\ password u2 = Some (bcrypt_hash (random w (S (draws w))) pw)
    /\ passwordResetToken u2 = None
    /\ passwordResetExpires u2 = None.
Proof.
  intros Hc Hids Hf Hname Hmail Hfresh Hc2 Htok Hp Hre Hconf Hnow.
  pose proof (forgotPassword_run req w Hc Hf) as Hrun. cbv zeta in Hrun.
  rewrite Hrun. cbn [snd].
  set (h := sha256_hex (random w (draws w))) in *.
  set (t := clock w (reads w) + 60 * 60 * 1000) in *.
  destruct (@forgot_delta u u h t eq_refl eq_refl) as [Ht [He _]].
  set (d := assign p_passwordResetExpires _ _) in *.
  assert (Hd_same : same_account u (apply_delta (modified d) (fields d) u)).
  { apply apply_delta_same_account.
    - change (isModified p_email d = false). unfold d.
      rewrite !isModified_assign. reflexivity.
    - change (isModified p_emailVerified d = false). unfold d.
      rewrite !isModified_assign. reflexivity. }
  clearbody d.
  set (g := set_securityEvents _).
  assert (Hg_name : forall s, name (g s) = name s) by reflexivity.
  assert (Hg_mail : forall s, email (g s) = email s) by reflexivity.
  assert (Hg_tok : forall s, passwordResetToken (g s) = passwordResetToken s)
    by reflexivity.
  assert (Hg_exp : forall s, passwordResetExpires (g s)
                             = passwordResetExpires s) by reflexivity.
  assert (Hg_id : forall s, _id (g s) = _id s) by reflexivity.
  assert (Hg_act : forall s, is_active (g s) = is_active s) by reflexivity.
  clearbody g.
  set (u1 := g (apply_delta (modified d) (fields d) u)).
  set (w1 := {| users := _; clock := clock w |}).
  assert (Hw1u : users w1
                 = updateOne (fun v => is_active v && by_id (_id u) v) g
                     (updateOne (by_id (_id u))
                        (apply_delta (modified d) (fields d)) (users w)))
    by reflexivity.
  assert (Hw1c : clock w1 (reads w1) = clock w (S (S (reads w))))
    by reflexivity.
  assert (Hw1r : random w1 (draws w1) = random w (S (draws w)))
    by reflexivity.
  clearbody w1.
  assert (Hu : account_by_id (_id u) (users w) = Some u).
  { apply (account_of_by_id (body_email req)); assumption. }
  assert (Hacc : account_by_id (_id u) (users w1) = Some u1).
  { unfold u1. rewrite Hw1u.
    apply (@account_by_id_findByIdAndUpdate g (_id u) Hg_id Hg_act).
    apply account_by_id_updateOne;
      [intros; apply apply_delta_id | intros; apply apply_delta_active
      | exact Hids | exact Hu]. }
  assert (Hids1 : unique_ids (users w1) = true).
  { rewrite Hw1u.
    rewrite !unique_ids_updateOne;
      [exact Hids | intros; apply apply_delta_id | exact Hg_id]. }
  assert (Hid1 : _id u1 = _id u).
  { unfold u1. rewrite Hg_id. apply apply_delta_id. }
  assert (Htok1 : passwordResetToken u1 = Some h).
  { unfold u1. rewrite Hg_tok. exact Ht. }
  assert (Hexp1 : passwordResetExpires u1 = Some t).
  { unfold u1. rewrite Hg_exp. exact He. }
  assert (Hname1 : validate_name u1 = true).
  { unfold validate_name, u1. rewrite Hg_name.
    destruct Hd_same as [_ [-> _]]. exact Hname. }
  assert (Hmail1 : validate_email u1 = true).
  { unfold validate_email, u1. rewrite Hg_mail.
    destruct Hd_same as [_ [_ [-> _]]]. exact Hmail. }
  clearbody u1.
  assert (Hin1 : In u1 (users w1) /\ is_active u1 = true).
  { unfold account_by_id in Hacc. apply find_some in Hacc.
    destruct Hacc as [Hin Hq]. apply andb_true_iff in Hq. tauto. }
  destruct Hin1 as [Hin1 Hact1].
  assert (Hsole : forall v, In v (users w1) ->
                            passwordResetToken v = Some h -> _id v = _id u1).
  { intros v Hv Hvt. rewrite Hid1. rewrite Hw1u in Hv.
    apply In_updateOne in Hv.
    assert (Hinner : forall s,
               In s (updateOne (by_id (_id u))
                       (apply_delta (modified d) (fields d)) (users w)) ->
               passwordResetToken s = Some h -> _id s = _id u).
    { intros s Hs Hst.
      apply In_updateOne_by_id in Hs; [| exact Hids].
      destruct Hs as [[Hs _] | [s0 [_ [Hs0 ->]]]].
      - exfalso. apply (Hfresh s Hs). exact Hst.
      - rewrite apply_delta_id. exact Hs0. }
    destruct Hv as [Hv | [s [Hs [_ ->]]]].
    - apply Hinner; assumption.
    - rewrite Hg_id. apply Hinner; [exact Hs |].
      rewrite Hg_tok in Hvt. exact Hvt. }
  assert (Hfind : find (fun v => is_active v
                                 && by_resetToken
                                      (sha256_hex (param_token req2))
                                      (clock w1 (reads w1)) v) (users w1)
                  = Some u1).
  { rewrite Htok. fold h.
    apply find_token_holder; try assumption.
    unfold by_resetToken. rewrite Htok1, Hexp1, Hw1c. cbn [opt_eqb].
    rewrite String.eqb_refl. cbn [andb]. apply Z.ltb_lt. exact Hnow. }
  destruct (resetPassword_succeeds req2 w1 Hc2 Hfind Hname1 Hmail1 Hp Hre
              Hconf)
    as [r2 [w2 [Hrun2 [Hst2 Hus2]]]].
  destruct (@reset_delta _ req2 u1 u1 pw h (random w1 (draws w1)) t
              (clock w1 (S (reads w1))) Htok1 Hexp1 Hp)
    as [Hpw [Hrt Hre2]].
  set (d2 := hashed _ pw _ _) in *. clearbody d2.
  set (g2 := password_change_update _ _ _) in *.
  assert (Hg2_tok : forall s, passwordResetToken (g2 s)
                              = passwordResetToken s) by reflexivity.
  assert (Hg2_exp : forall s, passwordResetExpires (g2 s)
                              = passwordResetExpires s) by reflexivity.
  assert (Hg2_pw : forall s, password (g2 s) = password s) by reflexivity.
  assert (Hg2_id : forall s, _id (g2 s) = _id s) by reflexivity.
  assert (Hg2_act : forall s, is_active (g2 s) = is_active s)
    by reflexivity.
  clearbody g2.
  exists r2, w2, (g2 (apply_delta (modified d2) (fields d2) u1)).
  split; [exact Hrun2 |]. split; [exact Hst2 |].
  split.
  - rewrite Hus2, <- Hid1.
    apply (@account_by_id_findByIdAndUpdate g2 (_id u1) Hg2_id Hg2_act).
    apply account_by_id_updateOne;
      [intros; apply apply_delta_id | intros; apply apply_delta_active
      | exact Hids1 | rewrite Hid1; exact Hacc].
  - rewrite Hg2_pw, Hg2_tok, Hg2_exp, <- Hw1r.
    repeat split; assumption.
Qed.

End ForgotRun.

(** * The counter of failed logins *)

Section FailedLogin.

Context {platform : Platform}.

(** Below [2 ^ 53] the count goes up by one. *)
Lemma add_one_exact (n : Z) : Z.abs n < 2 ^ 53 -> JS.add n 1 = n + 1.
Proof.
  intros H. unfold JS.add, JS.to_Number.
  change (2 ^ 53) with 9007199254740992 in *.
  destruct (Z.leb_spec (Z.abs (n + 1)) 9007199254740992); [reflexivity | lia].
Qed.

Lemma delta_failed_below (wp : bool) (s : User) :
  Z.abs (loginAttempts s) < 2 ^ 53 ->
  let d := assign p_loginAttempts
             (fun u => set_loginAttempts (JS.add (loginAttempts u) 1) u)
             (hydrate (select wp s)) in
  apply_delta (modified d) (fields d) s
  = set_loginAttempts (loginAttempts s + 1) s.
Proof.
  intros Hb d. unfold d, assign.
  cbn [modified fields isNew hydrate orb same_at].
  assert (Hsel : loginAttempts (select wp s) = loginAttempts s)
    by (destruct wp; reflexivity).
  rewrite Hsel.
  cbn [loginAttempts set_loginAttempts].
  rewrite (add_one_exact _ Hb).
  destruct (Z.eqb_spec (loginAttempts s) (loginAttempts s + 1)) as [Heq | _];
    [lia |].
  reflexivity.
Qed.

Lemma delta_failed_lock (wp : bool) (s : User) (t : Z) :
  Z.abs (loginAttempts s) < 2 ^ 53 ->
  let d := assign p_lockUntil (set_lockUntil (Some t))
             (assign p_accountLocked (set_accountLocked true)
                (assign p_loginAttempts
                   (fun u => set_loginAttempts (JS.add (loginAttempts u) 1) u)
                   (hydrate (select wp s)))) in
  apply_delta (modified d) (fields d) s
  = set_lockUntil (Some t)
      (set_accountLocked true (set_loginAttempts (loginAttempts s + 1) s)).
Proof.
  intros Hb d. subst d.
  pose proof (add_one_exact _ Hb) as Hadd.
  assert (Hne : (loginAttempts s =? loginAttempts s + 1) = false)
    by (apply Z.eqb_neq; lia).
  clear Hb.
  destruct s as [i nm e p pc r ev vt ve pca prt pre a ll lli la al lu tfe tfs
                 se ad ca].
  cbn [loginAttempts] in Hadd, Hne.
  destruct wp;
    cbv [assign select hydrate fields modified isNew orb same_at
         set_loginAttempts set_accountLocked set_lockUntil set_password
         set_active set_twoFactorSecret loginAttempts accountLocked lockUntil
         _id name email password passwordConfirm role emailVerified
         verificationToken verificationExpires passwordChangedAt
         passwordResetToken passwordResetExpires active lastLogin lastLoginIp
         twoFactorEnabled twoFactorSecret securityEvents addresses createdAt];
    rewrite Hadd, Hne;
    destruct al; cbn;
    (destruct lu as [t0 |]; cbn;
     [destruct (Z.eqb_spec t0 t) as [-> | Hne'] |]); reflexivity.
Qed.

(** X15: in a collection whose [_id]s are unique, [handleFailedLogin],
    called on an account as read from the collection whose count of
    failed logins is below [2 ^ 53] in magnitude (so that adding one is
    exact), counts one more failed login and saves the count; from the
    fifth on it locks the account, for thirty minutes from the time
    read, and so extends the lock at every further failure; it returns
    whether the account is locked, and leaves the password as it was. *)
Theorem handleFailedLogin_counts_and_locks (wp : bool) (s : User)
  (w : World) :
  unique_ids (users w) = true ->
  account_by_id (_id s) (users w) = Some s ->
  Z.abs (loginAttempts s) < 2 ^ 53 ->
  let n := loginAttempts s + 1 in
  exists d' w' s',
    handleFailedLogin (hydrate (select wp s)) w
    = (Value (accountLocked s', d'), w')
    /\ account_by_id (_id s) (users w') = Some s'
    /\ loginAttempts s' = n
    /\ accountLocked s' = (accountLocked s || (5 <=? n))
    /\ lockUntil s'
       = (if 5 <=? n then Some (clock w (reads w) + 30 * 60 * 1000)
          else lockUntil s)
    /\ password s' = password s.
Proof.
  intros Hids Hs Hb n. unfold handleFailedLogin.
  set (d1 := assign p_loginAttempts _ (hydrate (select wp s))).
  assert (Hn1 : loginAttempts (fields d1) = n).
  { unfold n. rewrite <- (add_one_exact _ Hb). destruct wp; reflexivity. }
  rewrite Hn1.
  destruct (5 <=? n) eqn:Hfive.
  - run.
    set (t := clock w (reads w) + 30 * 60 * 1000).
    pose proof (delta_failed_lock wp s t Hb) as Hd. cbv zeta in Hd.
    fold d1 in Hd.
    set (d3 := assign p_lockUntil (set_lockUntil (Some t))
                 (assign p_accountLocked (set_accountLocked true) d1)) in *.
    assert (Hn : isNew d3 = false) by reflexivity.
    assert (Hp : isModified p_password d3 = false).
    { unfold d3, d1. rewrite !isModified_assign. reflexivity. }
    assert (He : isModified p_email d3 = false).
    { unfold d3, d1. rewrite !isModified_assign. reflexivity. }
    assert (Hid : _id (fields d3) = _id s) by (destruct wp; reflexivity).
    assert (Hal : accountLocked (fields d3) = true) by reflexivity.
    clearbody d3. clear d1 Hn1.
    rewrite (save_plain d3 _ Hn Hp He). cbn [fields]. rewrite Hal, Hid.
    exists {| fields := fields d3; modified := []; isNew := false |}.
    eexists.
    exists (set_lockUntil (Some t)
              (set_accountLocked true (set_loginAttempts n s))).
    split; [reflexivity |]. cbn [users with_users]. split.
    + unfold n. rewrite <- Hd. apply account_by_id_updateOne;
        [intros; apply apply_delta_id | intros; apply apply_delta_active
        | exact Hids | exact Hs].
    + cbn [loginAttempts accountLocked lockUntil password set_lockUntil
           set_accountLocked set_loginAttempts].
      rewrite orb_true_r. repeat split.
  - run.
    pose proof (delta_failed_below wp s Hb) as Hd. cbv zeta in Hd.
    fold d1 in Hd.
    assert (Hn : isNew d1 = false) by reflexivity.
    assert (Hp : isModified p_password d1 = false).
    { unfold d1. rewrite !isModified_assign. reflexivity. }
    assert (He : isModified p_email d1 = false).
    { unfold d1. rewrite !isModified_assign. reflexivity. }
    assert (Hid : _id (fields d1) = _id s) by (destruct wp; reflexivity).
    assert (Hal : accountLocked (fields d1) = accountLocked s)
      by (destruct wp; reflexivity).
    clearbody d1.
    rewrite (save_plain d1 _ Hn Hp He). cbn [fields]. rewrite Hal, Hid.
    exists {| fields := fields d1; modified := []; isNew := false |}.
    eexists. exists (set_loginAttempts n s).
    split; [reflexivity |]. cbn [users with_users]. split.
    + unfold n. rewrite <- Hd. apply account_by_id_updateOne;
        [intros; apply apply_delta_id | intros; apply apply_delta_active
        | exact Hids | exact Hs].
    + cbn [loginAttempts accountLocked lockUntil password
           set_loginAttempts].
      rewrite orb_false_r. repeat split.
Qed.

End FailedLogin.

(** At [2 ^ 53] the count stays where it is, [+= 1] being rounded, and
    the save writes the lock alone. *)
Example handleFailedLogin_count_saturates :
  let s := set_loginAttempts (2 ^ 53) Demo.alice in
  map (fun u => (loginAttempts u, accountLocked u))
    (users_after
       (handleFailedLogin (platform := Demo.platform)
          (hydrate (select true s)) (Demo.world_at 1700000600000 [s])))
  = [(2 ^ 53, true)].
Proof.
  vm_compute. reflexivity.
Qed.

(** * The password pattern *)

Section Pattern.

Context {platform : Platform}.

Lemma length_string_of_list_ascii (l : list ascii) :
  String.length (string_of_list_ascii l) = List.length l.
Proof. induction l as [| c l IH]; cbn; [reflexivity | rewrite IH; reflexivity]. Qed.

(** X16: the pattern that [signup], [updatePassword] and [resetPassword]
    test a password with judges its first line only: it accepts exactly
    the passwords whose first line has eight characters or more, a digit,
    a lowercase letter, an uppercase letter and one of [!@#$%^&*]. *)
Theorem pattern_reads_the_first_line (p : string) :
  passwordRegex_test (Some p) = strong_password (first_line p).
Proof.
  unfold passwordRegex_test, strong_password, first_line, JS.lookahead.
  cbn [JS.to_String].
  rewrite list_ascii_of_string_of_list_ascii, length_string_of_list_ascii.
  destruct (existsb JS.is_digit (JS.dot_star p)),
    (existsb JS.is_lower (JS.dot_star p)),
    (existsb JS.is_upper (JS.dot_star p)),
    (existsb JS.is_special (JS.dot_star p)),
    (8 <=? List.length (JS.dot_star p))%nat; reflexivity.
Qed.

(** X17: a [resetPassword] request that passes the CSRF check with a
    password the pattern refuses, or with none, is answered 400 and
    writes nothing: the reset token it came with can still be used. *)
Theorem reset_with_weak_password_keeps_the_token (req : Request)
  (w : World) :
  csrf_valid req = true ->
  passwordRegex_test (body_password req) = false ->
  exists message w',
    resetPassword req w = (Value (error 400 message), w')
    /\ users w' = users w.
Proof.
  intros Hc Hre. unfold resetPassword. rewrite Hc, Hre. cbn [negb]. run.
  destruct (find _ (users w)); cbn [option_map];
    do 2 eexists; split; reflexivity.
Qed.

End Pattern.

(** * The token route *)

Section ValidateToken.

Context {platform : Platform}.

Lemma User_toJSON_select (u : User) :
  get "password" (User_toJSON (select false u)) = None
  /\ get "active" (User_toJSON (select false u)) = None
  /\ get "twoFactorSecret" (User_toJSON (select false u)) = None.
Proof.
  unfold User_toJSON, get.
  change (password (select false u)) with (@None string).
  change (active (select false u)) with (@None bool).
  change (twoFactorSecret (select false u)) with (@None string).
  change (opt_field "password" JStr None) with (@nil (string * JSON)).
  change (opt_field "active" JBool None) with (@nil (string * JSON)).
  change (opt_field "twoFactorSecret" JStr None)
    with (@nil (string * JSON)).
  repeat split; rewrite !assoc_app;
    repeat (rewrite assoc_opt_field by reflexivity); reflexivity.
Qed.

Lemma protect_refusal (req : Request) :
  ensures (protect req)
    (fun v => match v with
              | inl r => exists m, r = error 401 m
              | inr _ => True
              end).
Proof.
  unfold protect.
  apply ensures_try_catch; [| intros; apply ensures_ret; eauto].
  repeat first
    [ apply ensures_ret; solve [eauto | exact I]
    | apply ensures_bind; intros
    | match goal with
      | |- ensures (if ?b then _ else _) _ => destruct b
      | |- ensures (match ?x with _ => _ end) _ => destruct x
      | |- ensures (let '(_, _) := ?x in _) _ => destruct x
      end ].
Qed.

(** X18: [GET /validate-token] answers every request and writes
    nothing.  It answers 200 exactly when the request presents a token
    signed with [JWT_SECRET] that has not expired and that names an
    active stored account whose password was not changed in a later
    second than the token was issued; the body then carries that
    account, the one the token names, serialised without [password],
    [active] and [twoFactorSecret].  Every other request is answered
    with the 401 of [protect], without a user object. *)
Theorem validate_token_answers (req : Request) (w : World) :
  users_after (router GET_validate_token req w) = users w
  /\ exists r,
       response_of (router GET_validate_token req w) = Some r
       /\ ((status r = 401
            /\ user_payload r = None
            /\ response_of (protect req w) = Some (inl r)
            /\ forall id iat exp u,
                 presented_token req = Some (Signed JWT_SECRET id iat exp) ->
                 clock w (reads w) / 1000 < exp ->
                 account_by_id id (users w) = Some u ->
                 changedPasswordAfter u iat = true)
           \/ (exists id iat exp u,
                 presented_token req = Some (Signed JWT_SECRET id iat exp)
                 /\ clock w (reads w) / 1000 < exp
                 /\ account_by_id id (users w) = Some u
                 /\ changedPasswordAfter u iat = false
                 /\ r = {| status := 200; cookies := [];
                           body :=
                             JObj [("status", JStr "success");
                                   ("data",
                                    JObj [("user",
                                           User_toJSON (select false u))])] |}
                 /\ get "password" (User_toJSON (select false u)) = None
                 /\ get "active" (User_toJSON (select false u)) = None
                 /\ get "twoFactorSecret" (User_toJSON (select false u))
                    = None)).
Proof.
  split.
  { unfold users_after. cbn [router]. unfold after_protect.
    apply reads_only_bind; [apply reads_only_protect |].
    intros [r | req']; [apply reads_only_ret | apply reads_only_validateToken]. }
  cbn [router]. unfold after_protect, bind, response_of.
  pose proof (protect_refusal req w) as Href.
  destruct (presented_token req) as [[key id iat exp | text] |] eqn:Htok.
  - destruct (protect_verdict req w Htok) as [w1 [_ Hv]].
    rewrite Hv in *. clear Hv.
    destruct (String.eqb_spec key JWT_SECRET) as [-> | Hk]; cbn [negb orb] in *.
    + destruct (Z.leb_spec exp (clock w (reads w) / 1000)) as [Hle | Hlt].
      * eexists. split; [reflexivity |]. left.
        repeat split. intros id' iat' exp' u' Heq Hlive _.
        injection Heq as _ _ <-. lia.
      * destruct (account_by_id id (users w)) as [u |] eqn:Hu.
        -- rewrite changedPasswordAfter_select in *.
           destruct (changedPasswordAfter u iat) eqn:Hch.
           ++ eexists. split; [reflexivity |]. left.
              repeat split. intros id' iat' exp' u' Heq _ Hu'.
              injection Heq as <- <- _. rewrite Hu in Hu'.
              injection Hu' as <-. exact Hch.
           ++ eexists. split; [reflexivity |]. right.
              exists id, iat, exp, u.
              repeat split; try assumption; apply User_toJSON_select.
        -- eexists. split; [reflexivity |]. left.
           repeat split. intros id' iat' exp' u' Heq _ Hu'.
           injection Heq as <- _ _. rewrite Hu in Hu'. discriminate.
    + eexists. split; [reflexivity |]. left.
      repeat split. intros id' iat' exp' u' Heq _ _.
      injection Heq as -> _ _ _. contradiction.
  - assert (Htot : exists v w1, protect req w = (Value v, w1))
      by apply try_catch_total.
    destruct Htot as [v [w1 Hp]]. rewrite Hp in *.
    destruct (@protect_unsigned _ req w) as [r Hr].
    { rewrite Htok. discriminate. }
    rewrite Hp in Hr. cbn [fst] in Hr. injection Hr as ->.
    destruct Href as [m ->]. cbn [fst ret].
    eexists. split; [reflexivity |]. left.
    repeat split. intros id' iat' exp' u' Heq. discriminate.
  - assert (Htot : exists v w1, protect req w = (Value v, w1))
      by apply try_catch_total.
    destruct Htot as [v [w1 Hp]]. rewrite Hp in *.
    destruct (@protect_unsigned _ req w) as [r Hr].
    { rewrite Htok. discriminate. }
    rewrite Hp in Hr. cbn [fst] in Hr. injection Hr as ->.
    destruct Href as [m ->]. cbn [fst ret].
    eexists. split; [reflexivity |]. left.
    repeat split. intros id' iat' exp' u' Heq. discriminate.
Qed.

End ValidateToken.

(** * More on signup and on the tokens of the model *)

Section SignupConfirmation.

Context {platform : Platform}.

(** X19: [signup] creates no account for a request that carries no
    [passwordConfirm]: such a request is never answered 201, and the
    collection is left as it was. *)
Theorem signup_requires_confirmation (req : Request) (w : World) :
  body_passwordConfirm req = None ->
  exists r w',
    signup req w = (Value r, w')
    /\ status r <> 201
    /\ users w' = users w.
Proof.
  intros Hconf.
  destruct (csrf_valid req) eqn:Hc.
  - destruct (body_password req) as [pw |] eqn:Hp.
    + destruct (signup_password_rules req w Hc Hp) as [r [w' [Hrun [Hbad _]]]].
      destruct Hbad as [Hst ->].
      { right. rewrite Hconf. discriminate. }
      exists r, w. split; [exact Hrun |]. split; [lia | reflexivity].
    + unfold signup. rewrite Hc, Hp. cbv [negb try_catch throw ret].
      do 2 eexists. split; [reflexivity |]. split; [discriminate | reflexivity].
  - unfold signup. rewrite Hc. cbv [negb try_catch ret].
    do 2 eexists. split; [reflexivity |]. split; [discriminate | reflexivity].
Qed.

End SignupConfirmation.

Section ModelTokens.

Context {platform : Platform}.

Lemma delta_token (u s : User) (h : string) (t : Z) :
  passwordResetToken s = passwordResetToken u ->
  passwordResetExpires s = passwordResetExpires u ->
  let d := assign p_passwordResetExpires (set_passwordResetExpires (Some t))
             (assign p_passwordResetToken (set_passwordResetToken (Some h))
                (hydrate (select false u))) in
  by_resetToken h t (apply_delta (modified d) (fields d) s) = false
  /\ forall now,
       by_resetToken h now (apply_delta (modified d) (fields d) s)
       = (now <? t).
Proof.
  intros Ht He d.
  destruct (forgot_delta u s h t Ht He) as [H1 [H2 _]]. fold d in H1, H2.
  unfold by_resetToken. rewrite H1, H2. cbn [opt_eqb].
  rewrite String.eqb_refl, Z.ltb_irrefl. split; reflexivity.
Qed.

(** X20: the reset token of the model.  In a collection whose [_id]s
    are unique, [createPasswordResetToken] on an account as read from
    the collection, followed by a save without
    validation, returns the token drawn and leaves the account findable
    by the digest of that token exactly until ten minutes after the time
    read; the password is left as it was. *)
Theorem model_reset_token_lasts_ten_minutes (s : User) (w : World) :
  unique_ids (users w) = true ->
  account_by_id (_id s) (users w) = Some s ->
  exists w' s',
    bind (createPasswordResetToken (hydrate (select false s)))
      (fun issued => bind (save false (snd issued))
                       (fun _ => ret (fst issued))) w
    = (Value (random w (draws w)), w')
    /\ account_by_id (_id s) (users w') = Some s'
    /\ password s' = password s
    /\ forall now,
         by_resetToken (sha256_hex (random w (draws w))) now s'
         = (now <? clock w (reads w) + 10 * 60 * 1000).
Proof.
  intros Hids Hs. unfold createPasswordResetToken. run.
  set (h := sha256_hex (random w (draws w))).
  set (t := clock w (reads w) + 10 * 60 * 1000).
  destruct (@forgot_delta s s h t eq_refl eq_refl) as [_ [_ [Hpw _]]].
  destruct (@delta_token s s h t eq_refl eq_refl) as [_ Hby].
  set (d := assign p_passwordResetExpires _ _) in *.
  assert (Hn : isNew d = false) by reflexivity.
  assert (Hp : isModified p_password d = false).
  { unfold d. rewrite !isModified_assign. reflexivity. }
  assert (He : isModified p_email d = false).
  { unfold d. rewrite !isModified_assign. reflexivity. }
  assert (Hid : _id (fields d) = _id s) by reflexivity.
  clearbody d.
  rewrite (save_plain d _ Hn Hp He). rewrite Hid.
  do 2 eexists. split; [reflexivity |]. cbn [users with_users].
  split; [| split; [exact Hpw | exact Hby]].
  apply account_by_id_updateOne;
    [intros; apply apply_delta_id | intros; apply apply_delta_active
    | exact Hids | exact Hs].
Qed.

End ModelTokens.

(** * A signup that is carried out *)

Section SignupRun.

Context {platform : Platform}.

(** The save of a new document that passes validation, with a password
    to hash and an email no stored document has. *)
Lemma save_new_run (d : Doc) (w : World) (pw : string) :
  isNew d = true ->
  validate d = true ->
  isModified p_password d = true ->
  password (fields d) = Some pw ->
  existsb (fun u => opt_eqb String.eqb (email u) (email (fields d)))
    (users w) = false ->
  let d' := assign p_passwordConfirm (set_passwordConfirm None)
              (assign p_password
                 (set_password (Some (bcrypt_hash (random w (draws w)) pw)))
                 d) in
  save true d w
  = (Value {| fields := fields d'; modified := []; isNew := false |},
     {| users := (users w ++ [fields d'])%list;
        clock := clock w; reads := reads w;
        random := random w; draws := S (draws w);
        compared := compared w |}).
Proof.
  intros Hn Hv Hp Hpw Hdup d'.
  unfold save, hash_password_hook. rewrite Hv, Hp, Hpw. cbn [andb negb].
  run. fold d'.
  assert (Hn' : isNew d' = true) by exact Hn.
  assert (He : email (fields d') = email (fields d)) by reflexivity.
  clearbody d'.
  rewrite Hn'. cbn [negb]. unfold email_hook. rewrite Hn', andb_false_r.
  unfold write_doc. rewrite Hn'. run. rewrite He, Hdup. reflexivity.
Qed.

End SignupRun.

Section SignupTheorem.

Context {platform : Platform}.

Lemma no_email_no_account (e : string) (l : list User) :
  (forall v, In v l -> email v <> Some (email_setter e)) ->
  find (fun u => is_active u && by_email (Some e) u) l = None
  /\ existsb (fun u => opt_eqb String.eqb (email u) (Some (email_setter e)))
       l = false.
Proof.
  intros H.
  assert (Hno : forall v, In v l ->
                 opt_eqb String.eqb (email v) (Some (email_setter e)) = false).
  { intros v Hv. specialize (H v Hv).
    destruct (email v) as [x |]; cbn; [| reflexivity].
    destruct (String.eqb_spec x (email_setter e)); [| reflexivity].
    subst x. contradiction. }
  split.
  - apply find_none_of_all. intros v Hv. cbn [by_email].
    rewrite (Hno v Hv). apply andb_false_r.
  - apply not_true_iff_false. intros Hex. apply existsb_exists in Hex.
    destruct Hex as [v [Hv Hx]]. rewrite (Hno v Hv) in Hx. discriminate.
Qed.

(** X21: a signup that is carried out.  A request that passes the CSRF
    check with a name of 1 to 50 characters once trimmed, an email that
    the validator accepts once lowercased and trimmed and that no stored
    document has, and a password that meets the pattern and equals its
    confirmation is answered 201 with a token for the new account; the
    collection then ends with that account: a fresh [_id], the name
    trimmed, the email normalised, the bcrypt hash of the password and
    never the password, no confirmation, the role [user], [emailVerified]
    false, the digest of a verification token with an expiry a day after
    the time read, and the defaults of the schema. *)
Theorem signup_creates_the_account (req : Request) (w : World)
  (n e pw : string) :
  csrf_valid req = true ->
  body_name req = Some n ->
  JS.trim n <> "" ->
  (String.length (JS.trim n) <= 50)%nat ->
  body_email req = Some e ->
  email_setter e <> "" ->
  isEmail (email_setter e) = true ->
  (forall v, In v (users w) -> email v <> Some (email_setter e)) ->
  body_password req = Some pw ->
  passwordRegex_test (Some pw) = true ->
  body_passwordConfirm req = Some pw ->
  let iat := clock w (S (S (reads w))) / 1000 in
  exists r w',
    signup req w = (Value r, w')
    /\ status r = 201
    /\ get "token" (body r)
       = Some (JTok (Signed JWT_SECRET (fresh_id (users w)) iat
                       (iat + JWT_EXPIRES_IN)))
    /\ users w'
       = (users w
          ++ [signed_up req (fresh_id (users w)) pw (random w (draws w))
                (random w (S (draws w))) (clock w (reads w))
                (clock w (S (reads w)))])%list.
Proof.
  intros Hc Hn Hnne Hnlen He Hene Hmail Hfree Hp Hre Hconf iat.
  destruct (no_email_no_account e (users w) Hfree) as [Hfind Hdup].
  pose proof (passwordRegex_strong pw Hre) as Hstrong.
  unfold strong_password in Hstrong. rewrite !andb_true_iff in Hstrong.
  destruct Hstrong as [[[[Hlen _] _] _] _].
  unfold signup. rewrite Hc, Hp, Hre, Hconf. cbn [negb].
  destruct (Nat.ltb_spec (String.length pw) 8) as [Hlt | _].
  { apply Nat.leb_le in Hlen. lia. }
  cbn [JS.strict_eq]. rewrite String.eqb_refl. cbn [negb].
  rewrite He.
  cbv [try_catch bind findOne find_users ret]. rewrite Hfind.
  cbn [option_map]. unfold User_create.
  cbv [bind find_users Date_now]. cbn [users clock reads].
  rewrite Hn. cbn [option_map].
  match goal with
  | |- context [save true ?d ?w1] => set (d0 := d); set (w0 := w1)
  end.
  assert (Hval : validate d0 = true).
  { unfold validate, validate_name, validate_email, d0.
    cbn [isNew fields orb name email password passwordConfirm length_of].
    unfold required.
    rewrite (truthy_Some Hnne), (truthy_Some Hene).
    assert (Hpne : pw <> "").
    { intros ->. cbn in Hlen. discriminate. }
    rewrite (truthy_Some Hpne). cbn [JS.to_String JS.strict_eq andb].
    rewrite Hmail, Hlen, String.eqb_refl.
    apply Nat.leb_le in Hnlen. rewrite Hnlen. reflexivity. }
  assert (Hsave := @save_new_run _ d0 w0 pw eq_refl Hval eq_refl eq_refl Hdup).
  cbv zeta in Hsave. rewrite Hsave. clear Hsave.
  cbv [createSecureToken randomBytes_hex].
  cbn [users clock reads random draws compared].
  match goal with
  | |- context [save false ?d ?w2] => set (d2 := d); set (w3 := w2)
  end.
  rewrite (@save_plain _ d2 w3 eq_refl eq_refl eq_refl).
  unfold createSendToken, signToken.
  cbv [bind ret Date_now with_users].
  cbn [users clock reads random draws compared].
  do 2 eexists. split; [reflexivity |].
  split; [reflexivity |]. split; [reflexivity |].
  unfold w3, w0. cbn [users].
  rewrite updateOne_last.
  - unfold signed_up. rewrite Hn, He. reflexivity.
  - intros v Hv. apply fresh_id_fresh. exact Hv.
  - unfold by_id. apply Nat.eqb_refl.
Qed.

End SignupTheorem.

(** * The utilities of the client *)

Section Sanitize.

Import Client.

Lemma list_ascii_of_string_app (a b : string) :
  list_ascii_of_string (a ++ b)
  = (list_ascii_of_string a ++ list_ascii_of_string b)%list.
Proof.
  induction a as [| c a IH]; cbn; [reflexivity | rewrite IH; reflexivity].
Qed.

(** The characters of a string after a replacement. *)
Lemma In_replace_all (c x : ascii) (by_ s : string) :
  In x (list_ascii_of_string (replace_all c by_ s)) ->
  (In x (list_ascii_of_string s) /\ x <> c)
  \/ In x (list_ascii_of_string by_).
Proof.
  induction s as [| y s IH]; cbn; [tauto |].
  destruct (Ascii.eqb_spec y c) as [-> | Hne].
  - rewrite list_ascii_of_string_app. intros H.
    apply in_app_or in H. destruct H as [H | H]; [right; exact H |].
    destruct (IH H) as [[H1 H2] | H1]; [left | right]; tauto.
  - cbn. intros [<- | H]; [left; split; [left; reflexivity | exact Hne] |].
    destruct (IH H) as [[H1 H2] | H1]; [left | right]; tauto.
Qed.

Lemma escaped_no_markup (s : string) (x : ascii) :
  In x (list_ascii_of_string
          (replace_all apostrophe "&#039;"
             (replace_all quote "&quot;"
                (replace_all ">" "&gt;" (replace_all "<" "&lt;" s))))) ->
  is_markup x = false.
Proof.
  intros H.
  apply In_replace_all in H. destruct H as [[H Ha] | H].
  2:{ cbn in H. repeat (destruct H as [<- | H]; [reflexivity |]).
      destruct H. }
  apply In_replace_all in H. destruct H as [[H Hq] | H].
  2:{ cbn in H. repeat (destruct H as [<- | H]; [reflexivity |]).
      destruct H. }
  apply In_replace_all in H. destruct H as [[H Hg] | H].
  2:{ cbn in H. repeat (destruct H as [<- | H]; [reflexivity |]).
      destruct H. }
  apply In_replace_all in H. destruct H as [[H Hl] | H].
  2:{ cbn in H. repeat (destruct H as [<- | H]; [reflexivity |]).
      destruct H. }
  unfold is_markup. cbn [existsb].
  destruct (Ascii.eqb_spec x "<"); [contradiction |].
  destruct (Ascii.eqb_spec x ">"); [contradiction |].
  destruct (Ascii.eqb_spec x quote); [contradiction |].
  destruct (Ascii.eqb_spec x apostrophe); [contradiction |].
  reflexivity.
Qed.

(** X22: what [sanitizeHtml] and [sanitizeFormData] return holds no
    [<], no [>], no double quote and no apostrophe in any string; values
    that are not strings, and the keys of the form, are returned as they
    are. *)
Theorem sanitized_text_has_no_markup :
  (forall s, exists s',
      sanitizeHtml (VString s) = VString s'
      /\ forall x, In x (list_ascii_of_string s') -> is_markup x = false)
  /\ (forall j, sanitizeHtml (VOther j) = VOther j)
  /\ (forall formData,
        map fst (sanitizeFormData formData) = map fst formData
        /\ forall key s' x,
             In (key, VString s') (sanitizeFormData formData) ->
             In x (list_ascii_of_string s') -> is_markup x = false).
Proof.
  split; [| split].
  - intros s. eexists. split; [reflexivity |].
    intros x. apply escaped_no_markup.
  - reflexivity.
  - intros formData. split.
    + unfold sanitizeFormData. rewrite map_map. apply map_ext.
      intros [key [value | value]]; reflexivity.
    + intros key s' x Hin. unfold sanitizeFormData in Hin.
      apply in_map_iff in Hin.
      destruct Hin as [[k [v | v]] [Heq _]]; [| discriminate].
      injection Heq as _ <-. apply escaped_no_markup.
Qed.

End Sanitize.

Section StrongPassword.

Import Client.

Lemma is_special_is_special_char (c : ascii) :
  JS.is_special c = true -> is_special_char c = true.
Proof.
  unfold JS.is_special, is_special_char. intros H.
  apply existsb_exists in H. destruct H as [x [Hx Hc]].
  apply existsb_exists. exists x. split; [| exact Hc].
  cbn in Hx. cbn.
  repeat (destruct Hx as [<- | Hx]; [tauto |]). destruct Hx.
Qed.

Lemma existsb_impl {A} (f g : A -> bool) (l : list A) :
  (forall a, f a = true -> g a = true) ->
  existsb f l = true -> existsb g l = true.
Proof.
  intros H Hf. apply existsb_exists in Hf. destruct Hf as [x [Hx Hfx]].
  apply existsb_exists. exists x. auto.
Qed.

(** X23: the check of the client is no stricter than the server's: a
    password that the pattern of [signup], [updatePassword] and
    [resetPassword] accepts passes [isStrongPassword]. *)
Theorem server_password_passes_client_check (p : string) :
  passwordRegex_test (Some p) = true ->
  isStrongPassword (Some p) = true.
Proof.
  intros H. apply passwordRegex_strong in H. unfold strong_password in H.
  rewrite !andb_true_iff in H. destruct H as [[[[Hlen Hu] Hl] Hd] Hs].
  unfold isStrongPassword.
  destruct (String.eqb_spec p "") as [-> | _]; [discriminate |].
  destruct (Nat.ltb_spec (String.length p) 8) as [Hlt | _].
  { apply Nat.leb_le in Hlen. lia. }
  cbv zeta. rewrite Hu, Hl, Hd.
  rewrite (existsb_impl _ _ _ is_special_is_special_char Hs).
  reflexivity.
Qed.

End StrongPassword.

Section CreditCard.

Import Client.

Lemma luhn_sum (digits : list ascii) (sum : Z) (dbl : bool) :
  luhn digits sum dbl = sum + luhn digits 0 dbl.
Proof.
  revert sum dbl.
  induction digits as [| c rest IH]; intros sum dbl; cbn [luhn].
  - lia.
  - rewrite (IH (sum + _)), (IH (0 + _)). lia.
Qed.

Lemma luhn_app (l1 l2 : list ascii) (dbl : bool) :
  luhn (l1 ++ l2) 0 dbl
  = luhn l1 0 dbl + luhn l2 0 (xorb dbl (Nat.odd (List.length l1))).
Proof.
  revert dbl. induction l1 as [| c l1 IH]; intros dbl.
  - cbn. rewrite xorb_false_r. reflexivity.
  - cbn [app luhn List.length]. rewrite luhn_sum, (luhn_sum l1 _ (negb dbl)).
    rewrite IH. rewrite Nat.odd_succ, <- Nat.negb_odd.
    replace (xorb (negb dbl) (Nat.odd (List.length l1)))
      with (xorb dbl (negb (Nat.odd (List.length l1))))
      by (destruct dbl, (Nat.odd (List.length l1)); reflexivity).
    lia.
Qed.

Lemma luhn_cons (c : ascii) (rest : list ascii) (dbl : bool) :
  luhn (c :: rest) 0 dbl = luhn_digit dbl c + luhn rest 0 (negb dbl).
Proof. cbn [luhn]. rewrite luhn_sum. reflexivity. Qed.

Lemma luhn_nonneg_digit (dbl : bool) (c : ascii) :
  JS.is_digit c = true -> 0 <= luhn_digit dbl c <= 9.
Proof.
  unfold JS.is_digit, JS.in_range, luhn_digit, parseInt_digit.
  rewrite andb_true_iff, !Z.leb_le. intros [H1 H2].
  destruct dbl; cbv zeta; [| lia].
  destruct (Z.ltb_spec 9 ((JS.code c - 48) * 2)); lia.
Qed.

Lemma luhn_digit_inj (dbl : bool) (c c' : ascii) :
  JS.is_digit c = true -> JS.is_digit c' = true ->
  luhn_digit dbl c = luhn_digit dbl c' -> c = c'.
Proof.
  unfold JS.is_digit, JS.in_range, luhn_digit, parseInt_digit.
  rewrite !andb_true_iff, !Z.leb_le. intros [H1 H2] [H1' H2'] H.
  assert (Hc : JS.code c = JS.code c').
  { destruct dbl; cbv zeta in H; [| lia].
    destruct (Z.ltb_spec 9 ((JS.code c - 48) * 2)),
      (Z.ltb_spec 9 ((JS.code c' - 48) * 2)); lia. }
  unfold JS.code in Hc. apply Nat2Z.inj in Hc.
  rewrite <- (ascii_nat_embedding c), <- (ascii_nat_embedding c'), Hc.
  reflexivity.
Qed.

Lemma luhn_nonneg (digits : list ascii) (dbl : bool) :
  Forall (fun c => JS.is_digit c = true) digits -> 0 <= luhn digits 0 dbl.
Proof.
  intros H. revert dbl. induction H as [| c rest Hc _ IH]; intros dbl.
  - cbn. lia.
  - rewrite luhn_cons. pose proof (luhn_nonneg_digit dbl c Hc).
    specialize (IH (negb dbl)). lia.
Qed.

Lemma digits_of_app (a : string) (c : ascii) (b : string) :
  JS.is_digit c = true ->
  filter JS.is_digit (list_ascii_of_string (a ++ String c b))
  = (filter JS.is_digit (list_ascii_of_string a)
     ++ c :: filter JS.is_digit (list_ascii_of_string b))%list.
Proof.
  intros Hc. rewrite list_ascii_of_string_app, filter_app. cbn.
  rewrite Hc. reflexivity.
Qed.

(** X24: [validateCreditCard] detects every single wrong digit: when it
    accepts a card number, it refuses the number that differs from it in
    one digit, whatever characters other than digits the number is
    written with. *)
Theorem validateCreditCard_detects_one_wrong_digit (a b : string)
  (c c' : ascii) :
  JS.is_digit c = true ->
  JS.is_digit c' = true ->
  c <> c' ->
  validateCreditCard (a ++ String c b) = true ->
  validateCreditCard (a ++ String c' b) = false.
Proof.
  intros Hc Hc' Hne Hv. unfold validateCreditCard in *.
  rewrite digits_of_app in * by assumption.
  set (da := filter JS.is_digit (list_ascii_of_string a)) in *.
  set (db := filter JS.is_digit (list_ascii_of_string b)) in *.
  rewrite !length_app in *. cbn [List.length] in *.
  destruct ((List.length da + S (List.length db) <? 13)%nat
            || (19 <? List.length da + S (List.length db))%nat);
    [discriminate |].
  rewrite rev_app_distr in *. cbn [rev] in *.
  rewrite <- !app_assoc in *. cbn [app] in *.
  rewrite luhn_app in *. rewrite luhn_cons in *.
  apply Z.eqb_eq in Hv. apply Z.eqb_neq. intros Hv'.
  assert (Hda : Forall (fun x => JS.is_digit x = true) (rev da)).
  { apply Forall_forall. intros x Hx. apply in_rev in Hx.
    unfold da in Hx. apply filter_In in Hx. apply Hx. }
  assert (Hdb : Forall (fun x => JS.is_digit x = true) (rev db)).
  { apply Forall_forall. intros x Hx. apply in_rev in Hx.
    unfold db in Hx. apply filter_In in Hx. apply Hx. }
  set (p := xorb false (Nat.odd (List.length (rev db)))) in *.
  pose proof (luhn_nonneg false Hdb) as Hb.
  pose proof (luhn_nonneg (negb p) Hda) as Ha.
  pose proof (luhn_nonneg_digit p c Hc) as Hd.
  pose proof (luhn_nonneg_digit p c' Hc') as Hd'.
  apply Hne. apply (luhn_digit_inj p); try assumption.
  rewrite Z.rem_mod_nonneg in Hv, Hv' by lia.
  set (x := luhn (rev db) 0 false) in *.
  set (y := luhn (rev da) 0 (negb p)) in *.
  assert (Hdiff : (luhn_digit p c - luhn_digit p c') mod 10 = 0).
  { replace (luhn_digit p c - luhn_digit p c')
      with ((x + (luhn_digit p c + y)) - (x + (luhn_digit p c' + y)))
      by lia.
    rewrite Zminus_mod, Hv, Hv'. reflexivity. }
  apply Z.mod_divide in Hdiff; [| lia].
  destruct Hdiff as [k Hk]. lia.
Qed.

End CreditCard.

Section Limiter.

Import Client.

Variable actionKey : string.

Lemma last_cons (l : list Z) (n lb : Z) : last (n :: l) lb = last l n.
Proof.
  revert n lb. induction l as [| m l IH]; intros n lb; [reflexivity |].
  change (last (n :: m :: l) lb) with (last (m :: l) lb).
  rewrite (IH m lb), (IH m n). reflexivity.
Qed.

Lemma filter_filter_window (W n now : Z) (l : list Z) :
  n <= now ->
  filter (fun t => now - t <? W) (filter (fun t => n - t <? W) l)
  = filter (fun t => now - t <? W) l.
Proof.
  intros Hle. induction l as [| t l IH]; cbn; [reflexivity |].
  destruct (Z.ltb_spec (n - t) W) as [Hn | Hn]; cbn.
  - rewrite IH. reflexivity.
  - destruct (Z.ltb_spec (now - t) W); [lia | exact IH].
Qed.

Lemma remembers_checkLimit (lb n : Z) (rl : RateLimiter) (granted : list Z) :
  remembers actionKey lb rl granted ->
  lb <= n ->
  remembers actionKey n (snd (checkLimit n actionKey rl))
    (if fst (checkLimit n actionKey rl) then (granted ++ [n])%list
     else granted)
  /\ maxAttempts (snd (checkLimit n actionKey rl)) = maxAttempts rl
  /\ timeWindowMs (snd (checkLimit n actionKey rl)) = timeWindowMs rl.
Proof.
  intros Hrem Hle. unfold checkLimit.
  destruct (maxAttempts rl <=? _); cbn [fst snd].
  - split; [| split; reflexivity]. intros now Hnow. apply Hrem. lia.
  - split; [| split; reflexivity]. intros now Hnow.
    unfold validAttempts at 1.
    cbn [attempts timeWindowMs]. rewrite String.eqb_refl.
    rewrite (Hrem n Hle), !filter_app, filter_filter_window by exact Hnow.
    reflexivity.
Qed.

Lemma remembers_attempt_all (times : list Z) (lb : Z) (rl : RateLimiter)
  (granted : list Z) :
  remembers actionKey lb rl granted ->
  ascending_from lb times ->
  remembers actionKey (last times lb)
    (snd (attempt_all times actionKey rl))
    (granted ++ fst (attempt_all times actionKey rl))%list
  /\ maxAttempts (snd (attempt_all times actionKey rl)) = maxAttempts rl
  /\ timeWindowMs (snd (attempt_all times actionKey rl)) = timeWindowMs rl.
Proof.
  revert lb rl granted.
  induction times as [| n rest IH]; intros lb rl granted Hrem Hasc.
  - cbn. rewrite app_nil_r. auto.
  - destruct Hasc as [Hle Hasc].
    destruct (@remembers_checkLimit lb n rl granted Hrem Hle)
      as [Hrem1 [Hm1 Hw1]].
    cbn [attempt_all].
    destruct (checkLimit n actionKey rl) as [allowed rl1].
    cbn [fst snd] in *.
    specialize (IH n rl1 _ Hrem1 Hasc).
    destruct (attempt_all rest actionKey rl1) as [g rl2].
    cbn [fst snd] in *. destruct IH as [IH [Hm2 Hw2]].
    rewrite last_cons.
    split; [| split; congruence].
    destruct allowed; [rewrite <- app_assoc in IH |]; exact IH.
Qed.

Lemma ascending_from_app (lb now : Z) (pre : list Z) :
  ascending_from lb (pre ++ [now]) ->
  ascending_from lb pre /\ last pre lb <= now.
Proof.
  revert lb. induction pre as [| t pre IH]; intros lb; cbn [app].
  - cbn. tauto.
  - intros [Hle H]. destruct (IH t H) as [H1 H2].
    split; [split; assumption |].
    rewrite last_cons. exact H2.
Qed.

End Limiter.

Section LimiterTheorems.

Import Client.

(** X25: the limiter allows an attempt exactly when fewer than
    [maxAttempts] of the attempts it allowed before at that action lie
    less than [timeWindowMs] back, for attempts made at times that do not
    decrease: no window of that length holds more than [maxAttempts]
    allowed attempts. *)
Theorem limiter_allows_maxAttempts_per_window (max window start now : Z)
  (actionKey : string) (earlier : list Z) :
  ascending_from start (earlier ++ [now]) ->
  let run := attempt_all earlier actionKey (new_RateLimiter max window) in
  fst (checkLimit now actionKey (snd run))
  = (Z.of_nat (List.length (filter (fun t => now - t <? window) (fst run)))
     <? max).
Proof.
  intros Hasc run.
  destruct (ascending_from_app _ _ _ Hasc) as [Hpre Hlast].
  destruct (@remembers_attempt_all actionKey earlier start
              (new_RateLimiter max window) [])
    as [Hrem [Hmax Hwin]]; [intros t _; reflexivity | exact Hpre |].
  fold run in Hrem, Hmax, Hwin. cbn [app] in Hrem.
  unfold checkLimit. rewrite (Hrem now Hlast), Hmax, Hwin.
  cbn [maxAttempts timeWindowMs new_RateLimiter].
  destruct (Z.leb_spec max
              (Z.of_nat (List.length
                           (filter (fun t => now - t <? window) (fst run)))))
    as [H | H]; cbn [fst]; symmetry;
    [apply Z.ltb_ge | apply Z.ltb_lt]; exact H.
Qed.

(** X26: [checkLimit] allows an attempt exactly when
    [getRemainingAttempts] is positive at that time; a refused attempt
    leaves the limiter as it was; an attempt at one action leaves the
    record of every other action as it was; and after [reset] the whole
    allowance remains. *)
Theorem limiter_bookkeeping (now : Z) (actionKey : string)
  (rl : RateLimiter) :
  fst (checkLimit now actionKey rl)
  = (0 <? getRemainingAttempts now actionKey rl)
  /\ (fst (checkLimit now actionKey rl) = false ->
      snd (checkLimit now actionKey rl) = rl)
  /\ (forall key, key <> actionKey ->
        attempts (snd (checkLimit now actionKey rl)) key = attempts rl key)
  /\ getRemainingAttempts now actionKey (reset actionKey rl)
     = Z.max 0 (maxAttempts rl).
Proof.
  unfold checkLimit, getRemainingAttempts.
  set (n := Z.of_nat (List.length (validAttempts now actionKey rl))).
  repeat split.
  - destruct (Z.leb_spec (maxAttempts rl) n); cbn [fst]; symmetry;
      [apply Z.ltb_ge | apply Z.ltb_lt]; lia.
  - destruct (maxAttempts rl <=? n); cbn [fst snd];
      [reflexivity | discriminate].
  - intros key Hkey. destruct (maxAttempts rl <=? n); cbn [snd attempts];
      [reflexivity |].
    destruct (String.eqb_spec key actionKey); [contradiction | reflexivity].
  - unfold validAttempts, reset. cbn [attempts maxAttempts timeWindowMs].
    rewrite String.eqb_refl. cbn. rewrite Z.sub_0_r. reflexivity.
Qed.

End LimiterTheorems.

(** * The theorems on the sample data *)

(** [forged_request_refused] at a login that carries no CSRF header. *)
Lemma forged_request_refused_witness :
  login (platform := Demo.platform)
    (with_h_csrf None (Demo.credentials "alice@example.com" "Str0ng!Pass"))
    Demo.world
  = (Value (error 403 "Invalid CSRF token"), Demo.world).
Proof.
  exact (proj1 (proj2
           (@forged_request_refused Demo.platform
              (with_h_csrf None
                 (Demo.credentials "alice@example.com" "Str0ng!Pass"))
              Demo.world eq_refl))).
Defined.

(** [protect_grants_valid_sessions_only] at a session of the demo
    account. *)
Lemma protect_grants_valid_sessions_only_witness :
  users_after
    (protect (platform := Demo.platform) (Sample.bearer (Sample.session 1))
       Demo.world)
  = users Demo.world.
Proof.
  refine (proj1
            (@protect_grants_valid_sessions_only Demo.platform
               (Sample.bearer (Sample.session 1))
               (with_req_user (Some (hydrate (select false Demo.alice)))
                  (Sample.bearer (Sample.session 1)))
               Demo.world _)).
  vm_compute. reflexivity.
Defined.

(** [logout_cookie_is_refused] at the cookie of a logout in the demo
    world. *)
Lemma logout_cookie_is_refused_witness :
  response_of
    (protect (platform := Demo.platform)
       (with_cookie_jwt (Some (Opaque "loggedout")) Demo.request) Demo.world)
  = Some (inl (error 401 "Authentication failed. Please log in again.")).
Proof.
  refine (@logout_cookie_is_refused Demo.platform Demo.request
            (with_cookie_jwt (Some (Opaque "loggedout")) Demo.request)
            Demo.world Demo.world
            {| status := 200;
               cookies := [{| c_name := "jwt"; c_value := Opaque "loggedout";
                              c_expires := 1700000610000;
                              c_httpOnly := true; c_secure := None |}];
               body := JObj [("status", JStr "success")] |}
            {| c_name := "jwt"; c_value := Opaque "loggedout";
               c_expires := 1700000610000;
               c_httpOnly := true; c_secure := None |} _ _ _).
  - vm_compute. reflexivity.
  - left. reflexivity.
  - reflexivity.
Defined.

(** [logout_revokes_nothing] at a session of the demo account. *)
Lemma logout_revokes_nothing_witness :
  response_of
    (protect (platform := Demo.platform) (Sample.bearer (Sample.session 1))
       (snd (logout Demo.request Demo.world)))
  = Some (inr (with_req_user (Some (hydrate (select false Demo.alice)))
                 (Sample.bearer (Sample.session 1)))).
Proof.
  refine (@logout_revokes_nothing Demo.platform Demo.request
            (Sample.bearer (Sample.session 1)) _ Demo.world
            "secret" 1%nat 1700000600 1707776600 _ _ _).
  - reflexivity.
  - vm_compute. reflexivity.
  - apply Z.ltb_lt. vm_compute. reflexivity.
Defined.

(** [admin_only_admits_admins_only] at a session of the sample
    administrator. *)
Lemma admin_only_admits_admins_only_witness :
  exists id u,
    account_by_id id (users Sample.world) = Some u /\ role u = role_admin.
Proof.
  destruct (@admin_only_admits_admins_only Demo.platform
              (Sample.bearer (Sample.session 2))
              (with_req_user (Some (hydrate (select false Sample.root)))
                 (Sample.bearer (Sample.session 2)))
              Sample.world)
    as [id [iat [exp [u [_ [_ [Hu [_ Hr]]]]]]]].
  - vm_compute. reflexivity.
  - exists id, u. split; assumption.
Defined.

(** [login_records_the_login] at the demo account. *)
Lemma login_records_the_login_witness :
  exists r w',
    login (platform := Demo.platform)
      (Demo.credentials "alice@example.com" "Str0ng!Pass") Demo.world
    = (Value r, w')
    /\ status r = 200.
Proof.
  destruct (@login_records_the_login Demo.platform
              (Demo.credentials "alice@example.com" "Str0ng!Pass")
              Demo.world Demo.alice
              "alice@example.com" "Str0ng!Pass" "bcrypt:Str0ng!Pass")
    as [r [w' [u' [Hrun [Hst _]]]]];
    try reflexivity; try discriminate.
  exists r, w'. split; assumption.
Defined.

(** [login_lifts_an_expired_lock] at the demo account, locked until a
    time that has passed. *)
Lemma login_lifts_an_expired_lock_witness :
  let locked :=
    set_lockUntil (Some 1700000500000) (set_accountLocked true Demo.alice) in
  exists r w' u',
    login (platform := Demo.platform)
      (Demo.credentials "alice@example.com" "Str0ng!Pass")
      (Demo.world_at 1700000600000 [locked])
    = (Value r, w')
    /\ status r = 200
    /\ account_by_id 1 (users w') = Some u'
    /\ accountLocked u' = false.
Proof.
  intros locked.
  destruct (@login_lifts_an_expired_lock Demo.platform
              (Demo.credentials "alice@example.com" "Str0ng!Pass")
              (Demo.world_at 1700000600000 [locked]) locked
              "alice@example.com" "Str0ng!Pass" "bcrypt:Str0ng!Pass")
    as [r [w' [u' [Hrun [Hst [Hu [Hl _]]]]]]];
    try reflexivity; try discriminate.
  - intros t Ht. injection Ht as <-.
    cbv beta iota delta [Demo.world_at clock reads]. lia.
  - exists r, w', u'. repeat split; assumption.
Defined.

(** [login_token_is_accepted] at the demo account. *)
Lemma login_token_is_accepted_witness :
  exists r w' token,
    login (platform := Demo.platform)
      (Demo.credentials "alice@example.com" "Str0ng!Pass") Demo.world
    = (Value r, w')
    /\ get "token" (body r) = Some (JTok token).
Proof.
  destruct (@login_token_is_accepted Demo.platform
              (Demo.credentials "alice@example.com" "Str0ng!Pass")
              Demo.world Demo.alice
              "alice@example.com" "Str0ng!Pass" "bcrypt:Str0ng!Pass")
    as [r [w' [token [Hrun [Htok _]]]]];
    try reflexivity; try discriminate.
  exists r, w', token. split; assumption.
Defined.

(** [new_account_never_logs_in] at the registration of Bob, followed by
    a logout and by a request for a reset of his password. *)
Lemma new_account_never_logs_in_witness :
  let calls :=
    [(GET_logout, Demo.request);
     (POST_forgot_password,
      with_body_email (Some "bob@example.com") Demo.request)] in
  exists r,
    response_of
      (login (platform := Demo.platform)
         (Demo.credentials "bob@example.com" "Str0ng!Pass")
         (serve (platform := Demo.platform) calls
            (snd (signup (platform := Demo.platform) Sample.registration
                    Demo.world))))
    = Some r
    /\ status r <> 200.
Proof.
  intros calls.
  destruct (@new_account_never_logs_in Demo.platform Sample.registration
              Demo.world calls
              (Demo.credentials "bob@example.com" "Str0ng!Pass"))
    as [r [Hrun [Hst _]]].
  - vm_compute. reflexivity.
  - vm_compute. reflexivity.
  - exists r. split; assumption.
Defined.

(** [no_request_makes_an_admin] at a session of the sample administrator
    after a registration and a logout. *)
Lemma no_request_makes_an_admin_witness :
  exists s, In s (users Sample.world) /\ role s = role_admin.
Proof.
  destruct (@no_request_makes_an_admin Demo.platform
              [(POST_signup, Sample.registration); (GET_logout, Demo.request)]
              Sample.world
              (Sample.bearer (Sample.session 2))
              (with_req_user (Some (hydrate (select false Sample.root)))
                 (Sample.bearer (Sample.session 2))))
    as [id [iat [exp [s [_ [Hs [_ Hr]]]]]]].
  - vm_compute. reflexivity.
  - exists s. split; assumption.
Defined.

(** [forgotPassword_stores_a_digest] at the demo account. *)
Lemma forgotPassword_stores_a_digest_witness :
  exists r w' u',
    forgotPassword (platform := Demo.platform)
      (with_body_email (Some "alice@example.com") Demo.request) Demo.world
    = (Value r, w')
    /\ account_by_id 1 (users w') = Some u'
    /\ passwordResetToken u' = Some "sha256:c0ffee".
Proof.
  destruct (@forgotPassword_stores_a_digest Demo.platform
              (with_body_email (Some "alice@example.com") Demo.request)
              Demo.world Demo.alice)
    as [r [w' [u' [Hrun [_ [Hu [Ht _]]]]]]];
    try reflexivity.
  exists r, w', u'. repeat split; assumption.
Defined.

(** [forgotten_password_can_be_reset] at the demo account. *)
Lemma forgotten_password_can_be_reset_witness :
  let forgot := with_body_email (Some "alice@example.com") Demo.request in
  let reset :=
    with_param_token "c0ffee"
      (with_body_password (Some "N3w!Passw0rd")
         (with_body_passwordConfirm (Some "N3w!Passw0rd") Demo.request)) in
  exists r2 w2,
    resetPassword (platform := Demo.platform) reset
      (snd (forgotPassword (platform := Demo.platform) forgot Demo.world))
    = (Value r2, w2)
    /\ status r2 = 200.
Proof.
  intros forgot reset.
  destruct (@forgotten_password_can_be_reset Demo.platform forgot reset
              Demo.world Demo.alice "N3w!Passw0rd")
    as [r2 [w2 [u2 [Hrun [Hst _]]]]];
    try reflexivity.
  - intros v [<- | []]. discriminate.
  - exists r2, w2. split; assumption.
Defined.

(** [handleFailedLogin_counts_and_locks] at the fifth failure of the
    sample account that has four: the call locks the account. *)
Lemma handleFailedLogin_counts_and_locks_witness :
  exists d' w' s',
    handleFailedLogin (platform := Demo.platform)
      (hydrate (select true Sample.struggling))
      (Demo.world_at 1700000600000 [Sample.struggling])
    = (Value (true, d'), w')
    /\ account_by_id 1 (users w') = Some s'
    /\ loginAttempts s' = 5
    /\ accountLocked s' = true
    /\ lockUntil s' = Some (1700000600000 + 30 * 60 * 1000).
Proof.
  destruct (@handleFailedLogin_counts_and_locks Demo.platform true
              Sample.struggling
              (Demo.world_at 1700000600000 [Sample.struggling]))
    as [d' [w' [s' [Hrun [Hacc [Hn [Hl [Hu _]]]]]]]].
  - reflexivity.
  - reflexivity.
  - reflexivity.
  - exists d', w', s'.
    assert (Hlocked : accountLocked s' = true) by exact Hl.
    rewrite Hlocked in Hrun.
    split; [exact Hrun |]. split; [exact Hacc |].
    split; [exact Hn |]. split; [exact Hlocked | exact Hu].
Defined.

(** [reset_with_weak_password_keeps_the_token] at a request that comes
    with the token of the sample holder and a password without a digit:
    the holder keeps the digest and the expiry. *)
Lemma reset_with_weak_password_keeps_the_token_witness :
  let req :=
    with_param_token "feedbeef"
      (with_body_passwordConfirm (Some "Password!")
         (with_body_password (Some "Password!") Demo.request)) in
  (exists message w',
     resetPassword (platform := Demo.platform) req
       (Demo.world_at 1700000600000 [Sample.holder])
     = (Value (error 400 message), w')
     /\ users w' = [Sample.holder])
  /\ response_of
       (resetPassword (platform := Demo.platform) req
          (Demo.world_at 1700000600000 [Sample.holder]))
     = Some (error 400 weak_password_message).
Proof.
  intros req. split; [| vm_compute; reflexivity].
  exact (@reset_with_weak_password_keeps_the_token Demo.platform req
           (Demo.world_at 1700000600000 [Sample.holder]) eq_refl eq_refl).
Defined.

(** [server_password_passes_client_check] at the password of the demo
    account. *)
Lemma server_password_passes_client_check_witness :
  Client.isStrongPassword (Some "Str0ng!Pass") = true.
Proof.
  exact (@server_password_passes_client_check "Str0ng!Pass" eq_refl).
Defined.

(** [validateCreditCard_detects_one_wrong_digit] at a test number of
    sixteen digits, written in groups of four. *)
Lemma validateCreditCard_detects_one_wrong_digit_witness :
  Client.validateCreditCard "4111 1111 1111 1211" = false.
Proof.
  exact (@validateCreditCard_detects_one_wrong_digit
           "4111 1111 1111 1" "11" "1"%char "2"%char
           eq_refl eq_refl ltac:(discriminate) eq_refl).
Defined.

(** [limiter_allows_maxAttempts_per_window] at a fourth attempt within
    a minute, three being allowed. *)
Lemma limiter_allows_maxAttempts_per_window_witness :
  fst (Client.checkLimit 4000 "login"
         (snd (Client.attempt_all [1000; 2000; 3000] "login"
                 (Client.new_RateLimiter 3 60000))))
  = false.
Proof.
  rewrite (@limiter_allows_maxAttempts_per_window 3 60000 0 4000 "login"
             [1000; 2000; 3000]).
  - reflexivity.
  - cbn. lia.
Defined.

(** [signup_requires_confirmation] at a registration without
    confirmation. *)
Lemma signup_requires_confirmation_witness :
  exists r w',
    signup (platform := Demo.platform)
      (with_body_passwordConfirm None Sample.registration) Demo.world
    = (Value r, w')
    /\ status r <> 201.
Proof.
  destruct (@signup_requires_confirmation Demo.platform
              (with_body_passwordConfirm None Sample.registration)
              Demo.world eq_refl)
    as [r [w' [Hrun [Hst _]]]].
  exists r, w'. split; assumption.
Defined.

(** [model_reset_token_lasts_ten_minutes] at the demo account. *)
Lemma model_reset_token_lasts_ten_minutes_witness :
  exists w' s',
    account_by_id 1 (users w') = Some s'
    /\ by_resetToken "sha256:c0ffee" 1700001200000 s' = false.
Proof.
  destruct (@model_reset_token_lasts_ten_minutes Demo.platform Demo.alice
              Demo.world eq_refl eq_refl)
    as [w' [s' [_ [Hs [_ Hby]]]]].
  exists w', s'. split; [exact Hs | exact (Hby 1700001200000)].
Defined.

(** [signup_creates_the_account] at the registration of Bob. *)
Lemma signup_creates_the_account_witness :
  exists r w',
    signup (platform := Demo.platform) Sample.registration Demo.world
    = (Value r, w')
    /\ status r = 201
    /\ map email (users w')
       = [Some "alice@example.com"; Some "bob@example.com"].
Proof.
  destruct (@signup_creates_the_account Demo.platform Sample.registration
              Demo.world "Bob" "Bob@Example.com " "Str0ng!Pass")
    as [r [w' [Hrun [Hst [_ Hus]]]]];
    [ reflexivity | reflexivity | vm_compute; discriminate
    | apply Nat.leb_le; reflexivity | reflexivity
    | vm_compute; discriminate | reflexivity
    | intros v [<- | []]; vm_compute; discriminate
    | reflexivity | reflexivity | reflexivity | ].
  exists r, w'. split; [exact Hrun |]. split; [exact Hst |].
  rewrite Hus. reflexivity.
Defined.

(** * One account at a time *)

Section Touches.

Context {platform : Platform}.

Lemma others_kept_refl (id : nat) (l : list User) : others_kept id l l.
Proof. intros v Hv _. exact Hv. Qed.

Lemma others_kept_trans (id : nat) (a b c : list User) :
  others_kept id a b -> others_kept id b c -> others_kept id a c.
Proof. intros H1 H2 v Hv Hid. apply H2; [apply H1 |]; assumption. Qed.

Lemma others_kept_updateOne (id : nat) (filter : User -> bool)
  (f : User -> User) (l : list User) :
  (forall v, filter v = true -> _id v = id) ->
  others_kept id l (updateOne filter f l).
Proof.
  intros Hf v Hv Hid. induction l as [| a l IH]; [destruct Hv |].
  cbn. destruct (filter a) eqn:Ha.
  - destruct Hv as [-> | Hv]; [| right; exact Hv].
    exfalso. apply Hid. apply Hf. exact Ha.
  - destruct Hv as [-> | Hv]; [left; reflexivity | right; apply IH; exact Hv].
Qed.

Lemma others_kept_insert (id : nat) (l : list User) (u : User) :
  others_kept id l (l ++ [u])%list.
Proof. intros v Hv _. apply in_or_app. left. exact Hv. Qed.

Lemma touches_ret {A} (id : nat) (a : A) (Q : A -> Prop) :
  Q a -> touches id (ret a) Q.
Proof. intros H w. split; [apply others_kept_refl | exact H]. Qed.

Lemma touches_throw {A} (id : nat) (e : Exn) (Q : A -> Prop) :
  touches id (throw e) Q.
Proof. intros w. split; [apply others_kept_refl | exact I]. Qed.

Lemma touches_bind {A B} (id : nat) (c : M A) (k : A -> M B)
  (Q : A -> Prop) (Q' : B -> Prop) :
  touches id c Q -> (forall a, Q a -> touches id (k a) Q') ->
  touches id (bind c k) Q'.
Proof.
  intros Hc Hk w. unfold bind. specialize (Hc w).
  destruct (c w) as [[a | e] w1]; cbn [fst snd] in *.
  - destruct Hc as [Hg Ha]. specialize (Hk a Ha w1).
    destruct Hk as [Hg' Hq].
    split; [eapply others_kept_trans; eassumption | exact Hq].
  - exact Hc.
Qed.

Lemma touches_try_catch {A} (id : nat) (body : M A) (handler : Exn -> M A)
  (Q : A -> Prop) :
  touches id body Q -> (forall e, touches id (handler e) Q) ->
  touches id (try_catch body handler) Q.
Proof.
  intros Hb Hh w. unfold try_catch. specialize (Hb w).
  destruct (body w) as [[a | e] w1]; cbn [fst snd] in *; [exact Hb |].
  destruct Hb as [Hg _]. specialize (Hh e w1). destruct Hh as [Hg' Hq].
  split; [eapply others_kept_trans; eassumption | exact Hq].
Qed.

Lemma touches_reads_only {A} (id : nat) (c : M A) :
  reads_only c -> touches id c (fun _ => True).
Proof.
  intros Hc w. rewrite (Hc w). split; [apply others_kept_refl |].
  destruct (fst (c w)); exact I.
Qed.

Lemma reads_only_createSendToken (u : Doc) (code : Z) (req : Request) :
  reads_only (createSendToken u code req).
Proof. intros w. reflexivity. Qed.

Lemma touches_findById (id id' : nat) (with_password : bool) :
  touches id (findById id' with_password)
    (fun found => forall d, found = Some d -> held id' d).
Proof.
  intros w. split; [apply others_kept_refl |]. cbn.
  intros d Hd. destruct (find _ (users w)) as [u |] eqn:Hf;
    [| discriminate].
  injection Hd as <-. apply find_some in Hf. destruct Hf as [_ Hf].
  apply andb_true_iff in Hf. destruct Hf as [_ Hf].
  apply Nat.eqb_eq in Hf. unfold held.
  destruct with_password; exact Hf.
Qed.

Lemma touches_findByIdAndUpdate (id : nat) (f : User -> User) :
  touches id (findByIdAndUpdate id f) (fun _ => True).
Proof.
  intros w. split; [| exact I]. cbn. apply others_kept_updateOne.
  intros v Hv. apply andb_true_iff in Hv. destruct Hv as [_ Hv].
  apply Nat.eqb_eq in Hv. exact Hv.
Qed.

Lemma touches_log_password_change (t : EventType) (req : Request) (u : Doc) :
  touches (_id (fields u)) (log_password_change t req u) (fun _ => True).
Proof.
  intros w. split; [| exact I]. cbn. apply others_kept_updateOne.
  intros v Hv. apply andb_true_iff in Hv. destruct Hv as [_ Hv].
  apply Nat.eqb_eq in Hv. exact Hv.
Qed.

Lemma touches_hash_password_hook (id : nat) (d : Doc) :
  held id d -> touches id (hash_password_hook d) (held id).
Proof.
  intros Hd. unfold hash_password_hook.
  destruct (isModified p_password d); cbn [negb]; [| apply touches_ret; exact Hd].
  destruct (password (fields d)); [| apply touches_throw].
  eapply touches_bind;
    [apply touches_reads_only, reads_only_randomBytes_hex |].
  intros salt _.
  match goal with |- touches _ (if ?b then _ else _) _ => destruct b end.
  - eapply touches_bind;
      [apply touches_reads_only, reads_only_Date_now |].
    intros now _. apply touches_ret. exact Hd.
  - apply touches_ret. exact Hd.
Qed.

Lemma held_email_hook (id : nat) (d : Doc) :
  held id d -> held id (email_hook d).
Proof.
  unfold held, email_hook.
  destruct (isModified p_email d && negb (isNew d)); intros H; exact H.
Qed.

Lemma touches_save (id : nat) (v : bool) (d : Doc) :
  held id d -> touches id (save v d) (held id).
Proof.
  intros Hd. unfold save.
  eapply touches_bind with (Q := fun _ => True).
  { destruct (v && negb (validate d));
      [apply touches_throw | apply touches_ret; exact I]. }
  intros _ _.
  eapply touches_bind; [apply touches_hash_password_hook; exact Hd |].
  intros d1 Hd1. apply held_email_hook in Hd1.
  eapply touches_bind with (Q := fun _ => True).
  - unfold write_doc. destruct (isNew (email_hook d1)).
    + eapply touches_bind with (Q := fun _ => True).
      { apply touches_reads_only. intros w. reflexivity. }
      intros l _. destruct (existsb _ l); [apply touches_throw |].
      intros w. split; [| exact I]. cbn. apply others_kept_insert.
    + intros w. split; [| exact I]. cbn. apply others_kept_updateOne.
      intros u Hu. unfold by_id in Hu. apply Nat.eqb_eq in Hu.
      unfold held in Hd1. congruence.
  - intros _ _. apply touches_ret. exact Hd1.
Qed.

Lemma touches_login_granted (req : Request) (u : Doc) :
  touches (_id (fields u)) (login_granted req u) (fun _ => True).
Proof.
  unfold login_granted.
  eapply touches_bind; [apply touches_save; reflexivity |].
  intros u1 H1. unfold held in H1.
  eapply touches_bind;
    [apply touches_reads_only, reads_only_Date_now |]. intros now _.
  eapply touches_bind; [rewrite H1; apply touches_findByIdAndUpdate |].
  intros _ _. apply touches_reads_only, reads_only_createSendToken.
Qed.

Lemma touches_login_unlock (req : Request) (u : Doc) :
  touches (_id (fields u)) (login_unlock req u) (fun _ => True).
Proof.
  unfold login_unlock.
  eapply touches_bind; [apply touches_save; reflexivity |].
  intros u1 H1. unfold held in H1. rewrite <- H1.
  apply touches_login_granted.
Qed.

Lemma spares_of_touches {A} (id : nat) (c : M A) (Q : A -> Prop) :
  touches id c Q -> spares c.
Proof. intros H w. exists id. apply H. Qed.

Lemma spares_reads_only {A} (c : M A) : reads_only c -> spares c.
Proof.
  intros H w. exists 0%nat. rewrite (H w). apply others_kept_refl.
Qed.

Lemma spares_bind_read {A B} (c : M A) (k : A -> M B) :
  reads_only c -> (forall a, spares (k a)) -> spares (bind c k).
Proof.
  intros Hc Hk w. unfold bind. specialize (Hc w).
  destruct (c w) as [[a | e] w1]; cbn [snd] in *.
  - destruct (Hk a w1) as [id Hid]. exists id. rewrite <- Hc. exact Hid.
  - exists 0%nat. rewrite Hc. apply others_kept_refl.
Qed.

Lemma spares_try_catch {A} (body : M A) (a0 : A) :
  spares body -> spares (try_catch body (fun _ => ret a0)).
Proof.
  intros Hb w. unfold try_catch. destruct (Hb w) as [id Hid].
  exists id. destruct (body w) as [[a | e] w1]; exact Hid.
Qed.

Lemma spares_login (req : Request) : spares (login req).
Proof.
  unfold login. apply spares_try_catch.
  destruct (negb (csrf_valid req));
    [apply spares_reads_only, reads_only_ret |].
  destruct (negb (JS.truthy (body_email req))
            || negb (JS.truthy (body_password req)));
    [apply spares_reads_only, reads_only_ret |].
  apply spares_bind_read; [apply reads_only_findOne |].
  intros [u |]; [| apply spares_reads_only, reads_only_ret].
  apply spares_of_touches with (_id (fields u)) (fun _ : Response => True).
  eapply touches_bind;
    [apply touches_reads_only, reads_only_correctPassword |].
  intros correct _.
  destruct (negb correct); [apply touches_ret; exact I |].
  destruct (negb (emailVerified (fields u))); [apply touches_ret; exact I |].
  destruct (accountLocked (fields u)); [| apply touches_login_granted].
  destruct (lockUntil (fields u)) as [until |];
    [| apply touches_login_unlock].
  eapply touches_bind;
    [apply touches_reads_only, reads_only_Date_now |]. intros now _.
  destruct (now <? until);
    [apply touches_ret; exact I | apply touches_login_unlock].
Qed.

Lemma spares_forgotPassword (req : Request) : spares (forgotPassword req).
Proof.
  unfold forgotPassword, createSecureToken. apply spares_try_catch.
  destruct (negb (csrf_valid req));
    [apply spares_reads_only, reads_only_ret |].
  apply spares_bind_read; [apply reads_only_findOne |].
  intros [u |]; [| apply spares_reads_only, reads_only_ret].
  apply spares_of_touches with (_id (fields u)) (fun _ : Response => True).
  eapply touches_bind;
    [apply touches_reads_only, reads_only_randomBytes_hex |]. intros tok _.
  eapply touches_bind;
    [apply touches_reads_only, reads_only_Date_now |]. intros now _.
  eapply touches_bind; [apply touches_save; reflexivity |].
  intros u1 H1. unfold held in H1.
  eapply touches_bind;
    [apply touches_reads_only, reads_only_Date_now |]. intros date _.
  eapply touches_bind; [rewrite H1; apply touches_findByIdAndUpdate |].
  intros _ _. apply touches_ret. exact I.
Qed.

Lemma spares_resetPassword (req : Request) : spares (resetPassword req).
Proof.
  unfold resetPassword. apply spares_try_catch.
  destruct (negb (csrf_valid req));
    [apply spares_reads_only, reads_only_ret |].
  apply spares_bind_read; [apply reads_only_Date_now |]. intros now.
  apply spares_bind_read; [apply reads_only_findOne |].
  intros [u |]; [| apply spares_reads_only, reads_only_ret].
  apply spares_of_touches with (_id (fields u)) (fun _ : Response => True).
  destruct (negb (passwordRegex_test (body_password req)));
    [apply touches_ret; exact I |].
  eapply touches_bind; [apply touches_save; reflexivity |].
  intros u1 H1. unfold held in H1.
  eapply touches_bind; [rewrite <- H1; apply touches_log_password_change |].
  intros _ _. apply touches_reads_only, reads_only_createSendToken.
Qed.

(** [updatePassword] touches the account of [req.user] only. *)
Lemma touches_updatePassword (req : Request) (requester : Doc) :
  req_user req = Some requester ->
  touches (_id (fields requester)) (updatePassword req) (fun _ => True).
Proof.
  intros Hr. unfold updatePassword. rewrite Hr.
  apply touches_try_catch; [| intros; apply touches_ret; exact I].
  destruct (negb (csrf_valid req)); [apply touches_ret; exact I |].
  eapply touches_bind; [apply touches_findById |].
  intros [u |] Hu; [| apply touches_throw].
  specialize (Hu u eq_refl). unfold held in Hu.
  eapply touches_bind;
    [apply touches_reads_only, reads_only_correctPassword |].
  intros correct _.
  destruct (negb correct); [apply touches_ret; exact I |].
  destruct (negb (passwordRegex_test (body_newPassword req)));
    [apply touches_ret; exact I |].
  eapply touches_bind; [apply touches_save; exact Hu |].
  intros u1 H1. unfold held in H1.
  eapply touches_bind; [rewrite <- H1; apply touches_log_password_change |].
  intros _ _. apply touches_reads_only, reads_only_createSendToken.
Qed.

Lemma spares_updatePassword (req : Request) : spares (updatePassword req).
Proof.
  destruct (req_user req) as [d |] eqn:Hd.
  - eapply spares_of_touches. apply touches_updatePassword. exact Hd.
  - apply spares_reads_only. unfold updatePassword. rewrite Hd.
    intros w. unfold try_catch.
    destruct (negb (csrf_valid req)); reflexivity.
Qed.

(** [signup] leaves every stored account as it was. *)
Lemma signup_keeps_all (req : Request) (w : World) (id : nat) :
  others_kept id (users w) (users (snd (signup req w))).
Proof.
  pose proof (aon_signup req w) as Haon.
  destruct (signup req w) as [[r | e] w'] eqn:Hrun; cbn [fst snd] in *.
  - destruct Haon as [Hst | Hsame].
    + destruct (signup_creates_unverified req w Hrun Hst) as [u [Hus _]].
      rewrite Hus. apply others_kept_insert.
    + rewrite Hsame. apply others_kept_refl.
  - rewrite Haon. apply others_kept_refl.
Qed.

Lemma spares_after_protect (handler : Request -> M Response)
  (req : Request) :
  (forall req, spares (handler req)) -> spares (after_protect handler req).
Proof.
  intros H. unfold after_protect.
  apply spares_bind_read; [apply reads_only_protect |].
  intros [r | req']; [apply spares_reads_only, reads_only_ret | apply H].
Qed.

(** X27: a request changes the accounts of one [_id] at most: whatever
    route of [routes/auth.js] serves it, there is an [_id] such that
    every stored account with another [_id] is in the collection
    afterwards exactly as it was. *)
Theorem request_changes_one_account_at_most (route : Route)
  (req : Request) (w : World) :
  exists id,
    forall v, In v (users w) -> _id v <> id ->
              In v (users_after (router route req w)).
Proof.
  unfold users_after.
  destruct route; cbn [router].
  - exists 0%nat. apply signup_keeps_all.
  - apply spares_login.
  - apply spares_reads_only, reads_only_logout.
  - apply spares_forgotPassword.
  - apply spares_resetPassword.
  - apply spares_after_protect. apply spares_updatePassword.
  - apply spares_after_protect. intros r.
    apply spares_reads_only, reads_only_validateToken.
Qed.

(** X28: [PATCH /update-password] changes the account that the token
    names and no other: when the request presents a signed token, every
    stored account whose [_id] is not the one in the token is in the
    collection afterwards exactly as it was. *)
Theorem update_password_changes_own_account_only (req : Request)
  (w : World) (key : string) (id : nat) (iat exp : Z) (v : User) :
  presented_token req = Some (Signed key id iat exp) ->
  In v (users w) -> _id v <> id ->
  In v (users_after (router PATCH_update_password req w)).
Proof.
  intros Htok' Hv Hne.
  unfold users_after. cbn [router]. unfold after_protect, bind.
  pose proof (reads_only_protect req w) as Hread.
  destruct (protect req w) as [[[r | req'] | e] w1] eqn:Hp;
    cbn [snd] in *.
  - cbv [ret]. cbn [snd]. rewrite Hread. exact Hv.
  - destruct (protect_grant req w Hp)
      as [Hro [id0 [iat0 [exp0 [u [Htok [_ [Hu [_ Hreq]]]]]]]]].
    assert (Hid : _id u = id0).
    { unfold account_by_id in Hu. apply find_some in Hu.
      destruct Hu as [_ Hq]. apply andb_true_iff in Hq.
      destruct Hq as [_ Hq]. apply Nat.eqb_eq in Hq. exact Hq. }
    assert (Hreq' : req_user req' = Some (hydrate (select false u))).
    { rewrite Hreq. reflexivity. }
    pose proof (touches_updatePassword req' Hreq' w1) as [Hk _].
    change (_id (fields (hydrate (select false u)))) with (_id u) in Hk.
    rewrite Hid, Hro in Hk.
    rewrite Htok in Htok'. injection Htok' as _ <- _ _.
    apply Hk; assumption.
  - rewrite Hread. exact Hv.
Qed.

End Touches.

(** [update_password_changes_own_account_only] at a change of the
    password of the demo account, which is carried out, and the stored
    administrator. *)
Lemma update_password_changes_own_account_only_witness :
  let run :=
    router (platform := Demo.platform) PATCH_update_password
      (Sample.change_password (Sample.session 1)) Sample.world in
  In Sample.root (users_after run)
  /\ option_map status (response_of run) = Some 200
  /\ map password (users_after run)
     = [Some "bcrypt:N3w!Passw0rd"; Some "bcrypt:R00t!Pass"].
Proof.
  intros run. split; [| split; vm_compute; reflexivity].
  refine (@update_password_changes_own_account_only Demo.platform
            (Sample.change_password (Sample.session 1)) Sample.world
            "secret" 1%nat 1700000600 1707776600 Sample.root _ _ _).
  - reflexivity.
  - right. left. reflexivity.
  - discriminate.
Defined.

(** * Stored names and emails stay valid *)

Section Profiles.

Context {platform : Platform}.

Lemma apply_delta_name (ps : list Path) (src dst : User) :
  name (apply_delta ps src dst) = name dst.
Proof.
  induction ps as [| p ps IH]; cbn; [reflexivity |].
  destruct p; cbn; exact IH.
Qed.

Lemma apply_delta_email (ps : list Path) (src dst : User) :
  existsb (Path_eqb p_email) ps = false ->
  email (apply_delta ps src dst) = email dst.
Proof.
  induction ps as [| p ps IH]; cbn; [reflexivity |].
  intros H. apply orb_false_elim in H. destruct H as [H1 H2].
  destruct p; cbn; try (apply IH; exact H2). discriminate.
Qed.

Lemma valid_profile_same (s s' : User) :
  name s' = name s -> email s' = email s ->
  valid_profile s -> valid_profile s'.
Proof.
  unfold valid_profile, validate_name, validate_email.
  intros -> ->. tauto.
Qed.

Lemma Forall_updateOne (P : User -> Prop) (filter : User -> bool)
  (f : User -> User) (l : list User) :
  (forall s, P s -> P (f s)) -> Forall P l -> Forall P (updateOne filter f l).
Proof.
  intros Hf Hl. induction Hl as [| a l Ha Hl IH]; cbn; [constructor |].
  destruct (filter a); constructor; auto.
Qed.

Lemma upholds_ret {A} (a : A) (Q : A -> Prop) : Q a -> upholds (ret a) Q.
Proof. intros H w Hw. split; [exact Hw | exact H]. Qed.

Lemma upholds_throw {A} (e : Exn) (Q : A -> Prop) : upholds (throw e) Q.
Proof. intros w Hw. split; [exact Hw | exact I]. Qed.

Lemma upholds_bind {A B} (c : M A) (k : A -> M B) (Q : A -> Prop)
  (Q' : B -> Prop) :
  upholds c Q -> (forall a, Q a -> upholds (k a) Q') ->
  upholds (bind c k) Q'.
Proof.
  intros Hc Hk w Hw. unfold bind. specialize (Hc w Hw).
  destruct (c w) as [[a | e] w1]; cbn [fst snd] in *.
  - destruct Hc as [Hw1 Ha]. exact (Hk a Ha w1 Hw1).
  - exact Hc.
Qed.

Lemma upholds_try_catch {A} (body : M A) (handler : Exn -> M A)
  (Q : A -> Prop) :
  upholds body Q -> (forall e, upholds (handler e) Q) ->
  upholds (try_catch body handler) Q.
Proof.
  intros Hb Hh w Hw. unfold try_catch. specialize (Hb w Hw).
  destruct (body w) as [[a | e] w1]; cbn [fst snd] in *; [exact Hb |].
  destruct Hb as [Hw1 _]. exact (Hh e w1 Hw1).
Qed.

(** What writes nothing upholds, with what it is known to return. *)
Lemma upholds_read {A} (c : M A) (Q : A -> Prop) :
  reads_only c -> keeps c Q -> upholds c Q.
Proof.
  intros Hr Hk w Hw. rewrite (Hr w). split; [exact Hw |].
  apply (Hk w).
Qed.

Lemma upholds_findByIdAndUpdate (id : nat) (f : User -> User) :
  (forall s, name (f s) = name s /\ email (f s) = email s) ->
  upholds (findByIdAndUpdate id f) (fun _ => True).
Proof.
  intros Hf w Hw. split; [| exact I]. cbn. apply Forall_updateOne;
    [| exact Hw].
  intros s Hs. destruct (Hf s) as [Hn He].
  exact (@valid_profile_same s (f s) Hn He Hs).
Qed.

Lemma upholds_log_password_change (t : EventType) (req : Request)
  (u : Doc) :
  upholds (log_password_change t req u) (fun _ => True).
Proof.
  intros w Hw. split; [| exact I]. cbn. apply Forall_updateOne;
    [| exact Hw].
  intros s Hs. apply (@valid_profile_same s); [reflexivity .. | exact Hs].
Qed.

(** The save of a stored document whose email was not assigned. *)
Lemma upholds_save (v : bool) (d : Doc) :
  settled d -> upholds (save v d) settled.
Proof.
  intros Hd. unfold save.
  eapply upholds_bind with (Q := fun _ => True).
  { destruct (v && negb (validate d));
      [apply upholds_throw | apply upholds_ret; exact I]. }
  intros _ _.
  eapply upholds_bind.
  { apply upholds_read;
      [apply reads_only_hash_password_hook
      | apply keeps_hash_password_hook; exact Hd]. }
  intros d1 Hd1.
  assert (He : email_hook d1 = d1).
  { unfold email_hook. destruct Hd1 as [_ [He _]]. rewrite He. reflexivity. }
  rewrite He. destruct Hd1 as [Hn [Hm Hv]].
  eapply upholds_bind with (Q := fun _ => True).
  - unfold write_doc. rewrite Hn. intros w Hw. split; [| exact I]. cbn.
    apply Forall_updateOne; [| exact Hw].
    intros s Hs. apply (@valid_profile_same s); [| | exact Hs].
    + apply apply_delta_name.
    + apply apply_delta_email. exact Hm.
  - intros _ _. apply upholds_ret. repeat split.
Qed.

(** The validated save of a new document: what it inserts passed the
    validators. *)
Lemma upholds_save_new (d : Doc) :
  isNew d = true -> upholds (save true d) settled.
Proof.
  intros Hn. unfold save. cbn [andb].
  destruct (validate d) eqn:Hval; cbn [negb].
  2:{ eapply upholds_bind with (Q := fun _ => False);
        [apply upholds_throw | intros _ []]. }
  assert (Hvalid : valid_profile (fields d)).
  { unfold validate in Hval. rewrite !andb_true_iff in Hval.
    destruct Hval as [[[Hname Hmail] _] _]. split; assumption. }
  eapply upholds_bind with (Q := fun _ => True);
    [apply upholds_ret; exact I |]. intros _ _.
  eapply upholds_bind
    with (Q := fun d1 => isNew d1 = true /\ valid_profile (fields d1)).
  { unfold hash_password_hook.
    destruct (isModified p_password d); cbn [negb];
      [| apply upholds_ret; split; assumption].
    destruct (password (fields d)); [| apply upholds_throw].
    eapply upholds_bind with (Q := fun _ => True).
    { apply upholds_read; [apply reads_only_randomBytes_hex
                          | apply keeps_randomBytes_hex]. }
    intros salt _.
    assert (Hk : forall p f d0, isNew (assign p f d0) = isNew d0)
      by reflexivity.
    rewrite !Hk, Hn. cbn [negb].
    apply upholds_ret. split; [exact Hn | exact Hvalid]. }
  intros d1 [Hn1 Hd1].
  assert (He : email_hook d1 = d1).
  { unfold email_hook. rewrite Hn1, andb_false_r. reflexivity. }
  rewrite He.
  eapply upholds_bind with (Q := fun _ => True).
  - unfold write_doc. rewrite Hn1.
    eapply upholds_bind with (Q := fun _ => True).
    { apply upholds_read; [intros w; reflexivity | apply keeps_find_users]. }
    intros l _.
    destruct (existsb _ l); [apply upholds_throw |].
    intros w Hw. split; [| exact I]. cbn.
    apply Forall_app. split; [exact Hw |]. constructor; [exact Hd1 |].
    constructor.
  - intros _ _. apply upholds_ret. repeat split.
Qed.

Lemma upholds_User_create (n e p c : option string) :
  upholds (User_create n e p c) settled.
Proof.
  unfold User_create.
  eapply upholds_bind with (Q := fun _ => True).
  { apply upholds_read; [intros w; reflexivity | apply keeps_find_users]. }
  intros l _.
  eapply upholds_bind with (Q := fun _ => True).
  { apply upholds_read; [apply reads_only_Date_now | apply keeps_Date_now]. }
  intros now _.
  apply upholds_save_new. reflexivity.
Qed.

(** Walks a handler, one step of the monad at a time. *)
Ltac uphold :=
  repeat first
    [ apply upholds_ret; exact I
    | apply upholds_throw
    | apply upholds_read;
        [apply reads_only_createSendToken | apply keeps_createSendToken]
    | apply upholds_log_password_change
    | apply upholds_try_catch; [| intros ]
    | eapply upholds_bind;
        [ first [ apply upholds_read;
                    [apply reads_only_Date_now | apply keeps_Date_now]
                | apply upholds_read;
                    [apply reads_only_randomBytes_hex
                    | apply keeps_randomBytes_hex]
                | apply upholds_read;
                    [apply reads_only_findOne | apply keeps_findOne]
                | apply upholds_read;
                    [apply reads_only_correctPassword
                    | apply keeps_correctPassword]
                | apply upholds_User_create
                | apply upholds_findByIdAndUpdate; intros; split; reflexivity
                | apply upholds_log_password_change
                | apply upholds_save;
                    repeat (apply settled_assign;
                            [reflexivity | reflexivity |]);
                    auto ]
        | intros ]
    | match goal with
      | |- upholds (if ?b then _ else _) _ => destruct b
      | |- upholds (match ?x with _ => _ end) _ => destruct x eqn:?
      end ].

Lemma upholds_signup (req : Request) : upholds (signup req) (fun _ => True).
Proof. unfold signup, createSecureToken. uphold. Qed.

Lemma upholds_login (req : Request) : upholds (login req) (fun _ => True).
Proof. unfold login, login_unlock, login_granted. uphold. Qed.

Lemma upholds_forgotPassword (req : Request) :
  upholds (forgotPassword req) (fun _ => True).
Proof. unfold forgotPassword, createSecureToken. uphold. Qed.

Lemma upholds_resetPassword (req : Request) :
  upholds (resetPassword req) (fun _ => True).
Proof. unfold resetPassword, resetPassword_assign. uphold. Qed.

Lemma upholds_updatePassword (req : Request) :
  upholds (updatePassword req) (fun _ => True).
Proof. unfold updatePassword, updatePassword_assign, findById. uphold. Qed.

Lemma upholds_router (route : Route) (req : Request) :
  upholds (router route req) (fun _ => True).
Proof.
  destruct route; cbn [router]; unfold after_protect;
    first [ apply upholds_signup | apply upholds_login
          | apply upholds_forgotPassword | apply upholds_resetPassword
          | apply upholds_read; [apply reads_only_logout | apply keeps_logout]
          | eapply upholds_bind;
            [apply upholds_read;
               [apply reads_only_protect | apply keeps_protect] |];
            intros [r | req'] _;
            [ apply upholds_ret; exact I
            | first [ apply upholds_updatePassword
                    | apply upholds_read;
                        [apply reads_only_validateToken
                        | apply keeps_validateToken] ] ] ].
Qed.

(** X29: the stored names and emails stay valid.  When every account of
    the collection has a name and an email that pass the validators of
    the schema (a name of 1 to 50 characters, an email that
    [validator.isEmail] accepts), so has every account of the collection
    after any series of requests to the routes of [routes/auth.js]:
    [signup] stores what it has validated, and no route writes a name or
    an email. *)
Theorem stored_profiles_stay_valid (calls : list (Route * Request))
  (w : World) :
  (forall u, In u (users w) ->
             validate_name u = true /\ validate_email u = true) ->
  forall u, In u (users (serve calls w)) ->
            validate_name u = true /\ validate_email u = true.
Proof.
  intros Hw. apply Forall_forall.
  assert (H0 : Forall valid_profile (users w))
    by (apply Forall_forall; exact Hw).
  clear Hw. revert w H0.
  induction calls as [| [route req] rest IH]; intros w Hw; cbn [serve].
  - exact Hw.
  - apply IH. apply (upholds_router route req w Hw).
Qed.

End Profiles.

(** [stored_profiles_stay_valid] at a registration served in the sample
    world. *)
Lemma stored_profiles_stay_valid_witness :
  Forall (valid_profile (platform := Demo.platform))
    (users (serve (platform := Demo.platform)
              [(POST_signup, Sample.registration)] Sample.world)).
Proof.
  apply Forall_forall.
  apply (@stored_profiles_stay_valid Demo.platform
           [(POST_signup, Sample.registration)] Sample.world).
  intros u [<- | [<- | []]]; split; reflexivity.
Defined.
